(** * CareXpert backend: the session and token lifecycle

    A shallow embedding of the handlers that issue, rotate, check and revoke
    bearer tokens ([generateToken], [login], [logout], [refreshAccessToken]
    of the user controller, [isAuthenticated] of the auth middleware and
    [softDeleteUser] of the admin controller), over a model of the [User]
    table, of [jsonwebtoken] and of [bcrypt]; and of what sits behind the
    gate: the symptom controller, the routes that chain the gate with a
    handler, [listAllUsers] of the admin controller and the two
    aggregations of the analytics controller.

    Conventions.
    - Time is counted in seconds, as the [iat]/[exp] claims of a JWT are.
    - A string is the sequence of bytes of its UTF-8 encoding.
    - Strings that cryptography produces are symbolic ([text]): a compact
      JWS remembers the key it was signed with, its claims and its expiry;
      a bcrypt digest remembers its salt and the text it digests.
    - The [User] table is a finite map from the primary key [id] to the row.
    - A handler is a function from the table to the table and a completion
      (a value returned or an exception thrown), so that [try]/[catch] of
      the source can be written as it is.

    Left out of the model: [tokenVersion] is an unbounded integer (the
    width of the column is not in the sources); the secrets of
    [process.env] are defined strings; strings that are no well-formed
    UTF-16 (a lone surrogate) have no UTF-8 bytes and are not modelled;
    requests are served one at a time. *)

From Stdlib Require Import ZArith Ascii String.
From stdpp Require Import gmap strings option sorting.

Open Scope string_scope.
Open Scope Z_scope.

(** ** JavaScript values *)

(** The primitive JSON values; [S] is the type of strings. Objects and
    arrays do not occur in the fields modelled here. *)
Inductive value (S : Type) : Type :=
| Undefined
| Null
| Boolean (b : bool)
| Num (n : Z)
| Str (s : S).

Arguments Undefined {S}.
Arguments Null {S}.
Arguments Boolean {S} b.
Arguments Num {S} n.
Arguments Str {S} s.

#[global] Instance value_eq_dec {S} `{EqDecision S} : EqDecision (value S).
Proof. solve_decision. Defined.

(** ** Strings *)

Module Js.

(** A string is held as the bytes of its UTF-8 encoding: a character
    below U+0080 is one byte, the others are two to four bytes, the first
    of them 0xC2 or above and the following ones between 0x80 and 0xBF.

    The white space of [String.prototype.trim] and of [parseInt] is the
    [WhiteSpace] and the [LineTerminator] of ECMAScript. Within one byte:
    TAB, LF, VT, FF, CR and SPACE. *)
Definition is_space (c : ascii) : bool :=
  let n := nat_of_ascii c in
  ((9 <=? n)%nat && (n <=? 13)%nat) || (n =? 32)%nat.

(** Within two bytes: U+00A0 (no-break space), [C2 A0]. *)
Definition is_space2 (a b : ascii) : bool :=
  (nat_of_ascii a =? 194)%nat && (nat_of_ascii b =? 160)%nat.

(** Within three bytes: U+1680 [E1 9A 80]; U+2000 to U+200A
    [E2 80 80] to [E2 80 8A]; the line and paragraph separators U+2028
    and U+2029 [E2 80 A8], [E2 80 A9]; U+202F [E2 80 AF]; U+205F
    [E2 81 9F]; U+3000 [E3 80 80]; U+FEFF [EF BB BF]. *)
Definition is_space3 (a b c : ascii) : bool :=
  let x := nat_of_ascii a in
  let y := nat_of_ascii b in
  let z := nat_of_ascii c in
  ((x =? 225) && (y =? 154) && (z =? 128))%nat
  || ((x =? 226) && (y =? 128)
      && (((128 <=? z) && (z <=? 138)) || (z =? 168) || (z =? 169) || (z =? 175)))%nat
  || ((x =? 226) && (y =? 129) && (z =? 159))%nat
  || ((x =? 227) && (y =? 128) && (z =? 128))%nat
  || ((x =? 239) && (y =? 187) && (z =? 191))%nat.

Fixpoint trimStart (s : string) : string :=
  match s with
  | String a s1 =>
      if is_space a then trimStart s1
      else
        match s1 with
        | String b s2 =>
            if is_space2 a b then trimStart s2
            else
              match s2 with
              | String c s3 => if is_space3 a b c then trimStart s3 else s
              | EmptyString => s
              end
        | EmptyString => s
        end
  | EmptyString => EmptyString
  end.

(** Whether [s] is made of white space only. *)
Fixpoint all_space (s : string) : bool :=
  match s with
  | String a s1 =>
      if is_space a then all_space s1
      else
        match s1 with
        | String b s2 =>
            if is_space2 a b then all_space s2
            else
              match s2 with
              | String c s3 => if is_space3 a b c then all_space s3 else false
              | EmptyString => false
              end
        | EmptyString => false
        end
  | EmptyString => true
  end.

(** [trimEnd] drops the longest suffix made of white space only. A white
    space character starts with a byte that is no continuation byte, so
    such a suffix starts at a character of [s]. *)
Fixpoint trimEnd (s : string) : string :=
  match s with
  | String a s1 => if all_space s then EmptyString else String a (trimEnd s1)
  | EmptyString => EmptyString
  end.

Definition trim (s : string) : string := trimEnd (trimStart s).

(** ASCII lower case, the folding that a case-insensitive [equals] of the
    query layer applies to both sides. It is [String.prototype.toLowerCase]
    on strings of ASCII characters only. *)
Definition lower_char (c : ascii) : ascii :=
  let n := nat_of_ascii c in
  if ((65 <=? n)%nat && (n <=? 90)%nat)%bool then ascii_of_nat (n + 32) else c.

Fixpoint toLowerCase (s : string) : string :=
  match s with
  | String c s' => String (lower_char c) (toLowerCase s')
  | EmptyString => EmptyString
  end.

Definition equals_insensitive (a b : string) : bool :=
  bool_decide (toLowerCase a = toLowerCase b).

(** [s.replace(pat, "")]: the first occurrence of [pat] is removed. *)
Fixpoint remove_first (pat s : string) : string :=
  if String.prefix pat s then
    String.substring (String.length pat) (String.length s - String.length pat) s
  else
    match s with
    | String c s' => String c (remove_first pat s')
    | EmptyString => EmptyString
    end.

End Js.

(** ** Tokens and digests *)

Module Payload.
(** The claims object the session core signs. Any JSON value can sit in
    either field of a token that verifies, whence [value]. *)
Record t := mk { userId : value string; tokenVersion : value string }.

#[global] Instance eq_dec : EqDecision t.
Proof. solve_decision. Defined.
End Payload.

(** What [jwt.verify] hands back: an object, or a bare string when the
    token was signed over a string. *)
Inductive claims :=
| ClaimsObject (p : Payload.t)
| ClaimsString (s : string).

#[global] Instance claims_eq_dec : EqDecision claims.
Proof. solve_decision. Defined.

(** Strings as the session core sees them.
    - [Literal s]: a string that is neither a compact JWS nor a bcrypt
      digest (a password, a user name, a garbled token).
    - [Jws key c exp]: the compact serialisation of claims [c], signed
      with [key], expiring at [exp] when it carries an [exp] claim.
    - [BcryptDigest salt plain]: the 60 characters ["$2b$10$..."] that
      [bcrypt.hash] produces for [plain] with [salt]. It contains ['$'],
      which base64url and ['.'] exclude, so it is never a JWS. *)
Inductive text :=
| Literal (s : string)
| Jws (key : string) (c : claims) (exp : option Z)
| BcryptDigest (salt : N) (plain : text).

#[global] Instance text_eq_dec : EqDecision text.
Proof.
  refine (fix go (x y : text) {struct x} : Decision (x = y) :=
    match x, y with
    | Literal s, Literal s' => cast_if (decide (s = s'))
    | Jws k c e, Jws k' c' e' =>
        cast_if_and3 (decide (k = k')) (decide (c = c')) (decide (e = e'))
    | BcryptDigest n p, BcryptDigest n' p' =>
        cast_if_and (decide (n = n')) (go p p')
    | _, _ => right _
    end); abstract congruence.
Defined.

(** JavaScript truthiness of a string: only the empty string is falsy. *)
Definition truthy (t : text) : bool :=
  match t with
  | Literal "" => false
  | _ => true
  end.

(** [a || b] on values that are strings or [undefined]. *)
Definition or_else (a b : option text) : option text :=
  match a with
  | Some t => if truthy t then a else b
  | None => b
  end.

(** [!token] *)
Definition falsy (a : option text) : bool :=
  match a with
  | Some t => negb (truthy t)
  | None => true
  end.

Module jwt.

Inductive result :=
| Decoded (c : claims)
| JsonWebTokenError     (* malformed token or invalid signature *)
| TokenExpiredError.

#[global] Instance result_eq_dec : EqDecision result.
Proof. solve_decision. Defined.

(** [jwt.verify(token, secret)] at time [now]: the signature is checked
    first, then the expiry; the token is expired from [exp] on. *)
Definition verify (now : Z) (token : text) (secret : string) : result :=
  match token with
  | Jws key c exp =>
      if bool_decide (key = secret) then
        match exp with
        | Some e => if bool_decide (e <= now) then TokenExpiredError else Decoded c
        | None => Decoded c
        end
      else JsonWebTokenError
  | _ => JsonWebTokenError
  end.

End jwt.

Module bcrypt.

(** [bcrypt.hash(data, 10)] with the salt the library draws. *)
Definition hash (salt : N) (data : text) : text := BcryptDigest salt data.

(** The 72 bytes that the key schedule of bcrypt reads: the bytes of the
    string and a closing zero byte, over and over. Of a string of 72 bytes
    or more these are its first 72 bytes. *)
Fixpoint stream (n : nat) (key rest : string) : string :=
  match n with
  | O => EmptyString
  | S n =>
      match rest with
      | String c rest => String c (stream n key rest)
      | EmptyString => String zero (stream n key key)
      end
  end.

(** What bcrypt reads of its input. A token and a digest are kept whole:
    the handlers compare passwords only, which are [Literal]. *)
Definition key (data : text) : text :=
  match data with
  | Literal s => Literal (stream 72 s s)
  | _ => data
  end.

(** [bcrypt.compare(data, encrypted)]: whether [encrypted] digests the
    bytes that bcrypt reads of [data]; a string that is no digest compares
    false. *)
Definition compare (data : text) (encrypted : text) : bool :=
  match encrypted with
  | BcryptDigest _ plain => bool_decide (key plain = key data)
  | _ => false
  end.

End bcrypt.

(** ** The User table *)

Inductive Role := PATIENT | DOCTOR | ADMIN.

#[global] Instance Role_eq_dec : EqDecision Role.
Proof. solve_decision. Defined.

Module User.

(** A row of the [User] table, without its primary key [id] (the key of
    the map below). [patient] and [doctor] are the ids of the related
    [Patient] and [Doctor] rows, as a nested [select] reads them.
    Instants ([deletedAt], [tokenExpiresAt]) are in seconds. *)
Record t := mk {
  name : string;
  email : string;
  password : text;
  role : Role;
  profilePicture : option string;
  refreshToken : option text;
  tokenVersion : Z;
  deletedAt : option Z;
  isEmailVerified : bool;
  emailVerificationToken : option string;
  tokenExpiresAt : option Z;
  patient : option string;
  doctor : option string
}.

Definition with_tokenVersion (f : Z → Z) (u : t) : t :=
  mk (name u) (email u) (password u) (role u) (profilePicture u)
     (refreshToken u) (f (tokenVersion u)) (deletedAt u) (isEmailVerified u)
     (emailVerificationToken u) (tokenExpiresAt u) (patient u) (doctor u).

Definition with_refreshToken (r : option text) (u : t) : t :=
  mk (name u) (email u) (password u) (role u) (profilePicture u)
     r (tokenVersion u) (deletedAt u) (isEmailVerified u)
     (emailVerificationToken u) (tokenExpiresAt u) (patient u) (doctor u).

Definition with_deletedAt (d : option Z) (u : t) : t :=
  mk (name u) (email u) (password u) (role u) (profilePicture u)
     (refreshToken u) (tokenVersion u) d (isEmailVerified u)
     (emailVerificationToken u) (tokenExpiresAt u) (patient u) (doctor u).

Definition with_verification (v : bool) (tok : option string) (e : option Z) (u : t) : t :=
  mk (name u) (email u) (password u) (role u) (profilePicture u)
     (refreshToken u) (tokenVersion u) (deletedAt u) v tok e
     (patient u) (doctor u).

End User.

Abbreviation Db := (gmap string User.t).

(** ** Handlers as state and exception passing *)

Inductive exn :=
| TypeError
| JwtError (e : jwt.result)
| PrismaNotFound            (* an [update] whose [where] matches no row *)
| PrismaValidation          (* a [where] value of the wrong type *)
| ApiErrorThrown (statusCode : Z) (message : string).

Inductive completion (A : Type) : Type :=
| Returned (a : A)
| Thrown (e : exn).

Arguments Returned {A} a.
Arguments Thrown {A} e.

Definition M (A : Type) : Type := Db → Db * completion A.

Definition ret {A} (a : A) : M A := λ db, (db, Returned a).

Definition throw {A} (e : exn) : M A := λ db, (db, Thrown e).

Definition bind {A B} (m : M A) (k : A → M B) : M B :=
  λ db, match m db with
        | (db', Returned a) => k a db'
        | (db', Thrown e) => (db', Thrown e)
        end.

(** [try { m } catch (e) { h e }] *)
Definition try_catch {A} (m : M A) (h : exn → M A) : M A :=
  λ db, match m db with
        | (db', Thrown e) => h e db'
        | r => r
        end.

Notation "x <- m ;; k" := (bind m (λ x, k))
  (at level 100, m at next level, right associativity).

Module prisma.

(** [prisma.user.findUnique({ where: { id } })] *)
Definition findUnique (id : string) : M (option User.t) :=
  λ db, (db, Returned (db !! id)).

(** [prisma.user.findFirst({ where: { id, ...rest } })].
    A field whose value is [undefined] is left out of the filter, so
    without an [id] the first row (in table order) that passes [rest]
    is returned; an [id] that is not a string is refused. *)
Definition findFirst (id : value string) (rest : User.t → bool)
  : M (option (string * User.t)) :=
  λ db,
    match id with
    | Str i =>
        (db, Returned (u ← db !! i; if rest u then Some (i, u) else None))
    | Undefined =>
        (db, Returned (head (filter (λ r, rest r.2 = true) (map_to_list db))))
    | _ => (db, Thrown PrismaValidation)
    end.

(** [prisma.user.findFirst({ where })] with no key in [where]. *)
Definition findFirstWhere (p : string → User.t → bool)
  : M (option (string * User.t)) :=
  λ db, (db, Returned (head (filter (λ r, p r.1 r.2 = true) (map_to_list db)))).

(** [prisma.user.update({ where: { id }, data })]: the updated row is
    returned; with no such row the call throws. *)
Definition update (id : string) (data : User.t → User.t) : M User.t :=
  λ db,
    match db !! id with
    | Some u => (<[id := data u]> db, Returned (data u))
    | None => (db, Thrown PrismaNotFound)
    end.

End prisma.

(** ** Configuration and ambient inputs *)

(** [process.env] *)
Record Env := {
  ACCESS_TOKEN_SECRET : string;
  REFRESH_TOKEN_SECRET : string;
  ACCESS_TOKEN_EXPIRY : Z;       (* seconds *)
  REFRESH_TOKEN_EXPIRY : Z;      (* seconds *)
  NODE_ENV : string
}.

(** What a handler reads from outside the request and the table: the clock
    when it runs and the salt [bcrypt] draws for it. *)
Record Ambient := { clock : Z; salt : N }.

(** ** HTTP responses *)

Record CookieOptions := { httpOnly : bool; secure : bool; sameSite : string }.

Inductive data :=
| LoginData (id name email : string) (role : Role)
            (profilePicture : option string) (accessToken : text)
| TokenData (accessToken refreshToken : text)
| DeletedUserData (id name email : string) (role : Role) (deletedAt : option Z)
| TextData (s : string).

Inductive body :=
| ApiError (statusCode : Z) (message : string)
| ApiResponse (statusCode : Z) (d : data) (message : option string).

Record Response := {
  status : Z;
  cookies : list (string * text * CookieOptions);
  clearedCookies : list (string * CookieOptions);
  json : body
}.

(** [res.status(code).json(new ApiError(code, message))] *)
Definition reject (code : Z) (message : string) : Response :=
  {| status := code; cookies := []; clearedCookies := [];
     json := ApiError code message |}.

(** [res.json(new ApiError(code, message))]: the status line is left at
    its default. *)
Definition json_only (code : Z) (message : string) : Response :=
  {| status := 200; cookies := []; clearedCookies := [];
     json := ApiError code message |}.

(** ** Requests *)

Module AuthUser.
(** [req.user], as the auth gate attaches it: the selected columns of the
    row and the ids of the role-specific sub-profiles. *)
Record t := mk {
  id : string;
  name : string;
  email : string;
  role : Role;
  tokenVersion : Z;
  patient : option string;
  doctor : option string
}.
End AuthUser.

(** The [Authorization] header: ["Bearer "] followed by a string, or a
    string sent bare. *)
Inductive header :=
| Bearer (t : text)
| Bare (t : text).

(** [header.replace("Bearer ", "")]. A JWS or a digest holds no space, so
    only a literal string can lose an occurrence of its own. *)
Definition replace_Bearer (h : header) : text :=
  match h with
  | Bearer t => t
  | Bare (Literal s) => Literal (Js.remove_first "Bearer " s)
  | Bare t => t
  end.

Record AuthRequest := {
  cookies_accessToken : option text;
  header_Authorization : option header
}.

Record LoginRequest := {
  body_data : value string;
  body_password : value string
}.

Record RefreshRequest := {
  cookies_refreshToken : option text;
  body_refreshToken : value text
}.

(** [req.cookies?.accessToken || req.header("Authorization")?.replace("Bearer ", "")] *)
Definition bearer_token (req : AuthRequest) : option text :=
  or_else (cookies_accessToken req) (replace_Bearer <$> header_Authorization req).

(** The columns the auth gate selects from the row of key [id]. *)
Definition selected (id : string) (user : User.t) : AuthUser.t :=
  AuthUser.mk id (User.name user) (User.email user) (User.role user)
              (User.tokenVersion user) (User.patient user) (User.doctor user).

(** What the auth gate does with a request: it lets it through with
    [req.user] set, or it answers itself. *)
Inductive outcome :=
| Next (user : AuthUser.t)
| Respond (r : Response).

(** Truthiness of a JSON value whose strings are of type [string]. *)
Definition value_truthy (v : value string) : bool :=
  match v with
  | Str s => negb (bool_decide (s = ""))
  | Num n => negb (bool_decide (n = 0))
  | Boolean b => b
  | Undefined | Null => false
  end.

(** [field.trim()]: only a string has the method. *)
Definition value_trim (v : value string) : M string :=
  match v with
  | Str s => ret (Js.trim s)
  | _ => throw TypeError
  end.

(** ** The session core *)

Section SessionCore.

Context (env : Env).

(** [isValidUUID] of [utils/helper], which is not among the sources. *)
Context (isValidUUID : string → bool).

(** Modelled from the spec: [generateAccessToken] of [utils/jwt] is
    missing from the sources. Following [mint], it signs the subject id
    and the token version with an expiry; the kind of the token is the
    secret it is signed with, which is how the handlers tell the kinds
    apart. *)
Definition generateAccessToken (now : Z) (userId : string) (tokenVersion : Z) : text :=
  Jws (ACCESS_TOKEN_SECRET env)
      (ClaimsObject (Payload.mk (Str userId) (Num tokenVersion)))
      (Some (now + ACCESS_TOKEN_EXPIRY env)).

(** Modelled from the spec: [generateRefreshToken] of [utils/jwt] is
    missing from the sources; as [generateAccessToken], with the refresh
    secret and lifetime. *)
Definition generateRefreshToken (now : Z) (userId : string) (tokenVersion : Z) : text :=
  Jws (REFRESH_TOKEN_SECRET env)
      (ClaimsObject (Payload.mk (Str userId) (Num tokenVersion)))
      (Some (now + REFRESH_TOKEN_EXPIRY env)).

Definition options : CookieOptions :=
  {| httpOnly := true;
     secure := bool_decide (NODE_ENV env = "production");
     sameSite := "lax" |}.

Definition generateToken (w : Ambient) (userId : string) : M (text * text) :=
  try_catch
    (user <- prisma.update userId (User.with_tokenVersion (λ v, v + 1));;
     let accessToken := generateAccessToken (clock w) userId (User.tokenVersion user) in
     let refreshToken := generateRefreshToken (clock w) userId (User.tokenVersion user) in
     let hashedRefresh := bcrypt.hash (salt w) refreshToken in
     _ <- prisma.update userId (User.with_refreshToken (Some hashedRefresh));;
     ret (accessToken, refreshToken))
    (λ _, throw (ApiErrorThrown 500 "Error in generating token")).

(** The [where] of [login]: [email] or [name] equals [data], case
    insensitively. *)
Definition email_or_name (data : string) (id : string) (u : User.t) : bool :=
  Js.equals_insensitive (User.email u) data
  || Js.equals_insensitive (User.name u) data.

Definition login (w : Ambient) (req : LoginRequest) : M Response :=
  let data := body_data req in
  let password := body_password req in
  try_catch
    (if negb (value_truthy data) then
       ret (json_only 400 "username or email is required")
     else
       (* [password, data].some((field) => field.trim() === "") *)
       p <- value_trim password;;
       blank <- (if bool_decide (p = "") then ret true
                 else d <- value_trim data;; ret (bool_decide (d = "")));;
       if blank : bool then ret (json_only 400 "All field required")
       else
         match data, password with
         | Str data, Str password =>
             user <- prisma.findFirstWhere (email_or_name data);;
             match user with
             | None => ret (reject 401 "Invalid username or password")
             | Some (id, user) =>
                 if bool_decide (is_Some (User.deletedAt user)) then
                   ret (reject 403
                     "This account has been deactivated. Please contact support.")
                 else if negb (bcrypt.compare (Literal password) (User.password user)) then
                   ret (reject 401 "Invalid username or password")
                 else
                   tokens <- generateToken w id;;
                   let '(accessToken, refreshToken) := tokens in
                   ret {| status := 200;
                          cookies := [("accessToken", accessToken, options);
                                      ("refreshToken", refreshToken, options)];
                          clearedCookies := [];
                          json := ApiResponse 200
                                    (LoginData id (User.name user) (User.email user)
                                       (User.role user) (User.profilePicture user)
                                       accessToken)
                                    (Some "Login successfully") |}
             end
         | _, _ => throw TypeError
         end)
    (λ _, ret (reject 500 "Internal server error")).

Definition logout (user : option AuthUser.t) : M Response :=
  try_catch
    (match user with
     | None => throw TypeError          (* [req.user.id] of [undefined] *)
     | Some u =>
         _ <- prisma.update (AuthUser.id u)
                (λ r, User.with_tokenVersion (λ v, v + 1)
                        (User.with_refreshToken (Some (Literal "")) r));;
         ret {| status := 200;
                cookies := [];
                clearedCookies := [("accessToken", options); ("refreshToken", options)];
                json := ApiResponse 200 (TextData "Logout successfully") None |}
     end)
    (λ _, ret (reject 500 "internal server error")).

(** [req.cookies?.refreshToken || req.body?.refreshToken] *)
Definition incomingRefreshToken (req : RefreshRequest) : value text :=
  match cookies_refreshToken req with
  | Some t => if truthy t then Str t else body_refreshToken req
  | None => body_refreshToken req
  end.

Definition refreshAccessToken (w : Ambient) (req : RefreshRequest) : M Response :=
  try_catch
    (match incomingRefreshToken req with
     | Undefined | Null | Boolean false | Num 0 | Str (Literal "") =>
         ret (reject 401 "Refresh token is required")
     | Boolean true | Num _ =>
         (* [jwt.verify] throws on what is not a string, inside the inner [try] *)
         ret (reject 401 "Invalid or expired refresh token")
     | Str incoming =>
         match jwt.verify (clock w) incoming (REFRESH_TOKEN_SECRET env) with
         | jwt.Decoded (ClaimsObject (Payload.mk (Str userId) (Num tokenVersion))) =>
             user <- prisma.findUnique userId;;
             match user with
             | None => ret (reject 401 "User not found")
             | Some user =>
                 if negb (bool_decide (User.refreshToken user = Some incoming)) then
                   ret (reject 401 "Refresh token has been revoked")
                 else if negb (bool_decide (tokenVersion = User.tokenVersion user)) then
                   ret (reject 401 "Token version mismatch, please login again")
                 else
                   tokens <- generateToken w userId;;
                   let '(accessToken, refreshToken) := tokens in
                   ret {| status := 200;
                          cookies := [("accessToken", accessToken, options);
                                      ("refreshToken", refreshToken, options)];
                          clearedCookies := [];
                          json := ApiResponse 200 (TokenData accessToken refreshToken)
                                    (Some "Token refreshed successfully") |}
             end
         | jwt.Decoded _ => ret (reject 401 "Invalid token payload")
         | _ => ret (reject 401 "Invalid or expired refresh token")
         end
     end)
    (λ _, ret (reject 500 "Internal server error")).

(** [auth.middleware.ts] *)
Definition isAuthenticated (now : Z) (req : AuthRequest) : M outcome :=
  try_catch
    (let token := bearer_token req in
     match token with
     | Some token =>
         if negb (truthy token) then
           ret (Respond (reject 401 "Unauthorized request"))
         else
           match jwt.verify now token (ACCESS_TOKEN_SECRET env) with
           | jwt.Decoded (ClaimsObject decodedToken) =>
               user <- prisma.findFirst (Payload.userId decodedToken)
                         (λ u, bool_decide (User.deletedAt u = None));;
               match user with
               | None =>
                   ret (Respond (reject 401 "Account not found or has been deactivated"))
               | Some (id, user) =>
                   (* Verify token version matches *)
                   if negb (bool_decide (Payload.tokenVersion decodedToken = Undefined))
                      && negb (bool_decide (Payload.tokenVersion decodedToken
                                            = Num (User.tokenVersion user)))
                   then
                     ret (Respond (reject 401
                                     "Token has been invalidated, please login again"))
                   else
                     (* [req.user = { ...user, patient, doctor }; next()] *)
                     ret (Next (selected id user))
               end
           | jwt.Decoded (ClaimsString _) => ret (Respond (reject 401 "Invalid token"))
           | e => throw (JwtError e)
           end
     | None => ret (Respond (reject 401 "Unauthorized request"))
     end)
    (λ _, ret (Respond (reject 500 "error in authenticated"))).

(** [admin.controller.ts]; [userId] is [req.params.userId] and [user] is
    [req.user]. *)
Definition softDeleteUser (now : Z) (userId : string) (user : option AuthUser.t)
  : M Response :=
  let adminUserId := AuthUser.id <$> user in
  if bool_decide (userId = "") || negb (isValidUUID userId) then
    ret (reject 400 "Valid user ID is required")
  else if bool_decide (Some userId = adminUserId) then
    ret (reject 400 "Cannot delete your own account")
  else
    try_catch
      (user <- prisma.findUnique userId;;
       match user with
       | None => ret (reject 404 "User not found")
       | Some user =>
           if bool_decide (is_Some (User.deletedAt user)) then
             ret (reject 400 "User is already deleted")
           else
             deletedUser <- prisma.update userId (User.with_deletedAt (Some now));;
             ret {| status := 200; cookies := []; clearedCookies := [];
                    json := ApiResponse 200
                              (DeletedUserData userId (User.name deletedUser)
                                 (User.email deletedUser) (User.role deletedUser)
                                 (User.deletedAt deletedUser))
                              (Some "User soft deleted successfully") |}
       end)
      (λ _, ret (reject 500 "Failed to delete user")).

(** *** Rows and answers, named for the statements below *)

(** The row [generateToken] leaves for a subject. *)
Definition issued_row (w : Ambient) (userId : string) (u : User.t) : User.t :=
  User.with_refreshToken
    (Some (bcrypt.hash (salt w)
             (generateRefreshToken (clock w) userId (User.tokenVersion u + 1))))
    (User.with_tokenVersion (λ v, v + 1) u).

(** The answer of a [login] that issued a pair. *)
Definition login_ok (id : string) (u : User.t) (accessToken refreshToken : text)
  : Response :=
  {| status := 200;
     cookies := [("accessToken", accessToken, options);
                 ("refreshToken", refreshToken, options)];
     clearedCookies := [];
     json := ApiResponse 200
               (LoginData id (User.name u) (User.email u) (User.role u)
                  (User.profilePicture u) accessToken)
               (Some "Login successfully") |}.

(** The answer of a refresh that issued a pair. *)
Definition refresh_ok (accessToken refreshToken : text) : Response :=
  {| status := 200;
     cookies := [("accessToken", accessToken, options);
                 ("refreshToken", refreshToken, options)];
     clearedCookies := [];
     json := ApiResponse 200 (TokenData accessToken refreshToken)
               (Some "Token refreshed successfully") |}.

(** The answer of a [logout] that went through. *)
Definition logout_ok : Response :=
  {| status := 200; cookies := [];
     clearedCookies := [("accessToken", options); ("refreshToken", options)];
     json := ApiResponse 200 (TextData "Logout successfully") None |}.

End SessionCore.

(** ** Email verification tokens *)

Module VerificationTokenManager.

Inductive reject_reason := NotFound | Mismatch | Expired.

Inductive verdict := Verified | Reject (r : reject_reason).

(** Modelled from the spec: the handler behind [issue] (the part of
    [signup] and [resendVerificationEmail] that stores a token) is
    missing from the sources. It stores the generated token with an
    expiry 24 hours ahead; [None] stands for an absent subject. *)
Definition issue (now : Z) (token : string) (subjectId : string) : M (option string) :=
  λ db, match db !! subjectId with
        | Some u =>
            (<[subjectId := User.with_verification (User.isEmailVerified u)
                              (Some token) (Some (now + 24 * 60 * 60)) u]> db,
             Returned (Some token))
        | None => (db, Returned None)
        end.

(** Modelled from the spec: [verifyEmail] of the user controller is
    missing from the sources. In the order of the spec: [NotFound] for
    an absent subject, [Mismatch] when the presented token differs from
    the stored one, [Expired] when [now] is past [tokenExpiresAt];
    otherwise the token and its expiry are cleared and the subject is
    marked verified, in one update. *)
Definition consume (now : Z) (subjectId : string) (presentedToken : string)
  : M verdict :=
  λ db, match db !! subjectId with
        | None => (db, Returned (Reject NotFound))
        | Some u =>
            if negb (bool_decide (User.emailVerificationToken u = Some presentedToken))
            then (db, Returned (Reject Mismatch))
            else if match User.tokenExpiresAt u with
                    | Some e => bool_decide (e < now)
                    | None => false
                    end
            then (db, Returned (Reject Expired))
            else (<[subjectId := User.with_verification true None None u]> db,
                  Returned Verified)
        end.

End VerificationTokenManager.

(** ** Sequences of requests *)

(** One request to a handler of this development, with what it reads from
    outside the table. *)
Inductive call :=
| CallLogin (w : Ambient) (req : LoginRequest)
| CallRefresh (w : Ambient) (req : RefreshRequest)
| CallLogout (user : option AuthUser.t)
| CallAuthenticate (now : Z) (req : AuthRequest)
| CallSoftDelete (now : Z) (userId : string) (user : option AuthUser.t)
| CallIssueVerification (now : Z) (token : string) (subjectId : string)
| CallConsumeVerification (now : Z) (subjectId : string) (presentedToken : string).

Section Calls.

Context (env : Env) (isValidUUID : string → bool).

(** The table after one request. *)
Definition exec (c : call) (db : Db) : Db :=
  match c with
  | CallLogin w req => (login env w req db).1
  | CallRefresh w req => (refreshAccessToken env w req db).1
  | CallLogout user => (logout env user db).1
  | CallAuthenticate now req => (isAuthenticated env now req db).1
  | CallSoftDelete now userId user => (softDeleteUser isValidUUID now userId user db).1
  | CallIssueVerification now token subjectId =>
      (VerificationTokenManager.issue now token subjectId db).1
  | CallConsumeVerification now subjectId presentedToken =>
      (VerificationTokenManager.consume now subjectId presentedToken db).1
  end.

(** The table after a sequence of requests, served one after the other. *)
Definition exec_all (cs : list call) (db : Db) : Db :=
  foldl (λ db c, exec c db) db cs.

End Calls.


(** ** How a row may change *)

(** What every handler guarantees of a row it leaves in the table: the
    token version has not gone down, the stored refresh token is the old
    one, the empty string or a bcrypt digest, and a soft-delete marker
    stays. *)
Record evolves (u u' : User.t) : Prop := {
  evolves_version : User.tokenVersion u ≤ User.tokenVersion u';
  evolves_refresh :
    User.refreshToken u' = User.refreshToken u
    ∨ User.refreshToken u' = Some (Literal "")
    ∨ ∃ s t, User.refreshToken u' = Some (BcryptDigest s t);
  evolves_deleted : is_Some (User.deletedAt u) → is_Some (User.deletedAt u')
}.

(** No row disappears, and every row evolves. *)
Definition advances (db db' : Db) : Prop :=
  ∀ id u, db !! id = Some u → ∃ u', db' !! id = Some u' ∧ evolves u u'.

(** A computation whose final table advances the initial one. *)
Definition advancing {A} (m : M A) : Prop := ∀ db, advances db (m db).1.

(** ** A worked scenario *)

Module Scenario.

Definition env : Env :=
  {| ACCESS_TOKEN_SECRET := "access-secret";
     REFRESH_TOKEN_SECRET := "refresh-secret";
     ACCESS_TOKEN_EXPIRY := 900;
     REFRESH_TOKEN_EXPIRY := 604800;
     NODE_ENV := "development" |}.

(** Any 36 characters pass for a UUID here. *)
Definition isValidUUID (s : string) : bool := bool_decide (String.length s = 36%nat).

Definition alice_id : string := "7d9f0c1e-0000-4000-8000-00000000a11c".
Definition bob_id : string := "7d9f0c1e-0000-4000-8000-0000000000b0".

(** A patient who signed up and has not verified her address. *)
Definition alice : User.t :=
  User.mk "alice doe" "alice@example.com" (BcryptDigest 7 (Literal "Passw0rd!"))
          PATIENT None None 0 None false (Some "k3verify") (Some 90000)
          (Some "patient-1") None.

(** A doctor whom an admin has soft-deleted. *)
Definition bob : User.t :=
  User.mk "bob roe" "bob@example.com" (BcryptDigest 8 (Literal "S3cret!pw"))
          DOCTOR None None 4 (Some 500) true None None None (Some "doctor-1").

Definition db : Db := <[bob_id := bob]> {[ alice_id := alice ]}.

Definition t0 : Ambient := {| clock := 1000; salt := 11 |}.
Definition t1 : Ambient := {| clock := 1060; salt := 12 |}.

Definition credentials : LoginRequest :=
  {| body_data := Str "Alice@Example.com"; body_password := Str "Passw0rd!" |}.

Definition alice_access : text := generateAccessToken env 1000 alice_id 1.
Definition alice_refresh : text := generateRefreshToken env 1000 alice_id 1.

Definition with_cookie (t : text) : AuthRequest :=
  {| cookies_accessToken := Some t; header_Authorization := None |}.

Definition with_header (t : text) : AuthRequest :=
  {| cookies_accessToken := None; header_Authorization := Some (Bearer t) |}.

Definition refresh_with (t : text) : RefreshRequest :=
  {| cookies_refreshToken := Some t; body_refreshToken := Undefined |}.

Definition alice_user : AuthUser.t :=
  AuthUser.mk alice_id "alice doe" "alice@example.com" PATIENT 1 (Some "patient-1") None.

(** A table of before refresh tokens were hashed: the row holds the
    refresh token itself. *)
Definition legacy_refresh : text := generateRefreshToken env 900 alice_id 0.

Definition legacy_db : Db :=
  {[ alice_id := User.with_refreshToken (Some legacy_refresh) alice ]}.

(** An access token of before tokens carried a version. *)
Definition versionless : text :=
  Jws "access-secret" (ClaimsObject (Payload.mk (Str alice_id) Undefined)) (Some 5000).

End Scenario.

(** ** The symptom controller *)

Module Symptom.
(** A row of the [Symptom] table without its primary key; the columns the
    controller reads and writes. *)
Record t := mk { symptomText : string; patientId : string }.
End Symptom.

Abbreviation Symptoms := (gmap string Symptom.t).

(** What a symptom handler sends: [res.status(c).json(new ApiError(c, m))]
    or [res.status(c).json(new ApiResponse(c, d, m))]. *)
Inductive reply (D : Type) : Type :=
| Refused (statusCode : Z) (message : string)
| Served (statusCode : Z) (d : D) (message : string).

Arguments Refused {D} statusCode message.
Arguments Served {D} statusCode d message.

Definition statusCode {D} (r : reply D) : Z :=
  match r with
  | Refused c _ => c
  | Served c _ _ => c
  end.

(** [user.patient.id] when [!user || !user.patient?.id] is false: the
    empty string is falsy too. *)
Definition patient_of (user : option AuthUser.t) : option string :=
  match user with
  | Some u =>
      match AuthUser.patient u with
      | Some p => if bool_decide (p = "") then None else Some p
      | None => None
      end
  | None => None
  end.

Section SymptomController.

(** [isValidUUID] of [utils/helper], which is not among the sources. *)
Context (isValidUUID : string → bool).

(** The collation by which the database orders [symptomText]. *)
Context (collation_le : string → string → bool).

(** [fresh] is the id the database draws for the new row; an id already
    taken makes [create] throw. *)
Definition logSymptom (fresh : string) (user : option AuthUser.t)
    (symptomText : value string) (table : Symptoms)
  : Symptoms * reply (string * Symptom.t) :=
  match patient_of user with
  | None => (table, Refused 401 "Patient profile not found")
  | Some patient =>
      match symptomText with
      | Str text =>
          if bool_decide (text = "") || bool_decide (Js.trim text = "") then
            (table, Refused 400
                      "Symptom text is required and must be a non-empty string")
          else
            match table !! fresh with
            | None =>
                let symptom := Symptom.mk (Js.trim text) patient in
                (<[fresh := symptom]> table,
                 Served 201 (fresh, symptom) "Symptom logged successfully")
            | Some _ => (table, Refused 500 "Internal Server Error")
            end
      | _ =>
          (table, Refused 400
                    "Symptom text is required and must be a non-empty string")
      end
  end.

(** [orderBy: { symptomText: "asc" }] *)
Definition symptomText_asc (a b : string * Symptom.t) : Prop :=
  collation_le (Symptom.symptomText a.2) (Symptom.symptomText b.2) = true.

#[global] Instance symptomText_asc_dec a b : Decision (symptomText_asc a b).
Proof. unfold symptomText_asc. apply _. Defined.


Definition deleteSymptom (user : option AuthUser.t) (symptomId : string)
    (table : Symptoms) : Symptoms * reply unit :=
  match patient_of user with
  | None => (table, Refused 401 "Patient profile not found")
  | Some patient =>
      if bool_decide (symptomId = "") || negb (isValidUUID symptomId) then
        (table, Refused 400 "Invalid symptom ID")
      else
        match table !! symptomId with
        | None => (table, Refused 404 "Symptom not found")
        | Some symptom =>
            if negb (bool_decide (Symptom.patientId symptom = patient)) then
              (table, Refused 403
                        "Unauthorized: You can only delete your own symptoms")
            else
              (delete symptomId table, Served 200 () "Symptom deleted successfully")
        end
  end.

End SymptomController.

(** ** Routes *)

(** What a symptom route sends: the answer of a middleware or that of the
    handler. *)
Inductive routed (D : Type) : Type :=
| ByMiddleware (r : Response)
| ByHandler (r : reply D).

Arguments ByMiddleware {D} r.
Arguments ByHandler {D} r.

Section Routes.

Context (env : Env) (isValidUUID : string → bool).

(** [isAdmin] and [isPatient] of [utils/helper], which is not among the
    sources: a middleware that reads [req.user] and answers ([Some]) or
    calls [next()] ([None]). *)
Context (isAdmin isPatient : AuthUser.t → option Response).

(** [router.delete("/users/:userId", isAuthenticated, isAdmin, softDeleteUser)];
    [now] is the clock when the gate runs and [now'] when the handler
    does. *)
Definition route_softDeleteUser (now now' : Z) (req : AuthRequest) (userId : string)
  : M Response :=
  o <- isAuthenticated env now req;;
  match o with
  | Respond r => ret r
  | Next user =>
      match isAdmin user with
      | Some r => ret r
      | None => softDeleteUser isValidUUID now' userId (Some user)
      end
  end.

(** [isAuthenticated, isPatient], then a handler that reads [req.user]. *)
Definition behind_patient_gate {D} (now : Z) (req : AuthRequest) (db : Db)
    (handler : option AuthUser.t → Symptoms → Symptoms * reply D)
    (table : Symptoms) : Symptoms * routed D :=
  match (isAuthenticated env now req db).2 with
  | Returned (Next user) =>
      match isPatient user with
      | Some r => (table, ByMiddleware r)
      | None => let '(table', r) := handler (Some user) table in (table', ByHandler r)
      end
  | Returned (Respond r) => (table, ByMiddleware r)
  | Thrown _ => (table, ByMiddleware (reject 500 "error in authenticated"))
  end.

(** [router.post("/log", isAuthenticated, isPatient, logSymptom)] *)
Definition route_logSymptom (now : Z) (req : AuthRequest) (db : Db)
    (fresh : string) (symptomText : value string) :=
  behind_patient_gate now req db (λ user, logSymptom fresh user symptomText).

(** [router.delete("/:symptomId", isAuthenticated, isPatient, deleteSymptom)] *)
Definition route_deleteSymptom (now : Z) (req : AuthRequest) (db : Db)
    (symptomId : string) :=
  behind_patient_gate now req db (λ user, deleteSymptom isValidUUID user symptomId).

End Routes.

(** ** Objects used as dictionaries *)

(** [Array.prototype.sort] with a comparator, which is stable: [before y x]
    says that [y], which comes later in the array, must still go before
    [x]; equal elements keep their order. *)
Fixpoint insert_sorted {A} (before : A → A → bool) (x : A) (l : list A) : list A :=
  match l with
  | [] => [x]
  | y :: l' => if before y x then y :: insert_sorted before x l' else x :: y :: l'
  end.

Definition stable_sort {A} (before : A → A → bool) (l : list A) : list A :=
  foldr (insert_sorted before) [] l.

Module JsObject.

(** An object literal [{}] filled by assignments: its own properties, in
    the order they were created. *)
Definition t (V : Type) : Type := list (string * V).

(** The property names every such object inherits from [Object.prototype]:
    [o[k]] is truthy for them before anything is assigned. *)
Definition inherited (k : string) : bool :=
  bool_decide (k ∈ ["constructor"; "__defineGetter__"; "__defineSetter__";
                    "hasOwnProperty"; "__lookupGetter__"; "__lookupSetter__";
                    "isPrototypeOf"; "propertyIsEnumerable"; "toString";
                    "valueOf"; "__proto__"; "toLocaleString"]).

Definition get_own {V} (k : string) (o : t V) : option V :=
  snd <$> find (λ e, bool_decide (e.1 = k)) o.

(** [o[k] = v]: an own property keeps its place, a new one goes last. *)
Fixpoint set {V} (k : string) (v : V) (o : t V) : t V :=
  match o with
  | [] => [(k, v)]
  | (k', v') :: o' => if bool_decide (k' = k) then (k, v) :: o' else (k', v') :: set k v o'
  end.

Definition digit (c : ascii) : option N :=
  let n := N_of_ascii c in
  if ((48 <=? n) && (n <=? 57))%N then Some (n - 48)%N else None.

Fixpoint digits_value (acc : N) (s : string) : option N :=
  match s with
  | EmptyString => Some acc
  | String c s' =>
      match digit c with
      | Some d => digits_value (10 * acc + d)%N s'
      | None => None
      end
  end.

(** An array index: the canonical decimal string of an integer below
    [2^32 - 1]. *)
Definition array_index (k : string) : option N :=
  match k with
  | EmptyString => None
  | String c rest =>
      if bool_decide (c = "0"%char) && negb (bool_decide (rest = "")) then None
      else
        match digits_value 0 k with
        | Some n => if (n <=? 4294967294)%N then Some n else None
        | None => None
        end
  end.

Definition index_or_0 (k : string) : N := default 0%N (array_index k).

(** [Object.entries(o)]: array indices first, in ascending order, then the
    other names in the order they were created. *)
Definition entries {V} (o : t V) : list (string * V) :=
  stable_sort (λ y x, (index_or_0 y.1 <? index_or_0 x.1)%N)
    (filter (λ e, is_Some (array_index e.1)) o)
  ++ filter (λ e, ¬ is_Some (array_index e.1)) o.

(** [Object.values(o)] *)
Definition values {V} (o : t V) : list V := snd <$> entries o.

End JsObject.

(** ** The analytics controller *)

(** A row that [appointment.findMany] returns with its [include]: the
    appointment and, joined, the doctor's specialty and user name. *)
Record Appointment := {
  appt_patientId : string;
  appt_doctorId : string;
  appt_status : string;
  appt_doctor_user_name : string;
  appt_doctor_specialty : string
}.

Record DoctorStat := {
  stat_doctorId : string;
  stat_name : string;
  stat_specialty : string;
  visitCount : Z
}.

(** The body of [appointments.forEach]. For an inherited name
    [doctorStats[docId]] is truthy from the start, so no own property is
    made and the increment lands on the inherited member. *)
Definition count_visit (doctorStats : JsObject.t DoctorStat) (appt : Appointment)
  : JsObject.t DoctorStat :=
  let docId := appt_doctorId appt in
  if JsObject.inherited docId then doctorStats
  else
    let doctorStats :=
      match JsObject.get_own docId doctorStats with
      | Some _ => doctorStats
      | None =>
          JsObject.set docId
            {| stat_doctorId := docId;
               stat_name := appt_doctor_user_name appt;
               stat_specialty := appt_doctor_specialty appt;
               visitCount := 0 |} doctorStats
      end in
    match JsObject.get_own docId doctorStats with
    | Some st =>
        JsObject.set docId
          {| stat_doctorId := stat_doctorId st; stat_name := stat_name st;
             stat_specialty := stat_specialty st;
             visitCount := visitCount st + 1 |} doctorStats
    | None => doctorStats
    end.

(** [Object.values(doctorStats).sort((a, b) => b.visitCount - a.visitCount)] *)
Definition frequencyList (appointments : list Appointment) : list DoctorStat :=
  stable_sort (λ y x, visitCount x <? visitCount y)
    (JsObject.values (foldl count_visit [] appointments)).

(** [appointments] is the [Appointment] table in the order the database
    returns its rows. *)
Definition getDoctorVisitFrequency (user : option AuthUser.t)
    (appointments : list Appointment) : reply (list DoctorStat) :=
  match patient_of user with
  | None => Refused 403 "Access denied. Patient profile not found."
  | Some patientId =>
      let appointments :=
        filter (λ a, appt_patientId a = patientId ∧ appt_status a = "COMPLETED")
               appointments in
      Served 200 (frequencyList appointments)
             "Doctor visit frequency retrieved successfully"
  end.

(** A row of the [AiChat] table, with the columns the handler reads. *)
Record AiChat := {
  chat_id : string;
  chat_userId : string;
  probableCauses : list string;
  severity : string;
  chat_createdAt : Z
}.

Record SymptomPatterns := {
  recentChats : list AiChat;
  commonCauses : list (string * Z)
}.

Section SymptomPatternsHandler.

(** [String.prototype.toLowerCase]. It follows the case mappings of the
    Unicode character database, which are no part of the sources: the
    handler is read for whatever function on strings it is. *)
Context (toLowerCase : string → string).

(** [cause.trim().toLowerCase()] *)
Definition normalized (cause : string) : string := toLowerCase (Js.trim cause).

(** [causeFrequency[normalized] = (causeFrequency[normalized] || 0) + 1].
    For an inherited name the right-hand side is not a number; [None]
    stands for that. *)
Definition count_cause (causeFrequency : option (JsObject.t Z)) (cause : string)
  : option (JsObject.t Z) :=
  match causeFrequency with
  | Some o =>
      let k := normalized cause in
      match JsObject.get_own k o with
      | Some n => Some (JsObject.set k ((if bool_decide (n = 0) then 0 else n) + 1) o)
      | None => if JsObject.inherited k then None else Some (JsObject.set k (0 + 1) o)
      end
  | None => None
  end.

(** [aiChats] is the [AiChat] table in the order the database returns its
    rows; rows created at the same instant keep that order. The answer is
    [None] when a cause is an inherited name, for which the handler
    computes no number. *)
Definition getSymptomPatterns (user : option AuthUser.t) (aiChats : list AiChat)
  : option (reply SymptomPatterns) :=
  match user with
  | Some u =>
      if bool_decide (AuthUser.id u = "") then
        Some (Refused 403 "Access denied. User profile not found.")
      else
        let aiChats :=
          stable_sort (λ y x, chat_createdAt x <? chat_createdAt y)
            (filter (λ c, chat_userId c = AuthUser.id u) aiChats) in
        match foldl count_cause (Some []) (aiChats ≫= probableCauses) with
        | Some causeFrequency =>
            Some (Served 200
                    {| recentChats := aiChats;
                       commonCauses :=
                         stable_sort (λ y x, x.2 <? y.2)
                           (JsObject.entries causeFrequency) |}
                    "Symptom patterns retrieved successfully")
        | None => None
        end
  | None => Some (Refused 403 "Access denied. User profile not found.")
  end.

End SymptomPatternsHandler.

(** ** Listing users *)

Module JsNumber.

(** The value of a character as a digit of the given radix. *)
Definition digit_in (radix : N) (c : ascii) : option N :=
  let n := N_of_ascii c in
  let d := if ((48 <=? n) && (n <=? 57))%N then Some (n - 48)%N
           else if ((97 <=? n) && (n <=? 122))%N then Some (n - 87)%N
           else if ((65 <=? n) && (n <=? 90))%N then Some (n - 55)%N
           else None in
  match d with
  | Some d => if (d <? radix)%N then Some d else None
  | None => None
  end.

(** The value of the longest prefix of digits; [acc] is [None] until a
    digit has been read. *)
Fixpoint leading_digits (radix : N) (acc : option N) (s : string) : option N :=
  match s with
  | String c s' =>
      match digit_in radix c with
      | Some d => leading_digits radix (Some (radix * default 0 acc + d)%N) s'
      | None => acc
      end
  | EmptyString => acc
  end.

(** [parseInt(s)] with no radix, [None] for [NaN]: leading white space, a
    sign, a [0x] prefix for radix 16, then as many digits as there are.
    [undefined] reads as the string ["undefined"], which is [NaN]. The
    value is the integer read, exact below [2^53]. *)
Definition parseInt (s : option string) : option Z :=
  match s with
  | None => None
  | Some s =>
      let s := Js.trimStart s in
      let '(sign, s) :=
        match s with
        | String "-" rest => (-1, rest)
        | String "+" rest => (1, rest)
        | _ => (1, s)
        end in
      let '(radix, s) :=
        match s with
        | String "0" (String "x" rest) => (16%N, rest)
        | String "0" (String "X" rest) => (16%N, rest)
        | _ => (10%N, s)
        end in
      match leading_digits radix None s with
      | Some n => Some (sign * Z.of_N n)
      | None => None
      end
  end.

(** [n || d] for a number [n]: [NaN] and zero are falsy. *)
Definition or_number (n : option Z) (d : Z) : Z :=
  match n with
  | Some 0 | None => d
  | Some n => n
  end.

End JsNumber.

Record Pagination := {
  pg_page : Z;
  pg_limit : Z;
  pg_totalCount : Z;
  pg_totalPages : Z;
  pg_hasNextPage : bool;
  pg_hasPrevPage : bool
}.

Record UserListing := {
  listed_users : list (string * User.t);
  pagination : Pagination
}.

(** [VALID_ROLES.indexOf(role)], as the role it finds. *)
Definition valid_role (role : string) : option Role :=
  if bool_decide (role = "PATIENT") then Some PATIENT
  else if bool_decide (role = "DOCTOR") then Some DOCTOR
  else if bool_decide (role = "ADMIN") then Some ADMIN
  else None.

Section ListAllUsers.

(** The [createdAt] column of the [User] table, by primary key. *)
Context (createdAt : string → Z).

(** [where]: not soft-deleted, and of the role asked for when there is
    one. *)
Definition listed (roleFilter : option Role) (r : string * User.t) : Prop :=
  User.deletedAt r.2 = None
  ∧ match roleFilter with
    | Some role => User.role r.2 = role
    | None => True
    end.

#[global] Instance listed_dec roleFilter r : Decision (listed roleFilter r).
Proof. unfold listed. destruct roleFilter; apply _. Defined.

(** [listAllUsers] on the query parameters [page], [limit] and [role].
    The users are listed as their rows, of which [select] keeps the id,
    name, email, picture, role, dates and sub-profiles; rows created at
    the same instant come in table order. The answer is [None] when
    [skip] does not fit the 32-bit integer the query takes. *)
Definition listAllUsers (query_page query_limit query_role : option string) (db : Db)
  : option (reply UserListing) :=
  let page := Z.max 1 (JsNumber.or_number (JsNumber.parseInt query_page) 1) in
  let limit :=
    Z.min 100 (Z.max 1 (JsNumber.or_number (JsNumber.parseInt query_limit) 10)) in
  let skip := (page - 1) * limit in
  let fetch (wanted : option Role) : option (reply UserListing) :=
    if 2147483647 <? skip then None
    else
      let matching := filter (listed wanted) (map_to_list db) in
      let users :=
        take (Z.to_nat limit)
          (drop (Z.to_nat skip)
             (stable_sort (λ y x, createdAt x.1 <? createdAt y.1) matching)) in
      let totalCount := Z.of_nat (length matching) in
      let totalPages := (totalCount + limit - 1) / limit in
      Some (Served 200
              {| listed_users := users;
                 pagination :=
                   {| pg_page := page; pg_limit := limit;
                      pg_totalCount := totalCount; pg_totalPages := totalPages;
                      pg_hasNextPage := page <? totalPages;
                      pg_hasPrevPage := 1 <? page |} |}
              "Users fetched successfully") in
  match query_role with
  | Some roleFilter =>
      if bool_decide (roleFilter = "") then fetch None
      else
        match valid_role roleFilter with
        | Some role => fetch (Some role)
        | None =>
            Some (Refused 400
                    "Invalid role filter. Must be one of: PATIENT, DOCTOR, ADMIN")
        end
  | None => fetch None
  end.

End ListAllUsers.

(** *** Counting, for the statements below *)




(** The number of causes in a list that are [k] once normalized. *)
Definition occurrences (toLowerCase : string → string) (k : string)
    (causes : list string) : Z :=
  Z.of_nat (length (filter (λ c, normalized toLowerCase c = k) causes)).

(** The count that [causeFrequency] holds for [k]; 0 when it has none. *)
Definition counted (k : string) (causeFrequency : JsObject.t Z) : Z :=
  default 0 (JsObject.get_own k causeFrequency).

(** No name twice, every count at least 1. *)
Definition tally_wf (causeFrequency : JsObject.t Z) : Prop :=
  NoDup causeFrequency.*1
  ∧ ∀ k n, JsObject.get_own k causeFrequency = Some n → 1 ≤ n.

(** ** More of the worked scenario *)

Module Cases.

Import Scenario.

(** A deployment whose two secrets are the same string. *)
Definition shared_env : Env :=
  {| ACCESS_TOKEN_SECRET := "one-secret";
     REFRESH_TOKEN_SECRET := "one-secret";
     ACCESS_TOKEN_EXPIRY := 900;
     REFRESH_TOKEN_EXPIRY := 604800;
     NODE_ENV := "production" |}.

Definition carol_id : string := "7d9f0c1e-0000-4000-8000-0000000ca401".

(** An admin. *)
Definition carol : User.t :=
  User.mk "carol poe" "carol@example.com" (BcryptDigest 9 (Literal "Adm1n!pass"))
          ADMIN None None 2 None true None None None None.

Definition staff_db : Db := <[carol_id := carol]> db.

Definition carol_access : text := generateAccessToken env 1000 carol_id 2.

Definition carol_user : AuthUser.t :=
  AuthUser.mk carol_id "carol poe" "carol@example.com" ADMIN 2 None None.

Definition bob_access : text := generateAccessToken env 1000 bob_id 4.

Definition isAdmin (u : AuthUser.t) : option Response :=
  if bool_decide (AuthUser.role u = ADMIN) then None
  else Some (reject 403 "Admin access required").

Definition isPatient (u : AuthUser.t) : option Response :=
  if bool_decide (AuthUser.role u = PATIENT) then None
  else Some (reject 403 "Patient access required").

(** The answer to the admin who soft-deletes Alice at 1030. *)
Definition alice_deleted : Response :=
  {| status := 200; cookies := []; clearedCookies := [];
     json := ApiResponse 200
               (DeletedUserData alice_id "alice doe" "alice@example.com" PATIENT
                  (Some 1030))
               (Some "User soft deleted successfully") |}.

Definition bob_credentials : LoginRequest :=
  {| body_data := Str "bob@example.com"; body_password := Str "S3cret!pw" |}.

(** A refresh token whose claims carry no version. *)
Definition shapeless_refresh : text :=
  Jws "refresh-secret" (ClaimsObject (Payload.mk (Str alice_id) Undefined)) (Some 5000).

Definition collation_le (a b : string) : bool := String.leb a b.

(** U+00A0, the no-break space, and U+2028, the line separator, as their
    UTF-8 bytes. *)
Definition nbsp : string :=
  String (ascii_of_nat 194) (String (ascii_of_nat 160) EmptyString).

Definition line_separator : string :=
  String (ascii_of_nat 226)
    (String (ascii_of_nat 128) (String (ascii_of_nat 168) EmptyString)).

(** A pass phrase of 72 bytes. *)
Definition pass_phrase : string :=
  "correct horse battery staple, correct horse battery staple, correct hors".

Definition symptom_1 : string := "5a1e0000-0000-4000-8000-000000000001".
Definition symptom_2 : string := "5a1e0000-0000-4000-8000-000000000002".

(** One symptom of another patient. *)
Definition symptoms : Symptoms := {[ symptom_2 := Symptom.mk "headache" "patient-2" ]}.

Definition appointments : list Appointment :=
  [ {| appt_patientId := "patient-1"; appt_doctorId := "doctor-1";
       appt_status := "COMPLETED"; appt_doctor_user_name := "bob roe";
       appt_doctor_specialty := "cardiology" |};
    {| appt_patientId := "patient-1"; appt_doctorId := "doctor-2";
       appt_status := "COMPLETED"; appt_doctor_user_name := "dan moe";
       appt_doctor_specialty := "neurology" |};
    {| appt_patientId := "patient-1"; appt_doctorId := "doctor-2";
       appt_status := "COMPLETED"; appt_doctor_user_name := "dan moe";
       appt_doctor_specialty := "neurology" |};
    {| appt_patientId := "patient-1"; appt_doctorId := "doctor-1";
       appt_status := "PENDING"; appt_doctor_user_name := "bob roe";
       appt_doctor_specialty := "cardiology" |};
    {| appt_patientId := "patient-2"; appt_doctorId := "doctor-1";
       appt_status := "COMPLETED"; appt_doctor_user_name := "bob roe";
       appt_doctor_specialty := "cardiology" |} ].

(** The causes are written in ASCII, where [String.prototype.toLowerCase]
    is [Js.toLowerCase]. *)
Definition chats : list AiChat :=
  [ {| chat_id := "c1"; chat_userId := alice_id;
       probableCauses := ["Fever"; " migraine "]; severity := "mild";
       chat_createdAt := 10 |};
    {| chat_id := "c2"; chat_userId := alice_id;
       probableCauses := [" fever "; "FEVER"]; severity := "severe";
       chat_createdAt := 20 |};
    {| chat_id := "c3"; chat_userId := bob_id;
       probableCauses := ["flu"]; severity := "mild";
       chat_createdAt := 30 |} ].

Definition createdAt (id : string) : Z :=
  if bool_decide (id = alice_id) then 100
  else if bool_decide (id = bob_id) then 50
  else 200.

(** The first page of [staff_db], ten to a page: Carol, the newer account,
    then Alice; Bob is soft-deleted. *)
Definition first_page : UserListing :=
  {| listed_users := [(carol_id, carol); (alice_id, alice)];
     pagination :=
       {| pg_page := 1; pg_limit := 10; pg_totalCount := 2; pg_totalPages := 1;
          pg_hasNextPage := false; pg_hasPrevPage := false |} |}.

End Cases.

(** * Properties *)


Lemma evolves_refl u : evolves u u.
Proof. split; [lia | by left | done]. Qed.

Lemma evolves_trans u1 u2 u3 : evolves u1 u2 → evolves u2 u3 → evolves u1 u3.
Proof.
  intros [Hv1 Hr1 Hd1] [Hv2 Hr2 Hd2]. split.
  - lia.
  - destruct Hr2 as [Hr2 | Hr2]; [rewrite Hr2; exact Hr1 | by right].
  - auto.
Qed.


Lemma advances_refl db : advances db db.
Proof. intros id u Hu. exists u. split; [done | apply evolves_refl]. Qed.

Lemma advances_trans db1 db2 db3 :
  advances db1 db2 → advances db2 db3 → advances db1 db3.
Proof.
  intros H12 H23 id u Hu.
  destruct (H12 id u Hu) as (u2 & Hu2 & He2).
  destruct (H23 id u2 Hu2) as (u3 & Hu3 & He3).
  exists u3. split; [done | by eapply evolves_trans].
Qed.

Lemma advances_insert (db : Db) id u u' :
  db !! id = Some u → evolves u u' → advances db (<[id := u']> db).
Proof.
  intros Hu He j v Hv. destruct (decide (id = j)) as [-> | Hne].
  - exists u'. rewrite lookup_insert_eq. split; [done | congruence].
  - exists v. rewrite lookup_insert_ne by done. split; [done | apply evolves_refl].
Qed.


Lemma advancing_ret {A} (a : A) : advancing (ret a).
Proof. intros db. apply advances_refl. Qed.

Lemma advancing_throw {A} e : advancing (@throw A e).
Proof. intros db. apply advances_refl. Qed.

Lemma advancing_bind {A B} (m : M A) (k : A → M B) :
  advancing m → (∀ a, advancing (k a)) → advancing (bind m k).
Proof.
  intros Hm Hk db. unfold bind. specialize (Hm db).
  destruct (m db) as [db' [a | e]]; simpl in *; [| done].
  eapply advances_trans; [exact Hm | apply Hk].
Qed.

Lemma advancing_try_catch {A} (m : M A) (h : exn → M A) :
  advancing m → (∀ e, advancing (h e)) → advancing (try_catch m h).
Proof.
  intros Hm Hh db. unfold try_catch. specialize (Hm db).
  destruct (m db) as [db' [a | e]]; simpl in *; [done |].
  eapply advances_trans; [exact Hm | apply Hh].
Qed.

Lemma advancing_findUnique id : advancing (prisma.findUnique id).
Proof. intros db. apply advances_refl. Qed.

Lemma advancing_findFirst id rest : advancing (prisma.findFirst id rest).
Proof. intros db. unfold prisma.findFirst. destruct id; apply advances_refl. Qed.

Lemma advancing_findFirstWhere p : advancing (prisma.findFirstWhere p).
Proof. intros db. apply advances_refl. Qed.

Lemma advancing_update id data :
  (∀ u, evolves u (data u)) → advancing (prisma.update id data).
Proof.
  intros Hd db. unfold prisma.update.
  destruct (db !! id) as [u |] eqn:Hu; simpl; [| apply advances_refl].
  by apply (advances_insert db id u).
Qed.

Lemma evolves_bump u : evolves u (User.with_tokenVersion (λ v, v + 1) u).
Proof. split; simpl; [lia | by left | done]. Qed.

Lemma evolves_store_digest u s t :
  evolves u (User.with_refreshToken (Some (bcrypt.hash s t)) u).
Proof. split; simpl; [lia | right; right; by eexists _, _ | done]. Qed.

Lemma evolves_logout u :
  evolves u (User.with_tokenVersion (λ v, v + 1)
               (User.with_refreshToken (Some (Literal "")) u)).
Proof. split; simpl; [lia | right; by left | done]. Qed.

Lemma evolves_soft_delete u d : evolves u (User.with_deletedAt (Some d) u).
Proof. split; simpl; [lia | by left | by eexists]. Qed.

Lemma evolves_verification u v tok e :
  evolves u (User.with_verification v tok e u).
Proof. split; simpl; [lia | by left | done]. Qed.

Create HintDb advancing.

#[local] Hint Resolve advancing_ret advancing_throw advancing_findUnique
  advancing_findFirst advancing_findFirstWhere advancing_update
  evolves_bump evolves_store_digest evolves_logout evolves_soft_delete
  evolves_verification : advancing.

(** Splits a handler along its binds, handlers and branches. *)
Ltac advancing_step :=
  lazymatch goal with
  | |- advancing (bind _ _) => apply advancing_bind; [| intros ?]
  | |- advancing (try_catch _ _) => apply advancing_try_catch; [| intros ?]
  | |- advancing (if ?b then _ else _) => destruct b
  | |- advancing (match ?x with _ => _ end) => destruct x
  | |- advancing (let '(_, _) := ?x in _) => destruct x
  | |- _ => solve [auto with advancing]
  end.

Section Advancing.

Context (env : Env) (isValidUUID : string → bool).

Lemma advancing_generateToken w userId : advancing (generateToken env w userId).
Proof. unfold generateToken. repeat advancing_step. Qed.

Lemma advancing_login w req : advancing (login env w req).
Proof.
  pose proof advancing_generateToken.
  unfold login, value_trim. repeat advancing_step.
Qed.

Lemma advancing_logout user : advancing (logout env user).
Proof. unfold logout. repeat advancing_step. Qed.

Lemma advancing_refreshAccessToken w req : advancing (refreshAccessToken env w req).
Proof.
  pose proof advancing_generateToken.
  unfold refreshAccessToken. repeat advancing_step.
Qed.

Lemma advancing_isAuthenticated now req : advancing (isAuthenticated env now req).
Proof. unfold isAuthenticated. repeat advancing_step. Qed.

Lemma advancing_softDeleteUser now userId user :
  advancing (softDeleteUser isValidUUID now userId user).
Proof. unfold softDeleteUser. repeat advancing_step. Qed.

Lemma advancing_issue now token subjectId :
  advancing (VerificationTokenManager.issue now token subjectId).
Proof.
  intros db. unfold VerificationTokenManager.issue.
  destruct (db !! subjectId) as [u |] eqn:Hu; simpl; [| apply advances_refl].
  apply (advances_insert db subjectId u); auto with advancing.
Qed.

Lemma advancing_consume now subjectId presentedToken :
  advancing (VerificationTokenManager.consume now subjectId presentedToken).
Proof.
  intros db. unfold VerificationTokenManager.consume.
  destruct (db !! subjectId) as [u |] eqn:Hu; simpl; [| apply advances_refl].
  destruct (negb _); simpl; [apply advances_refl |].
  destruct (User.tokenExpiresAt u) as [e |]; [destruct (bool_decide _) |];
    simpl; try apply advances_refl;
    apply (advances_insert db subjectId u); auto with advancing.
Qed.

Lemma advances_exec c db : advances db (exec env isValidUUID c db).
Proof.
  destruct c; simpl.
  - apply advancing_login.
  - apply advancing_refreshAccessToken.
  - apply advancing_logout.
  - apply advancing_isAuthenticated.
  - apply advancing_softDeleteUser.
  - apply advancing_issue.
  - apply advancing_consume.
Qed.

Lemma advances_exec_all cs db : advances db (exec_all env isValidUUID cs db).
Proof.
  revert db. induction cs as [| c cs IH]; intros db; simpl.
  - apply advances_refl.
  - eapply advances_trans; [apply advances_exec | apply IH].
Qed.

End Advancing.

(** ** What the queries return *)

Lemma findFirst_Some id rest (db : Db) r :
  (prisma.findFirst id rest db).2 = Returned (Some r) →
  db !! r.1 = Some r.2 ∧ rest r.2 = true.
Proof.
  unfold prisma.findFirst. destruct id as [| | b | n | i]; simpl; try discriminate.
  - intros [= Hhd]. apply head_Some_elem_of, list_elem_of_filter in Hhd.
    destruct Hhd as [Hrest Hin]. destruct r as [j v].
    by apply elem_of_map_to_list in Hin.
  - destruct (db !! i) as [u |] eqn:Hu; simpl; [| discriminate].
    destruct (rest u) eqn:Hrest; intros [= <-]; done.
Qed.

Lemma findFirstWhere_Some p (db : Db) r :
  (prisma.findFirstWhere p db).2 = Returned (Some r) → db !! r.1 = Some r.2.
Proof.
  unfold prisma.findFirstWhere. simpl. intros [= Hhd].
  apply head_Some_elem_of, list_elem_of_filter in Hhd.
  destruct Hhd as [_ Hin]. destruct r as [j v].
  by apply elem_of_map_to_list in Hin.
Qed.

Lemma verify_Decoded_truthy now tok secret c :
  jwt.verify now tok secret = jwt.Decoded c → truthy tok = true.
Proof. destruct tok; simpl; [discriminate | done | discriminate]. Qed.

(** ** The session core, claim by claim *)

Section Claims.

Context (env : Env) (isValidUUID : string → bool).



Lemma generateToken_found w userId (db : Db) u :
  db !! userId = Some u →
  generateToken env w userId db =
    (<[userId := issued_row env w userId u]> db,
     Returned (generateAccessToken env (clock w) userId (User.tokenVersion u + 1),
               generateRefreshToken env (clock w) userId (User.tokenVersion u + 1))).
Proof.
  intros Hu. unfold generateToken, try_catch, bind, prisma.update, ret.
  rewrite Hu. simpl. rewrite lookup_insert_eq. simpl.
  by rewrite insert_insert_eq.
Qed.

Lemma generateToken_absent w userId (db : Db) :
  db !! userId = None →
  generateToken env w userId db =
    (db, Thrown (ApiErrorThrown 500 "Error in generating token")).
Proof.
  intros Hu. unfold generateToken, try_catch, bind, prisma.update, throw.
  by rewrite Hu.
Qed.

(** The gate on a token that verifies and names a subject by a string. *)
Lemma isAuthenticated_decoded now req (db : Db) tok p userId :
  bearer_token req = Some tok →
  jwt.verify now tok (ACCESS_TOKEN_SECRET env) = jwt.Decoded (ClaimsObject p) →
  Payload.userId p = Str userId →
  isAuthenticated env now req db =
    (db, Returned
           match db !! userId with
           | Some u =>
               if bool_decide (User.deletedAt u = None) then
                 if negb (bool_decide (Payload.tokenVersion p = Undefined))
                    && negb (bool_decide (Payload.tokenVersion p
                                          = Num (User.tokenVersion u)))
                 then Respond (reject 401
                                 "Token has been invalidated, please login again")
                 else Next (selected userId u)
               else Respond (reject 401 "Account not found or has been deactivated")
           | None => Respond (reject 401 "Account not found or has been deactivated")
           end).
Proof.
  intros Htok Hver Hid. unfold isAuthenticated, try_catch, bind, ret.
  rewrite Htok, (verify_Decoded_truthy _ _ _ _ Hver), Hver. simpl.
  unfold prisma.findFirst. rewrite Hid.
  destruct (db !! userId) as [u |]; simpl; [| done].
  destruct (bool_decide (User.deletedAt u = None)); simpl; [| done].
  by destruct (negb _ && negb _).
Qed.

(** [a || b] is [b] when [a] is falsy. *)
Lemma or_else_falsy a b : falsy a = true → or_else a b = b.
Proof. destruct a as [t |]; simpl; [| done]. by destruct (truthy t). Qed.

(** A request that carries the token in its cookie, whatever its header. *)
Lemma bearer_token_cookie tok header :
  truthy tok = true →
  bearer_token {| cookies_accessToken := Some tok; header_Authorization := header |}
  = Some tok.
Proof. intros Htok. unfold bearer_token. simpl. by rewrite Htok. Qed.

(** A request without a cookie that carries the token in its
    [Authorization] header, after ["Bearer "]. *)
Lemma bearer_token_header tok cookie :
  falsy cookie = true →
  bearer_token {| cookies_accessToken := cookie;
                  header_Authorization := Some (Bearer tok) |}
  = Some tok.
Proof. intros Hc. unfold bearer_token. simpl. by rewrite or_else_falsy. Qed.

(** C3. For every subject that exists and is not soft-deleted,
    [generateToken] returns a pair, and the gate, presented with the
    access token of that pair before it expires, lets the request
    through with that subject's id, role and patient/doctor
    sub-profile ids attached: when the token comes in the [accessToken]
    cookie, whatever the header; when it comes in the [Authorization]
    header after ["Bearer "] and the cookie is missing or empty; and in
    general on every request from which the gate reads this token. *)
Theorem authenticate_after_issuePair w userId (db : Db) u :
  db !! userId = Some u →
  User.deletedAt u = None →
  ∃ db' accessToken refreshToken,
    generateToken env w userId db = (db', Returned (accessToken, refreshToken))
    ∧ ∀ now,
        now < clock w + ACCESS_TOKEN_EXPIRY env →
        let subject :=
          AuthUser.mk userId (User.name u) (User.email u) (User.role u)
                      (User.tokenVersion u + 1) (User.patient u) (User.doctor u) in
        (∀ header,
           isAuthenticated env now
             {| cookies_accessToken := Some accessToken;
                header_Authorization := header |} db'
           = (db', Returned (Next subject)))
        ∧ (∀ cookie,
             falsy cookie = true →
             isAuthenticated env now
               {| cookies_accessToken := cookie;
                  header_Authorization := Some (Bearer accessToken) |} db'
             = (db', Returned (Next subject)))
        ∧ (∀ req,
             bearer_token req = Some accessToken →
             isAuthenticated env now req db' = (db', Returned (Next subject))).
Proof.
  intros Hu Hdel. eexists _, _, _. split; [by apply generateToken_found |].
  intros now Hnow subject.
  assert (Hpass : ∀ req,
            bearer_token req
            = Some (generateAccessToken env (clock w) userId (User.tokenVersion u + 1)) →
            isAuthenticated env now req (<[userId := issued_row env w userId u]> db)
            = (<[userId := issued_row env w userId u]> db, Returned (Next subject))).
  { intros req Htok.
    rewrite (isAuthenticated_decoded now req _ _
               (Payload.mk (Str userId) (Num (User.tokenVersion u + 1))) userId Htok);
      [| | done].
    - rewrite lookup_insert_eq. simpl. rewrite Hdel. simpl.
      rewrite (bool_decide_eq_true_2 (Num _ = Num _)) by done.
      done.
    - unfold generateAccessToken. simpl.
      rewrite bool_decide_eq_true_2 by done.
      by rewrite bool_decide_eq_false_2 by lia. }
  split_and!.
  - intros header. apply Hpass. by apply bearer_token_cookie.
  - intros cookie Hcookie. apply Hpass. by apply bearer_token_header.
  - exact Hpass.
Qed.

(** C6, as the code has it. For every request whose bearer token is
    malformed, wrongly signed or expired, the gate answers 500 "error in
    authenticated", not 401. *)
Theorem bad_token_answers_500 now req (db : Db) tok :
  bearer_token req = Some tok →
  truthy tok = true →
  jwt.verify now tok (ACCESS_TOKEN_SECRET env) = jwt.JsonWebTokenError
  ∨ jwt.verify now tok (ACCESS_TOKEN_SECRET env) = jwt.TokenExpiredError →
  isAuthenticated env now req db =
    (db, Returned (Respond (reject 500 "error in authenticated"))).
Proof.
  intros Htok Htruthy Hver. unfold isAuthenticated, try_catch, bind, ret, throw.
  rewrite Htok, Htruthy. simpl. by destruct Hver as [-> | ->].
Qed.

(** What a [softDeleteUser] that answers 200 has done. *)
Lemma softDeleteUser_ok_inv now userId user (db db' : Db) resp :
  softDeleteUser isValidUUID now userId user db = (db', Returned resp) →
  status resp = 200 →
  ∃ u, db !! userId = Some u
       ∧ db' = <[userId := User.with_deletedAt (Some now) u]> db.
Proof.
  unfold softDeleteUser, try_catch, bind, ret, prisma.findUnique, prisma.update.
  destruct (bool_decide (userId = "") || negb (isValidUUID userId));
    [by intros [= <- <-] |].
  destruct (bool_decide (Some userId = AuthUser.id <$> user));
    [by intros [= <- <-] |].
  simpl. destruct (db !! userId) as [u |] eqn:Hu; simpl; [| by intros [= <- <-]].
  destruct (bool_decide (is_Some (User.deletedAt u))); simpl; [by intros [= <- <-] |].
  rewrite Hu. simpl. intros [= <- <-] _. by exists u.
Qed.

(** C8. For a subject whose [deletedAt] is set, whatever requests are
    served afterwards: no request passes the gate as that subject, and
    every token that verifies and names the subject (its version
    current or not) is answered 401 "Account not found or has been
    deactivated". *)
Theorem soft_deleted_never_authenticated cs (db : Db) userId u now req :
  db !! userId = Some u →
  is_Some (User.deletedAt u) →
  let db' := exec_all env isValidUUID cs db in
  (∀ user, (isAuthenticated env now req db').2 = Returned (Next user) →
           AuthUser.id user ≠ userId)
  ∧ (∀ tok p,
       bearer_token req = Some tok →
       jwt.verify now tok (ACCESS_TOKEN_SECRET env) = jwt.Decoded (ClaimsObject p) →
       Payload.userId p = Str userId →
       isAuthenticated env now req db' =
         (db', Returned (Respond
                 (reject 401 "Account not found or has been deactivated")))).
Proof.
  intros Hu Hdel db'.
  destruct (advances_exec_all env isValidUUID cs db userId u Hu)
    as (u' & Hu' & [_ _ Hd]).
  specialize (Hd Hdel). fold db' in Hu'. destruct Hd as [d Hd]. split.
  - intros user. unfold isAuthenticated, try_catch, bind, ret, throw.
    destruct (bearer_token req) as [tok |]; simpl; [| discriminate].
    destruct (truthy tok); simpl; [| discriminate].
    destruct (jwt.verify now tok _) as [[p | s] | |]; simpl; try discriminate.
    destruct (prisma.findFirst _ _ db') as [db'' [[[i v] |] | e]] eqn:Hfind;
      simpl; try discriminate.
    assert (Hfind2 : (prisma.findFirst (Payload.userId p)
              (λ u, bool_decide (User.deletedAt u = None)) db').2
            = Returned (Some (i, v))) by (by rewrite Hfind).
    apply findFirst_Some in Hfind2. simpl in Hfind2. destruct Hfind2 as [Hi Hv].
    destruct (negb _ && negb _); simpl; [discriminate |].
    intros [= <-]. simpl. intros ->.
    apply bool_decide_eq_true_1 in Hv. congruence.
  - intros tok p Htok Hver Hid.
    rewrite (isAuthenticated_decoded now req db' tok p userId Htok Hver Hid).
    rewrite Hu'. by rewrite bool_decide_eq_false_2 by congruence.
Qed.

(** C10. A token signed with the access secret, unexpired, naming a
    subject that exists and is not soft-deleted, and carrying no
    [tokenVersion] passes the gate with that subject's identity whatever
    the stored version is; it still passes after the subject logs out. *)
Theorem versionless_token_accepted now req (db : Db) userId u exp :
  db !! userId = Some u →
  User.deletedAt u = None →
  bearer_token req
    = Some (Jws (ACCESS_TOKEN_SECRET env)
                (ClaimsObject (Payload.mk (Str userId) Undefined)) exp) →
  (∀ e, exp = Some e → now < e) →
  isAuthenticated env now req db = (db, Returned (Next (selected userId u)))
  ∧ ∀ me, AuthUser.id me = userId →
      ∃ db' u',
        logout env (Some me) db = (db', Returned (logout_ok env))
        ∧ db' !! userId = Some u'
        ∧ User.tokenVersion u' = User.tokenVersion u + 1
        ∧ isAuthenticated env now req db' = (db', Returned (Next (selected userId u'))).
Proof.
  intros Hu Hdel Htok Hexp.
  assert (Hver : jwt.verify now
            (Jws (ACCESS_TOKEN_SECRET env)
               (ClaimsObject (Payload.mk (Str userId) Undefined)) exp)
            (ACCESS_TOKEN_SECRET env)
          = jwt.Decoded (ClaimsObject (Payload.mk (Str userId) Undefined))).
  { simpl. rewrite bool_decide_eq_true_2 by done.
    destruct exp as [e |]; [| done].
    rewrite bool_decide_eq_false_2; [done |]. specialize (Hexp e eq_refl). lia. }
  split.
  - rewrite (isAuthenticated_decoded now req db _ _ userId Htok Hver eq_refl).
    rewrite Hu. simpl. by rewrite Hdel.
  - intros me Hme. unfold logout, try_catch, bind, prisma.update, ret.
    rewrite Hme, Hu. simpl. eexists _, _. split; [done |].
    split; [apply lookup_insert_eq |]. split; [done |].
    rewrite (isAuthenticated_decoded now req _ _ _ userId Htok Hver eq_refl).
    rewrite lookup_insert_eq. simpl. by rewrite Hdel.
Qed.


(** [login] on a string [data] and a string [password], neither blank,
    once the lookup has found a row. *)
Lemma login_found w data password (db : Db) id u :
  data ≠ "" → Js.trim password ≠ "" → Js.trim data ≠ "" →
  prisma.findFirstWhere (email_or_name data) db = (db, Returned (Some (id, u))) →
  login env w {| body_data := Str data; body_password := Str password |} db =
    if bool_decide (is_Some (User.deletedAt u)) then
      (db, Returned (reject 403
             "This account has been deactivated. Please contact support."))
    else if negb (bcrypt.compare (Literal password) (User.password u)) then
      (db, Returned (reject 401 "Invalid username or password"))
    else
      (<[id := issued_row env w id u]> db,
       Returned (login_ok env id u
                   (generateAccessToken env (clock w) id (User.tokenVersion u + 1))
                   (generateRefreshToken env (clock w) id (User.tokenVersion u + 1)))).
Proof.
  intros Hd Hp Htd Hfind.
  assert (Hu : db !! id = Some u).
  { apply (findFirstWhere_Some (email_or_name data) db (id, u)). by rewrite Hfind. }
  unfold prisma.findFirstWhere in Hfind. injection Hfind as Hhd.
  unfold login, try_catch, bind, ret, value_trim, prisma.findFirstWhere. simpl.
  rewrite (bool_decide_eq_false_2 (data = "")) by done. simpl.
  rewrite (bool_decide_eq_false_2 (Js.trim password = "")) by done. simpl.
  rewrite (bool_decide_eq_false_2 (Js.trim data = "")) by done. simpl.
  rewrite Hhd. simpl.
  destruct (bool_decide (is_Some (User.deletedAt u))); [done |].
  destruct (bcrypt.compare _ _); simpl; [| done].
  by rewrite (generateToken_found w id db u Hu).
Qed.

(** C2, as the code has it. [login] does not read [isEmailVerified]: for
    a subject that is not verified, not soft-deleted, found by [data]
    and whose password matches, it answers 200, stores a new session and
    sets both token cookies. *)
Theorem login_ignores_isEmailVerified w data password (db : Db) id u :
  data ≠ "" → Js.trim password ≠ "" → Js.trim data ≠ "" →
  prisma.findFirstWhere (email_or_name data) db = (db, Returned (Some (id, u))) →
  User.isEmailVerified u = false →
  User.deletedAt u = None →
  bcrypt.compare (Literal password) (User.password u) = true →
  login env w {| body_data := Str data; body_password := Str password |} db =
    (<[id := issued_row env w id u]> db,
     Returned (login_ok env id u
                 (generateAccessToken env (clock w) id (User.tokenVersion u + 1))
                 (generateRefreshToken env (clock w) id (User.tokenVersion u + 1)))).
Proof.
  intros Hd Hp Htd Hfind _ Hdel Hpw.
  rewrite (login_found w data password db id u Hd Hp Htd Hfind).
  by rewrite Hdel, Hpw.
Qed.

(** ** Refreshing *)

(** A refresh token of this server, presented to [refreshAccessToken]
    when the stored refresh token of its subject is another string. *)
Lemma refresh_rejected w req (db : Db) userId v exp u :
  let tok := Jws (REFRESH_TOKEN_SECRET env)
                 (ClaimsObject (Payload.mk (Str userId) (Num v))) exp in
  incomingRefreshToken req = Str tok →
  db !! userId = Some u →
  User.refreshToken u ≠ Some tok →
  refreshAccessToken env w req db =
    (db, Returned (reject 401
           (if bool_decide (jwt.verify (clock w) tok (REFRESH_TOKEN_SECRET env)
                            = jwt.TokenExpiredError)
            then "Invalid or expired refresh token"
            else "Refresh token has been revoked"))).
Proof.
  intros tok Hin Hu Hne. unfold refreshAccessToken, try_catch, bind, ret.
  rewrite Hin. unfold tok. simpl.
  rewrite bool_decide_eq_true_2 by done.
  destruct exp as [e |]; [destruct (bool_decide (e ≤ clock w)); [done |] |];
    simpl; unfold prisma.findUnique; rewrite Hu; simpl;
    by rewrite bool_decide_eq_false_2 by done.
Qed.

(** The refresh token [generateToken] returns is not what it stores. *)
Lemma issued_row_refreshToken w userId u v exp :
  User.refreshToken (issued_row env w userId u)
  ≠ Some (Jws (REFRESH_TOKEN_SECRET env)
              (ClaimsObject (Payload.mk (Str userId) (Num v))) exp).
Proof. simpl. discriminate. Qed.

(** A stored refresh token that evolved from a digest or from the empty
    string is no JWS. *)
Lemma evolves_not_jws u u' key c exp :
  User.refreshToken u ≠ Some (Jws key c exp) →
  evolves u u' →
  User.refreshToken u' ≠ Some (Jws key c exp).
Proof.
  intros Hne [_ [Hr | [Hr | (s & t & Hr)]] _]; rewrite Hr; [done | |]; discriminate.
Qed.

(** What a [login] that sets cookies has done. *)
Lemma login_cookies_inv w req (db db1 : Db) resp c cs :
  login env w req db = (db1, Returned resp) →
  cookies resp = c :: cs →
  ∃ id u,
    db !! id = Some u
    ∧ db1 = <[id := issued_row env w id u]> db
    ∧ resp = login_ok env id u
               (generateAccessToken env (clock w) id (User.tokenVersion u + 1))
               (generateRefreshToken env (clock w) id (User.tokenVersion u + 1)).
Proof.
  unfold login, try_catch, bind, ret, throw, value_trim.
  destruct req as [data password]. simpl.
  destruct (negb (value_truthy data)); simpl; [by intros [= <- <-] |].
  destruct password as [| | b | n | password]; simpl; try by intros [= <- <-].
  destruct (bool_decide (Js.trim password = "")); simpl; [by intros [= <- <-] |].
  destruct data as [| | b | n | data]; simpl; try by intros [= <- <-].
  destruct (bool_decide (Js.trim data = "")); simpl; [by intros [= <- <-] |].
  destruct (head _) as [[id u] |] eqn:Hhd; simpl; [| by intros [= <- <-]].
  assert (Hu : db !! id = Some u).
  { apply (findFirstWhere_Some (email_or_name data) db (id, u)).
    unfold prisma.findFirstWhere. simpl. by rewrite Hhd. }
  destruct (bool_decide (is_Some (User.deletedAt u))); simpl; [by intros [= <- <-] |].
  destruct (negb (bcrypt.compare _ _)); simpl; [by intros [= <- <-] |].
  rewrite (generateToken_found w id db u Hu). simpl.
  intros [= <- <-] _. by exists id, u.
Qed.

(** C1, as the code has it. The refresh token that a successful [login]
    returns is refused by [refreshAccessToken] with 401, and no pair is
    issued: [generateToken] stores the bcrypt digest of the token, and
    the handler compares the stored string with the token itself. The
    message is "Refresh token has been revoked" as long as the token has
    not expired. *)
Theorem refresh_after_login_rejected w req (db db1 : Db) resp
    accessToken refreshToken o1 o2 w' req' :
  login env w req db = (db1, Returned resp) →
  cookies resp = [("accessToken", accessToken, o1); ("refreshToken", refreshToken, o2)] →
  incomingRefreshToken req' = Str refreshToken →
  ∃ message,
    refreshAccessToken env w' req' db1 = (db1, Returned (reject 401 message))
    ∧ (clock w' < clock w + REFRESH_TOKEN_EXPIRY env →
       message = "Refresh token has been revoked").
Proof.
  intros Hlogin Hcookies Hin.
  destruct (login_cookies_inv w req db db1 resp _ _ Hlogin Hcookies)
    as (id & u & Hu & -> & ->).
  simpl in Hcookies. injection Hcookies as <- _ <- _.
  eexists. split.
  - apply (refresh_rejected w' req' _ id _ _ (issued_row env w id u) Hin).
    + apply lookup_insert_eq.
    + apply issued_row_refreshToken.
  - intros Hnow. simpl.
    rewrite (bool_decide_eq_true_2 (REFRESH_TOKEN_SECRET env = _)) by done.
    rewrite (bool_decide_eq_false_2 (_ ≤ _)) by lia.
    by rewrite bool_decide_eq_false_2.
Qed.

(** What a refresh that answers 200 has done. *)
Lemma refresh_ok_inv w req (db db1 : Db) resp :
  refreshAccessToken env w req db = (db1, Returned resp) →
  status resp = 200 →
  ∃ userId v exp u,
    incomingRefreshToken req
      = Str (Jws (REFRESH_TOKEN_SECRET env)
                 (ClaimsObject (Payload.mk (Str userId) (Num v))) exp)
    ∧ db !! userId = Some u
    ∧ db1 = <[userId := issued_row env w userId u]> db.
Proof.
  unfold refreshAccessToken, try_catch, bind, ret, prisma.findUnique.
  destruct (incomingRefreshToken req) as [| | [|] | n | tok] eqn:Hin; simpl;
    try (by intros [= <- <-]).
  - destruct n; by intros [= <- <-].
  - destruct tok as [s | key c exp | n plain]; simpl.
    + destruct s as [| a s]; simpl; by intros [= <- <-].
    + destruct (bool_decide (key = REFRESH_TOKEN_SECRET env)) eqn:Hkey; simpl;
        [| by intros [= <- <-]].
      apply bool_decide_eq_true_1 in Hkey. subst key.
      destruct exp as [e |]; [destruct (bool_decide (e ≤ clock w)) |]; simpl;
        try (by intros [= <- <-]);
        (destruct c as [[[| | b | n | userId] [| | b' | v | s']] | s]; simpl;
           try (by intros [= <- <-]);
         destruct (db !! userId) as [u |] eqn:Hu; simpl; [| by intros [= <- <-]];
         destruct (negb (bool_decide (User.refreshToken u = _))); simpl;
           [by intros [= <- <-] |];
         destruct (negb (bool_decide (v = _))); simpl; [by intros [= <- <-] |];
         rewrite (generateToken_found w userId db u Hu);
         intros [= <- <-] _; by eexists userId, v, _, u).
    + by intros [= <- <-].
Qed.

(** C5. Once a refresh with a given token has answered 200, and
    whatever requests are served in between, a refresh presenting the
    same token is answered 401 and leaves the table as it is (no pair,
    no cookie); the message is "Refresh token has been revoked" unless
    the token has expired by then. *)
Theorem refresh_token_single_use w req (db db1 : Db) resp cs w' req' :
  refreshAccessToken env w req db = (db1, Returned resp) →
  status resp = 200 →
  incomingRefreshToken req' = incomingRefreshToken req →
  let db2 := exec_all env isValidUUID cs db1 in
  ∃ message,
    refreshAccessToken env w' req' db2 = (db2, Returned (reject 401 message))
    ∧ (∀ tok, incomingRefreshToken req = Str tok →
         jwt.verify (clock w') tok (REFRESH_TOKEN_SECRET env) ≠ jwt.TokenExpiredError →
         message = "Refresh token has been revoked").
Proof.
  intros Hfirst Hok Hsame db2.
  destruct (refresh_ok_inv w req db db1 resp Hfirst Hok)
    as (userId & v & exp & u & Hin & Hu & ->).
  destruct (advances_exec_all env isValidUUID cs
              (<[userId := issued_row env w userId u]> db) userId
              (issued_row env w userId u)) as (u2 & Hu2 & Hev);
    [apply lookup_insert_eq |].
  fold db2 in Hu2. rewrite Hin in Hsame.
  eexists. split.
  - apply (refresh_rejected w' req' db2 userId v exp u2 Hsame Hu2).
    eapply evolves_not_jws; [| exact Hev]. apply issued_row_refreshToken.
  - intros tok Htok Hlive. rewrite Hin in Htok. injection Htok as <-.
    by rewrite bool_decide_eq_false_2.
Qed.

(** C4. An access token that [generateToken] issued for a subject is
    refused once that subject has logged out, whatever requests were
    served between the issue and the logout: the gate never lets it
    through, and while the token has not expired the answer is 401,
    "Token has been invalidated, please login again" (or "Account not
    found or has been deactivated" when the subject was soft-deleted in
    between). *)
Theorem logout_revokes_access_tokens w userId (db : Db) u cs me :
  db !! userId = Some u →
  AuthUser.id me = userId →
  ∃ db1 accessToken refreshToken,
    generateToken env w userId db = (db1, Returned (accessToken, refreshToken))
    ∧ ∃ db3 u3,
        logout env (Some me) (exec_all env isValidUUID cs db1)
          = (db3, Returned (logout_ok env))
        ∧ db3 !! userId = Some u3
        ∧ User.tokenVersion u + 1 < User.tokenVersion u3
        ∧ User.refreshToken u3 = Some (Literal "")
        ∧ ∀ now req,
            bearer_token req = Some accessToken →
            (∀ user, (isAuthenticated env now req db3).2 ≠ Returned (Next user))
            ∧ (now < clock w + ACCESS_TOKEN_EXPIRY env →
               isAuthenticated env now req db3 =
                 (db3, Returned (Respond (reject 401
                    (if bool_decide (User.deletedAt u3 = None)
                     then "Token has been invalidated, please login again"
                     else "Account not found or has been deactivated"))))).
Proof.
  intros Hu Hme. eexists _, _, _. split; [by apply generateToken_found |].
  destruct (advances_exec_all env isValidUUID cs
              (<[userId := issued_row env w userId u]> db) userId
              (issued_row env w userId u)) as (u2 & Hu2 & [Hv2 _ _]);
    [apply lookup_insert_eq |].
  simpl in Hv2.
  unfold logout, try_catch, bind, prisma.update, ret. rewrite Hme, Hu2. simpl.
  eexists _, _. split; [done |]. split; [apply lookup_insert_eq |].
  split; [simpl; lia |]. split; [done |].
  intros now req Htok.
  assert (Hgate : now < clock w + ACCESS_TOKEN_EXPIRY env →
    isAuthenticated env now req
      (<[userId := User.with_tokenVersion (λ v, v + 1)
                     (User.with_refreshToken (Some (Literal "")) u2)]>
         (exec_all env isValidUUID cs (<[userId := issued_row env w userId u]> db)))
    = (<[userId := User.with_tokenVersion (λ v, v + 1)
                     (User.with_refreshToken (Some (Literal "")) u2)]>
         (exec_all env isValidUUID cs (<[userId := issued_row env w userId u]> db)),
       Returned (Respond (reject 401
         (if bool_decide (User.deletedAt u2 = None)
          then "Token has been invalidated, please login again"
          else "Account not found or has been deactivated"))))).
  { intros Hnow.
    rewrite (isAuthenticated_decoded now req _ _
               (Payload.mk (Str userId) (Num (User.tokenVersion u + 1)))
               userId Htok); [| | done].
    - rewrite lookup_insert_eq. simpl.
      destruct (bool_decide (User.deletedAt u2 = None)); [| done].
      rewrite (bool_decide_eq_false_2 (Num _ = Num _)); [done |].
      intros [= Heq]. lia.
    - unfold generateAccessToken. simpl.
      rewrite bool_decide_eq_true_2 by done.
      by rewrite bool_decide_eq_false_2 by lia. }
  split; [| exact Hgate].
  intros user. destruct (decide (now < clock w + ACCESS_TOKEN_EXPIRY env)) as [Hnow | Hnow].
  - rewrite (Hgate Hnow). simpl. discriminate.
  - unfold isAuthenticated, try_catch, bind, ret, throw. rewrite Htok. simpl.
    rewrite bool_decide_eq_true_2 by done.
    rewrite bool_decide_eq_true_2 by lia. simpl. discriminate.
Qed.

(** C7. No handler lowers the token version of a subject: after
    [generateToken], [login], [refreshAccessToken] or [logout], and after
    any sequence of requests, the subject is still in the table with a
    token version at least what it was. *)
Theorem tokenVersion_never_decreases (db : Db) id u :
  db !! id = Some u →
  (∀ w userId, ∃ u', (generateToken env w userId db).1 !! id = Some u'
                     ∧ User.tokenVersion u ≤ User.tokenVersion u')
  ∧ (∀ w req, ∃ u', (login env w req db).1 !! id = Some u'
                    ∧ User.tokenVersion u ≤ User.tokenVersion u')
  ∧ (∀ w req, ∃ u', (refreshAccessToken env w req db).1 !! id = Some u'
                    ∧ User.tokenVersion u ≤ User.tokenVersion u')
  ∧ (∀ user, ∃ u', (logout env user db).1 !! id = Some u'
                   ∧ User.tokenVersion u ≤ User.tokenVersion u')
  ∧ (∀ cs, ∃ u', exec_all env isValidUUID cs db !! id = Some u'
                 ∧ User.tokenVersion u ≤ User.tokenVersion u').
Proof.
  intros Hu.
  assert (Hadv : ∀ db', advances db db' →
            ∃ u', db' !! id = Some u' ∧ User.tokenVersion u ≤ User.tokenVersion u').
  { intros db' Hadv. destruct (Hadv id u Hu) as (u' & Hu' & [Hv _ _]). eauto. }
  repeat split; intros; apply Hadv.
  - apply advancing_generateToken.
  - apply advancing_login.
  - apply advancing_refreshAccessToken.
  - apply advancing_logout.
  - apply advances_exec_all.
Qed.

End Claims.

(** ** Email verification *)

(** C9. For a subject with a pending token that has not expired,
    [consume] with that token answers [Verified], clears the stored token
    and its expiry and sets [isEmailVerified]; a second [consume] with
    the same token, at whatever time, answers [Mismatch] and changes
    nothing. *)
Theorem consume_single_use now subjectId token (db : Db) u :
  db !! subjectId = Some u →
  User.emailVerificationToken u = Some token →
  (∀ e, User.tokenExpiresAt u = Some e → now ≤ e) →
  ∃ db' u',
    VerificationTokenManager.consume now subjectId token db
      = (db', Returned VerificationTokenManager.Verified)
    ∧ db' !! subjectId = Some u'
    ∧ User.isEmailVerified u' = true
    ∧ User.emailVerificationToken u' = None
    ∧ User.tokenExpiresAt u' = None
    ∧ ∀ now',
        VerificationTokenManager.consume now' subjectId token db'
          = (db', Returned (VerificationTokenManager.Reject
                              VerificationTokenManager.Mismatch)).
Proof.
  intros Hu Htok Hexp. unfold VerificationTokenManager.consume.
  rewrite Hu, Htok. rewrite bool_decide_eq_true_2 by done. simpl.
  assert (Hlive : match User.tokenExpiresAt u with
                  | Some e => bool_decide (e < now)
                  | None => false
                  end = false).
  { destruct (User.tokenExpiresAt u) as [e |]; [| done].
    apply bool_decide_eq_false_2. specialize (Hexp e eq_refl). lia. }
  rewrite Hlive. eexists _, _. split; [done |].
  split; [apply lookup_insert_eq |]. repeat split.
  intros now'. by rewrite lookup_insert_eq.
Qed.

(** * Further properties of the session core *)

Section SessionCoreMore.

Context (env : Env) (isValidUUID : string → bool).

(** ** The gate *)

Lemma findFirst_fst id rest (db : Db) : (prisma.findFirst id rest db).1 = db.
Proof. unfold prisma.findFirst. by destruct id. Qed.

(** X1. A request with no cookie and no header, or whose token is the
    empty string (an empty cookie and no header, a header that is just
    ["Bearer "]), is answered 401 "Unauthorized request". *)
Theorem gate_requires_token now req (db : Db) :
  falsy (bearer_token req) = true →
  isAuthenticated env now req db
    = (db, Returned (Respond (reject 401 "Unauthorized request"))).
Proof.
  unfold isAuthenticated, try_catch, bind, ret, falsy.
  destruct (bearer_token req) as [t |]; simpl; [| done].
  intros Ht. by rewrite Ht.
Qed.

(** Closes a branch in which the gate answers by itself. *)
Ltac gate_refuses :=
  eexists; split;
  [reflexivity | simpl; split; [(by left) || (by right) | reflexivity]].

(** Every outcome of the gate, with the table it leaves. *)
Lemma isAuthenticated_cases now req (db : Db) :
  ∃ o, isAuthenticated env now req db = (db, Returned o)
       ∧ match o with
         | Next user =>
             ∃ u, db !! AuthUser.id user = Some u
                  ∧ User.deletedAt u = None
                  ∧ user = selected (AuthUser.id user) u
         | Respond r => (status r = 401 ∨ status r = 500) ∧ cookies r = []
         end.
Proof.
  unfold isAuthenticated, try_catch, bind, ret, throw.
  destruct (bearer_token req) as [t |]; simpl; [| gate_refuses].
  destruct (truthy t); simpl; [| gate_refuses].
  destruct (jwt.verify now t _) as [[p | s] | |]; simpl; try gate_refuses.
  pose proof (findFirst_fst (Payload.userId p)
                (λ u, bool_decide (User.deletedAt u = None)) db) as Hfst.
  pose proof (findFirst_Some (Payload.userId p)
                (λ u, bool_decide (User.deletedAt u = None)) db) as Hsome.
  destruct (prisma.findFirst _ _ db) as [db' [[[i v] |] | e]]; simpl in *; subst db';
    try gate_refuses.
  destruct (Hsome (i, v) eq_refl) as [Hi Hv]. simpl in *.
  destruct (negb _ && negb _); simpl; [gate_refuses |].
  eexists. split; [reflexivity |]. simpl.
  exists v. by apply bool_decide_eq_true_1 in Hv.
Qed.

(** Whom the gate lets through: the request carries a token that
    verifies, and [req.user] is read from the live row that the claims of
    this token name (the first live row when they name none); a version
    in the claims is the stored one. *)
Lemma isAuthenticated_Next now req (db : Db) user :
  (isAuthenticated env now req db).2 = Returned (Next user) →
  ∃ tok p u,
    bearer_token req = Some tok
    ∧ jwt.verify now tok (ACCESS_TOKEN_SECRET env) = jwt.Decoded (ClaimsObject p)
    ∧ (Payload.userId p = Str (AuthUser.id user) ∨ Payload.userId p = Undefined)
    ∧ (Payload.tokenVersion p = Undefined
       ∨ Payload.tokenVersion p = Num (User.tokenVersion u))
    ∧ db !! AuthUser.id user = Some u
    ∧ User.deletedAt u = None
    ∧ user = selected (AuthUser.id user) u.
Proof.
  unfold isAuthenticated, try_catch, bind, ret, throw.
  destruct (bearer_token req) as [t |]; simpl; [| discriminate].
  destruct (truthy t); simpl; [| discriminate].
  destruct (jwt.verify now t _) as [[p | s] | |] eqn:Hver; simpl; try discriminate.
  pose proof (findFirst_Some (Payload.userId p)
                (λ u, bool_decide (User.deletedAt u = None)) db) as Hsome.
  assert (Hid : ∀ r, (prisma.findFirst (Payload.userId p)
                        (λ u, bool_decide (User.deletedAt u = None)) db).2
                     = Returned (Some r) →
                     Payload.userId p = Str r.1 ∨ Payload.userId p = Undefined).
  { intros r. unfold prisma.findFirst.
    destruct (Payload.userId p) as [| | b | n | i]; simpl; try discriminate; [by right |].
    destruct (db !! i) as [v |]; simpl; [| discriminate].
    destruct (bool_decide _); intros [= <-]; by left. }
  destruct (prisma.findFirst _ _ db) as [db' [[[i v] |] | e]]; simpl in *;
    try discriminate.
  destruct (Hsome (i, v) eq_refl) as [Hi Hv]. specialize (Hid (i, v) eq_refl).
  simpl in *.
  destruct (bool_decide (Payload.tokenVersion p = Undefined)) eqn:Hundef; simpl.
  - intros [= <-]. exists t, p, v. simpl. apply bool_decide_eq_true_1 in Hundef.
    apply bool_decide_eq_true_1 in Hv. split_and!; auto.
  - destruct (bool_decide (Payload.tokenVersion p = Num (User.tokenVersion v)))
      eqn:Hnum; simpl; [| discriminate].
    intros [= <-]. exists t, p, v. simpl. apply bool_decide_eq_true_1 in Hnum.
    apply bool_decide_eq_true_1 in Hv. split_and!; auto.
Qed.

(** X2. The gate always answers, never writes to the table, answers only
    401 or 500 when it refuses, and lets a request through only as a row
    that is in the table and not soft-deleted, with [req.user] read from
    that row (so the role is the stored one, not one carried by the
    token). *)
Theorem gate_sound now req (db : Db) :
  ∃ o, isAuthenticated env now req db = (db, Returned o)
       ∧ match o with
         | Next user =>
             ∃ u, db !! AuthUser.id user = Some u
                  ∧ User.deletedAt u = None
                  ∧ user = selected (AuthUser.id user) u
         | Respond r => (status r = 401 ∨ status r = 500) ∧ cookies r = []
         end.
Proof.
  destruct (isAuthenticated_cases now req db) as (o & Hanswer & Ho).
  exists o. split; [exact Hanswer |]. destruct o; exact Ho.
Qed.

(** An access token of an older version, at a gate whose table holds the
    subject at a newer version. *)
Lemma stale_access_token_refused t userId v (db : Db) u now req :
  db !! userId = Some u →
  v < User.tokenVersion u →
  bearer_token req = Some (generateAccessToken env t userId v) →
  (∀ user, (isAuthenticated env now req db).2 ≠ Returned (Next user))
  ∧ (now < t + ACCESS_TOKEN_EXPIRY env →
     isAuthenticated env now req db =
       (db, Returned (Respond (reject 401
          (if bool_decide (User.deletedAt u = None)
           then "Token has been invalidated, please login again"
           else "Account not found or has been deactivated"))))).
Proof.
  intros Hu Hv Htok.
  assert (Hgate : now < t + ACCESS_TOKEN_EXPIRY env →
     isAuthenticated env now req db =
       (db, Returned (Respond (reject 401
          (if bool_decide (User.deletedAt u = None)
           then "Token has been invalidated, please login again"
           else "Account not found or has been deactivated"))))).
  { intros Hnow.
    rewrite (isAuthenticated_decoded env now req db _
               (Payload.mk (Str userId) (Num v)) userId Htok); [| | done].
    - rewrite Hu. simpl.
      destruct (bool_decide (User.deletedAt u = None)); [| done].
      rewrite (bool_decide_eq_false_2 (Num _ = Num _)); [done |].
      intros [= Heq]. lia.
    - unfold generateAccessToken. simpl.
      rewrite bool_decide_eq_true_2 by done.
      by rewrite bool_decide_eq_false_2 by lia. }
  split; [| exact Hgate].
  intros user. destruct (decide (now < t + ACCESS_TOKEN_EXPIRY env)) as [Hnow | Hnow].
  - rewrite (Hgate Hnow). simpl. discriminate.
  - unfold isAuthenticated, try_catch, bind, ret, throw. rewrite Htok. simpl.
    rewrite bool_decide_eq_true_2 by done.
    rewrite bool_decide_eq_true_2 by lia. simpl. discriminate.
Qed.

(** X3. Issuing a new pair revokes the access token of the previous one:
    after [generateToken], any requests, and [generateToken] again for
    the same subject, the gate never lets the first access token through;
    while it has not expired the answer is 401. *)
Theorem reissue_revokes_access_tokens w userId (db : Db) u cs w2 :
  db !! userId = Some u →
  ∃ db1 accessToken refreshToken,
    generateToken env w userId db = (db1, Returned (accessToken, refreshToken))
    ∧ ∃ db3 pair2 u3,
        generateToken env w2 userId (exec_all env isValidUUID cs db1)
          = (db3, Returned pair2)
        ∧ db3 !! userId = Some u3
        ∧ User.tokenVersion u + 1 < User.tokenVersion u3
        ∧ ∀ now req,
            bearer_token req = Some accessToken →
            (∀ user, (isAuthenticated env now req db3).2 ≠ Returned (Next user))
            ∧ (now < clock w + ACCESS_TOKEN_EXPIRY env →
               isAuthenticated env now req db3 =
                 (db3, Returned (Respond (reject 401
                    (if bool_decide (User.deletedAt u3 = None)
                     then "Token has been invalidated, please login again"
                     else "Account not found or has been deactivated"))))).
Proof.
  intros Hu. eexists _, _, _. split; [by apply generateToken_found |].
  destruct (advances_exec_all env isValidUUID cs
              (<[userId := issued_row env w userId u]> db) userId
              (issued_row env w userId u)) as (u2 & Hu2 & [Hv2 _ _]);
    [apply lookup_insert_eq |].
  simpl in Hv2.
  eexists _, _, _. split; [by apply generateToken_found |].
  split; [apply lookup_insert_eq |]. split; [simpl; lia |].
  intros now req Htok.
  apply (stale_access_token_refused (clock w) userId (User.tokenVersion u + 1));
    [apply lookup_insert_eq | simpl; lia | exact Htok].
Qed.

(** X4. With different secrets the two kinds of token are not
    interchangeable: the refresh token of a pair, at the gate, is answered
    500; its access token, at [refreshAccessToken], is answered 401
    "Invalid or expired refresh token"; the table stays as it is. *)
Theorem token_kinds_are_separate w userId (db : Db) u :
  ACCESS_TOKEN_SECRET env ≠ REFRESH_TOKEN_SECRET env →
  db !! userId = Some u →
  ∃ db' accessToken refreshToken,
    generateToken env w userId db = (db', Returned (accessToken, refreshToken))
    ∧ (∀ now req,
         bearer_token req = Some refreshToken →
         isAuthenticated env now req db'
           = (db', Returned (Respond (reject 500 "error in authenticated"))))
    ∧ (∀ w' req,
         incomingRefreshToken req = Str accessToken →
         refreshAccessToken env w' req db'
           = (db', Returned (reject 401 "Invalid or expired refresh token"))).
Proof.
  intros Hne Hu. eexists _, _, _. split; [by apply generateToken_found |]. split.
  - intros now req Htok. unfold isAuthenticated, try_catch, bind, ret, throw.
    rewrite Htok. simpl. by rewrite bool_decide_eq_false_2 by congruence.
  - intros w' req Hin. unfold refreshAccessToken, try_catch, bind, ret.
    rewrite Hin. simpl. by rewrite bool_decide_eq_false_2.
Qed.

(** X5. The secret is all that tells the kinds apart: when both secrets
    are the same string, the refresh token of a pair passes the gate as
    an access token, for as long as the refresh lifetime: sent in the
    [accessToken] cookie, whatever the header; sent in the
    [Authorization] header after ["Bearer "] when the cookie is missing
    or empty; and on every request from which the gate reads it. *)
Theorem shared_secret_confuses_kinds w userId (db : Db) u :
  ACCESS_TOKEN_SECRET env = REFRESH_TOKEN_SECRET env →
  db !! userId = Some u →
  User.deletedAt u = None →
  ∃ db' accessToken refreshToken,
    generateToken env w userId db = (db', Returned (accessToken, refreshToken))
    ∧ ∀ now,
        now < clock w + REFRESH_TOKEN_EXPIRY env →
        let subject := selected userId (issued_row env w userId u) in
        (∀ header,
           isAuthenticated env now
             {| cookies_accessToken := Some refreshToken;
                header_Authorization := header |} db'
           = (db', Returned (Next subject)))
        ∧ (∀ cookie,
             falsy cookie = true →
             isAuthenticated env now
               {| cookies_accessToken := cookie;
                  header_Authorization := Some (Bearer refreshToken) |} db'
             = (db', Returned (Next subject)))
        ∧ (∀ req,
             bearer_token req = Some refreshToken →
             isAuthenticated env now req db' = (db', Returned (Next subject))).
Proof.
  intros Heq Hu Hdel. eexists _, _, _. split; [by apply generateToken_found |].
  intros now Hnow subject.
  assert (Hpass : ∀ req,
            bearer_token req
            = Some (generateRefreshToken env (clock w) userId (User.tokenVersion u + 1)) →
            isAuthenticated env now req (<[userId := issued_row env w userId u]> db)
            = (<[userId := issued_row env w userId u]> db, Returned (Next subject))).
  { intros req Htok.
    rewrite (isAuthenticated_decoded env now req _ _
               (Payload.mk (Str userId) (Num (User.tokenVersion u + 1))) userId Htok);
      [| | done].
    - rewrite lookup_insert_eq. simpl. rewrite Hdel. simpl.
      by rewrite (bool_decide_eq_true_2 (Num _ = Num _)).
    - unfold generateRefreshToken. simpl.
      rewrite bool_decide_eq_true_2 by done.
      by rewrite bool_decide_eq_false_2 by lia. }
  split_and!.
  - intros header. apply Hpass. by apply bearer_token_cookie.
  - intros cookie Hcookie. apply Hpass. by apply bearer_token_header.
  - exact Hpass.
Qed.

(** ** [login] *)

(** X6. [login] always answers. Whatever it answers without setting a
    cookie, it has left the table as it was; and it sets cookies only with
    status 200. *)
Theorem login_refusals_change_nothing w req (db : Db) :
  ∃ db' resp,
    login env w req db = (db', Returned resp)
    ∧ (cookies resp = [] → db' = db)
    ∧ (status resp ≠ 200 → cookies resp = []).
Proof.
  unfold login, try_catch, bind, ret, throw, value_trim, prisma.findFirstWhere.
  destruct req as [data password]. simpl.
  destruct (negb (value_truthy data)); simpl; [by eexists _, _ |].
  destruct password as [| | b | n | password]; simpl; try (by eexists _, _).
  destruct (bool_decide (Js.trim password = "")); simpl; [by eexists _, _ |].
  destruct data as [| | b | n | data]; simpl; try (by eexists _, _).
  destruct (bool_decide (Js.trim data = "")); simpl; [by eexists _, _ |].
  destruct (head _) as [[id u] |] eqn:Hhd; simpl; [| by eexists _, _].
  assert (Hu : db !! id = Some u).
  { apply (findFirstWhere_Some (email_or_name data) db (id, u)).
    unfold prisma.findFirstWhere. simpl. by rewrite Hhd. }
  destruct (bool_decide (is_Some (User.deletedAt u))); simpl; [by eexists _, _ |].
  destruct (negb (bcrypt.compare _ _)); simpl; [by eexists _, _ |].
  rewrite (generateToken_found env w id db u Hu). simpl.
  eexists _, _. split; [done |]. simpl. split; [discriminate | done].
Qed.

(** X7. A soft-deleted account is told apart before the password is
    looked at: when the lookup finds a soft-deleted row, [login] answers
    403 "This account has been deactivated..." whatever the (non-blank)
    password, and changes nothing. *)
Theorem login_deactivated_before_password w data password (db : Db) id u :
  data ≠ "" → Js.trim password ≠ "" → Js.trim data ≠ "" →
  prisma.findFirstWhere (email_or_name data) db = (db, Returned (Some (id, u))) →
  is_Some (User.deletedAt u) →
  login env w {| body_data := Str data; body_password := Str password |} db
    = (db, Returned (reject 403
             "This account has been deactivated. Please contact support.")).
Proof.
  intros Hd Hp Htd Hfind Hdel.
  rewrite (login_found env w data password db id u Hd Hp Htd Hfind).
  by rewrite bool_decide_eq_true_2.
Qed.

(** X8. An unknown name and a wrong password are answered alike: when the
    lookup finds nobody, or finds a live row whose password does not
    match, [login] answers 401 "Invalid username or password" and changes
    nothing. *)
Theorem login_unknown_like_wrong_password w data password (db : Db) found :
  data ≠ "" → Js.trim password ≠ "" → Js.trim data ≠ "" →
  prisma.findFirstWhere (email_or_name data) db = (db, Returned found) →
  (∀ id u, found = Some (id, u) →
     User.deletedAt u = None
     ∧ bcrypt.compare (Literal password) (User.password u) = false) →
  login env w {| body_data := Str data; body_password := Str password |} db
    = (db, Returned (reject 401 "Invalid username or password")).
Proof.
  intros Hd Hp Htd Hfind Hfound. destruct found as [[id u] |].
  - rewrite (login_found env w data password db id u Hd Hp Htd Hfind).
    destruct (Hfound id u eq_refl) as [Hdel Hpw]. by rewrite Hdel, Hpw.
  - unfold prisma.findFirstWhere in Hfind. injection Hfind as Hhd.
    unfold login, try_catch, bind, ret, value_trim, prisma.findFirstWhere. simpl.
    rewrite (bool_decide_eq_false_2 (data = "")) by done. simpl.
    rewrite (bool_decide_eq_false_2 (Js.trim password = "")) by done. simpl.
    rewrite (bool_decide_eq_false_2 (Js.trim data = "")) by done. simpl.
    by rewrite Hhd.
Qed.

(** X9. A validation failure of [login] goes out with HTTP status 200:
    with [data] missing or empty, or with a blank string for [password]
    or [data], the body is an [ApiError] of code 400 but [res.status] is
    never called; nothing is looked up or changed. *)
Theorem login_validation_keeps_status_200 w data password (db : Db) :
  value_truthy data = false
  ∨ (∃ p, password = Str p ∧ Js.trim p = "")
  ∨ (∃ p d, password = Str p ∧ data = Str d ∧ Js.trim d = "") →
  ∃ message,
    login env w {| body_data := data; body_password := password |} db
      = (db, Returned {| status := 200; cookies := []; clearedCookies := [];
                         json := ApiError 400 message |}).
Proof.
  unfold login, try_catch, bind, ret, throw, value_trim. simpl.
  destruct (value_truthy data) eqn:Hdata; simpl; [| by eexists].
  intros [Hfalse | [(p & -> & Hp) | (p & d & -> & -> & Hd)]]; [done | |]; simpl.
  - rewrite Hp. simpl. by eexists.
  - destruct (bool_decide (Js.trim p = "")); simpl; [by eexists |].
    rewrite Hd. simpl. by eexists.
Qed.

(** X10. With a [data] that is there and a [password] that is not a
    string (missing, [null], a number, a boolean), [password.trim] throws
    and [login] answers 500 "Internal server error", not 400. *)
Theorem login_password_not_a_string w data password (db : Db) :
  value_truthy data = true →
  (∀ p, password ≠ Str p) →
  login env w {| body_data := data; body_password := password |} db
    = (db, Returned (reject 500 "Internal server error")).
Proof.
  intros Hdata Hpw. unfold login, try_catch, bind, ret, throw, value_trim. simpl.
  rewrite Hdata. simpl.
  destruct password as [| | b | n | p]; simpl; try done.
  by destruct (Hpw p).
Qed.

(** ** [logout] and [refreshAccessToken] *)

(** X11. [logout] reads [req.user.id]: without [req.user], or for an id
    that is in no row, it answers 500 "internal server error" and changes
    nothing. *)
Theorem logout_without_subject user (db : Db) :
  (∀ me, user = Some me → db !! AuthUser.id me = None) →
  logout env user db = (db, Returned (reject 500 "internal server error")).
Proof.
  intros Hme. unfold logout, try_catch, bind, ret, throw, prisma.update.
  destruct user as [me |]; [| done]. by rewrite (Hme me eq_refl).
Qed.

(** X12. After a subject has logged out, every refresh token of this
    server that names the subject is refused with 401 and the table stays
    as it is: the stored refresh token is the empty string, which no
    incoming token equals. The message is "Refresh token has been
    revoked" unless the token has expired. *)
Theorem logout_ends_refresh me (db : Db) u :
  db !! AuthUser.id me = Some u →
  ∃ db' u',
    logout env (Some me) db = (db', Returned (logout_ok env))
    ∧ db' !! AuthUser.id me = Some u'
    ∧ User.refreshToken u' = Some (Literal "")
    ∧ User.tokenVersion u' = User.tokenVersion u + 1
    ∧ (∀ j, j ≠ AuthUser.id me → db' !! j = db !! j)
    ∧ ∀ w req v exp,
        let tok := Jws (REFRESH_TOKEN_SECRET env)
                       (ClaimsObject (Payload.mk (Str (AuthUser.id me)) (Num v))) exp in
        incomingRefreshToken req = Str tok →
        refreshAccessToken env w req db' =
          (db', Returned (reject 401
             (if bool_decide (jwt.verify (clock w) tok (REFRESH_TOKEN_SECRET env)
                              = jwt.TokenExpiredError)
              then "Invalid or expired refresh token"
              else "Refresh token has been revoked"))).
Proof.
  intros Hu. unfold logout, try_catch, bind, prisma.update, ret. rewrite Hu. simpl.
  eexists _, _. split_and!.
  - done.
  - apply lookup_insert_eq.
  - done.
  - done.
  - intros j Hj. by apply lookup_insert_ne.
  - intros w req v exp Hin.
    eapply (refresh_rejected env w req _ (AuthUser.id me) v exp);
      [exact Hin | apply lookup_insert_eq | simpl; discriminate].
Qed.

(** Closes a branch in which a refresh is refused with 401. *)
Ltac refresh_refused :=
  eexists _, _; split;
  [reflexivity | simpl; split; [by right | by intros _]].

(** X13. [refreshAccessToken] always answers, with 200 or 401 and never
    500; when it answers 401 it has set no cookie and left the table as it
    was. *)
Theorem refresh_answers_200_or_401 w req (db : Db) :
  ∃ db' resp,
    refreshAccessToken env w req db = (db', Returned resp)
    ∧ (status resp = 200 ∨ status resp = 401)
    ∧ (status resp = 401 → db' = db ∧ cookies resp = []).
Proof.
  unfold refreshAccessToken, try_catch, bind, ret, prisma.findUnique.
  destruct (incomingRefreshToken req) as [| | [|] | n | tok] eqn:Hin; simpl;
    try refresh_refused.
  - destruct n; refresh_refused.
  - destruct tok as [s | key c exp | n plain]; simpl.
    + destruct s as [| a s]; simpl; refresh_refused.
    + destruct (bool_decide (key = REFRESH_TOKEN_SECRET env)); simpl;
        [| refresh_refused].
      destruct exp as [e |]; [destruct (bool_decide (e ≤ clock w)) |]; simpl;
        try refresh_refused;
        (destruct c as [[[| | b | n | userId] [| | b' | v | s']] | s]; simpl;
           try refresh_refused;
         destruct (db !! userId) as [u |] eqn:Hu; simpl; [| refresh_refused];
         destruct (negb (bool_decide (User.refreshToken u = _))); simpl;
           [refresh_refused |];
         destruct (negb (bool_decide (v = _))); simpl; [refresh_refused |];
         rewrite (generateToken_found env w userId db u Hu);
         eexists _, _; split; [reflexivity |]; simpl;
         split; [by left | discriminate]).
    + refresh_refused.
Qed.

(** X14. A refresh token that verifies but whose claims are not an object
    with a string [userId] and a number [tokenVersion] is answered 401
    "Invalid token payload", before any row is read. *)
Theorem refresh_checks_payload_shape w req (db : Db) tok c :
  incomingRefreshToken req = Str tok →
  jwt.verify (clock w) tok (REFRESH_TOKEN_SECRET env) = jwt.Decoded c →
  (∀ userId v, c ≠ ClaimsObject (Payload.mk (Str userId) (Num v))) →
  refreshAccessToken env w req db
    = (db, Returned (reject 401 "Invalid token payload")).
Proof.
  intros Hin Hver Hshape. unfold refreshAccessToken, try_catch, bind, ret.
  rewrite Hin. pose proof (verify_Decoded_truthy _ _ _ _ Hver) as Htruthy.
  destruct tok as [s | key c' exp | n plain]; try discriminate.
  rewrite Hver.
  destruct c as [[[| | b | n | userId] [| | b' | v | s']] | s]; try done.
  by destruct (Hshape userId v).
Qed.

(** ** [softDeleteUser] *)

(** X15. Nobody soft-deletes their own account: when [req.user.id] is the
    id in the path, the answer is 400 and the table stays as it is. *)
Theorem softDeleteUser_refuses_self now me (db : Db) :
  ∃ message,
    softDeleteUser isValidUUID now (AuthUser.id me) (Some me) db
      = (db, Returned (reject 400 message)).
Proof.
  unfold softDeleteUser, ret.
  destruct (bool_decide (AuthUser.id me = "") || negb (isValidUUID (AuthUser.id me)));
    [by eexists |].
  simpl. rewrite bool_decide_eq_true_2 by done. by eexists.
Qed.

(** X16. A soft delete happens once: after [softDeleteUser] has answered
    200 for a user, the row holds [deletedAt] at that instant with its
    token version and stored refresh token untouched, and a second
    [softDeleteUser] for the same user, by whomever and whenever, is
    answered 400 and changes nothing. *)
Theorem softDeleteUser_once now userId user (db db' : Db) resp now2 user2 :
  softDeleteUser isValidUUID now userId user db = (db', Returned resp) →
  status resp = 200 →
  (∃ u u', db !! userId = Some u
           ∧ db' !! userId = Some u'
           ∧ User.deletedAt u' = Some now
           ∧ User.tokenVersion u' = User.tokenVersion u
           ∧ User.refreshToken u' = User.refreshToken u)
  ∧ ∃ message,
      softDeleteUser isValidUUID now2 userId user2 db'
        = (db', Returned (reject 400 message)).
Proof.
  intros Hfirst Hok.
  destruct (softDeleteUser_ok_inv isValidUUID now userId user db db' resp Hfirst Hok)
    as (u & Hu & ->).
  split; [exists u; eexists; by rewrite lookup_insert_eq |].
  unfold softDeleteUser, try_catch, bind, ret, prisma.findUnique.
  destruct (bool_decide (userId = "") || negb (isValidUUID userId)); [by eexists |].
  destruct (bool_decide (Some userId = AuthUser.id <$> user2)); [by eexists |].
  simpl. rewrite lookup_insert_eq. simpl. by eexists.
Qed.

(** X17. After [softDeleteUser] has answered 200 for a user, a [login]
    whose lookup finds that user is answered 403 and issues nothing,
    whatever the password. *)
Theorem softDeleteUser_blocks_login now userId user (db db' : Db) resp
    w data password u' :
  softDeleteUser isValidUUID now userId user db = (db', Returned resp) →
  status resp = 200 →
  data ≠ "" → Js.trim password ≠ "" → Js.trim data ≠ "" →
  prisma.findFirstWhere (email_or_name data) db' = (db', Returned (Some (userId, u'))) →
  login env w {| body_data := Str data; body_password := Str password |} db'
    = (db', Returned (reject 403
              "This account has been deactivated. Please contact support.")).
Proof.
  intros Hdel Hok Hd Hp Htd Hfind.
  destruct (softDeleteUser_ok_inv isValidUUID now userId user db db' resp Hdel Hok)
    as (u & Hu & ->).
  assert (Hu' : (<[userId := User.with_deletedAt (Some now) u]> db) !! userId = Some u').
  { apply (findFirstWhere_Some (email_or_name data) _ (userId, u')). by rewrite Hfind. }
  rewrite lookup_insert_eq in Hu'. injection Hu' as <-.
  rewrite (login_found env w data password _ userId _ Hd Hp Htd Hfind).
  by rewrite bool_decide_eq_true_2.
Qed.

End SessionCoreMore.

(** * The symptom controller *)

Section SymptomProperties.

Context (isValidUUID : string → bool) (collation_le : string → string → bool).

Lemma not_blank text :
  Js.trim text ≠ "" →
  bool_decide (text = "") || bool_decide (Js.trim text = "") = false.
Proof.
  intros Ht. rewrite (bool_decide_eq_false_2 (Js.trim text = "")) by done.
  rewrite bool_decide_eq_false_2; [done |]. by intros ->.
Qed.

(** What [deleteSymptom] leaves in place, and when it answers 403. *)
Lemma deleteSymptom_cases user symptomId (table : Symptoms) :
  let served := deleteSymptom isValidUUID user symptomId table in
  (∀ j, j ≠ symptomId → served.1 !! j = table !! j)
  ∧ (∀ s, table !! symptomId = Some s →
          patient_of user ≠ Some (Symptom.patientId s) →
          served.1 !! symptomId = Some s)
  ∧ (∀ s patient, table !! symptomId = Some s →
          patient_of user = Some patient →
          patient ≠ Symptom.patientId s →
          symptomId ≠ "" → isValidUUID symptomId = true →
          served.2 = Refused 403 "Unauthorized: You can only delete your own symptoms").
Proof.
  unfold deleteSymptom. destruct (patient_of user) as [patient |]; simpl;
    [| split_and!; intros; (done || congruence)].
  destruct (bool_decide (symptomId = "")) eqn:Hempty; simpl.
  { apply bool_decide_eq_true_1 in Hempty. split_and!; intros; (done || congruence). }
  destruct (isValidUUID symptomId) eqn:Hvalid; simpl;
    [| split_and!; intros; (done || congruence)].
  destruct (table !! symptomId) as [s |] eqn:Hs; simpl;
    [| split_and!; intros; (done || congruence)].
  destruct (bool_decide (Symptom.patientId s = patient)) eqn:Hown; simpl.
  - apply bool_decide_eq_true_1 in Hown. split_and!.
    + intros j Hj. by apply lookup_delete_ne.
    + intros s' [= <-] Hne. congruence.
    + intros s' p [= <-] [= <-] Hne. congruence.
  - split_and!; intros; (done || congruence).
Qed.

(** X18. [deleteSymptom] touches at most the row named in the path, and
    removes it only for the patient it belongs to: every other row stays;
    the named row stays whenever the requester has no patient profile or
    another patient's; and a patient who names another patient's row by a
    valid id is answered 403. *)
Theorem deleteSymptom_only_own user symptomId (table : Symptoms) :
  let served := deleteSymptom isValidUUID user symptomId table in
  (∀ j, j ≠ symptomId → served.1 !! j = table !! j)
  ∧ (∀ s, table !! symptomId = Some s →
          patient_of user ≠ Some (Symptom.patientId s) →
          served.1 !! symptomId = Some s)
  ∧ (∀ s patient, table !! symptomId = Some s →
          patient_of user = Some patient →
          patient ≠ Symptom.patientId s →
          symptomId ≠ "" → isValidUUID symptomId = true →
          served.2 = Refused 403 "Unauthorized: You can only delete your own symptoms").
Proof.
  intros served.
  destruct (deleteSymptom_cases user symptomId table) as (Hframe & Hkeep & Hrefused).
  split_and!; [exact Hframe | exact Hkeep | exact Hrefused].
Qed.

(** X19. A symptom a patient has logged can be deleted by that patient,
    and the table is then what it was: [logSymptom] with a text that is
    not blank and a fresh id answers 201, and [deleteSymptom] of that id by
    the same user answers 200 and gives the former table back. *)
Theorem log_then_delete_restores fresh user patient text (table : Symptoms) :
  patient_of user = Some patient →
  Js.trim text ≠ "" →
  table !! fresh = None →
  fresh ≠ "" → isValidUUID fresh = true →
  ∃ table1,
    logSymptom fresh user (Str text) table
      = (table1, Served 201 (fresh, Symptom.mk (Js.trim text) patient)
                   "Symptom logged successfully")
    ∧ table1 !! fresh = Some (Symptom.mk (Js.trim text) patient)
    ∧ deleteSymptom isValidUUID user fresh table1
      = (table, Served 200 () "Symptom deleted successfully").
Proof.
  intros Hp Ht Hfresh Hne Hvalid. unfold logSymptom, deleteSymptom.
  rewrite Hp, (not_blank text Ht), Hfresh. eexists. split; [done |].
  rewrite lookup_insert_eq. split; [done |].
  rewrite (bool_decide_eq_false_2 (fresh = "")) by done. rewrite Hvalid. simpl.
  rewrite bool_decide_eq_true_2 by done. simpl.
  by rewrite delete_insert_id.
Qed.

(** X20. [logSymptom] refuses what is not a string with something in it:
    a missing text, a number, the empty string or white space only are
    answered 400 and nothing is stored. *)
Theorem logSymptom_refuses_blank fresh user patient symptomText (table : Symptoms) :
  patient_of user = Some patient →
  (∀ text, symptomText = Str text → Js.trim text = "") →
  logSymptom fresh user symptomText table
    = (table, Refused 400 "Symptom text is required and must be a non-empty string").
Proof.
  intros Hp Hblank. unfold logSymptom. rewrite Hp.
  destruct symptomText as [| | b | n | text]; try done.
  rewrite (bool_decide_eq_true_2 (Js.trim text = "")) by auto.
  by rewrite orb_true_r.
Qed.


(** X22. What one patient's requests do is invisible to another: a
    [logSymptom] or a [deleteSymptom] by a user who is not patient [p]
    leaves every row of [p] in place and adds none to them. *)
Theorem other_patients_rows_untouched fresh user symptomText symptomId p
    (table : Symptoms) :
  patient_of user ≠ Some p →
  ∀ id s,
    Symptom.patientId s = p →
    ((logSymptom fresh user symptomText table).1 !! id = Some s ↔ table !! id = Some s)
    ∧ ((deleteSymptom isValidUUID user symptomId table).1 !! id = Some s
       ↔ table !! id = Some s).
Proof.
  intros Hother id s Hs. split.
  - unfold logSymptom. destruct (patient_of user) as [q |]; [| done].
    destruct symptomText as [| | b | n | text]; try done.
    destruct (_ || _); [done |].
    destruct (table !! fresh) eqn:Hfresh; [done |]. simpl.
    destruct (decide (fresh = id)) as [-> | Hne].
    + rewrite lookup_insert_eq, Hfresh. split; [| done].
      intros [= <-]. simpl in Hs. congruence.
    + by rewrite lookup_insert_ne.
  - destruct (deleteSymptom_cases user symptomId table) as (Hframe & Hkeep & _).
    destruct (decide (id = symptomId)) as [-> | Hne]; [| by rewrite Hframe].
    split.
    + unfold deleteSymptom. destruct (patient_of user) as [q |]; [| done].
      destruct (_ || _); [done |].
      destruct (table !! symptomId) as [s' |] eqn:Hs'; simpl; [| by rewrite Hs'].
      destruct (negb _); simpl; [by rewrite Hs' |]. by rewrite lookup_delete_eq.
    + intros Hrow. apply Hkeep; [done |]. congruence.
Qed.

End SymptomProperties.

(** * Routes *)

Section RouteProperties.

Context (env : Env) (isValidUUID : string → bool).
Context (isAdmin isPatient : AuthUser.t → option Response).

(** [softDeleteUser] leaves alone the row of the requester and every row
    but the one named in the path. *)
Lemma softDeleteUser_frame now userId user (db : Db) j :
  Some j = AuthUser.id <$> user ∨ j ≠ userId →
  (softDeleteUser isValidUUID now userId user db).1 !! j = db !! j.
Proof.
  intros Hj. unfold softDeleteUser, try_catch, bind, ret, prisma.findUnique, prisma.update.
  destruct (bool_decide (userId = "") || negb (isValidUUID userId)); [done |].
  destruct (bool_decide (Some userId = AuthUser.id <$> user)) eqn:Hself; [done |].
  apply bool_decide_eq_false_1 in Hself. simpl.
  destruct (db !! userId) as [u |] eqn:Hu; simpl; [| done].
  destruct (bool_decide (is_Some (User.deletedAt u))); simpl; [done |].
  rewrite Hu. simpl. apply lookup_insert_ne.
  destruct Hj as [Hj | Hj]; congruence.
Qed.

(** X23. Through [DELETE /users/:userId] nobody soft-deletes the account
    they are signed in with: whoever the gate lets through is still in
    the table and not soft-deleted after the request, whatever id the
    path names and whatever [isAdmin] decides. *)
Theorem route_softDeleteUser_spares_requester now now' req userId (db : Db) user :
  (isAuthenticated env now req db).2 = Returned (Next user) →
  ∃ u, (route_softDeleteUser env isValidUUID isAdmin now now' req userId db).1
         !! AuthUser.id user = Some u
       ∧ User.deletedAt u = None.
Proof.
  intros Hgate. destruct (isAuthenticated_cases env now req db) as (o & Heq & Ho).
  rewrite Heq in Hgate. simpl in Hgate. injection Hgate as ->.
  destruct Ho as (u & Hu & Hdel & _). exists u. split; [| done].
  unfold route_softDeleteUser, bind, ret. rewrite Heq.
  destruct (isAdmin user); simpl; [done |].
  rewrite softDeleteUser_frame; [done | by left].
Qed.

(** X24. A soft-deleted admin has lost the route: with a token that
    verifies and names a soft-deleted account, [DELETE /users/:userId] is
    answered 401 by the gate and the table stays as it is, whoever the
    path names. *)
Theorem route_softDeleteUser_closed_to_deleted now now' req userId (db : Db)
    tok p adminId admin :
  db !! adminId = Some admin →
  is_Some (User.deletedAt admin) →
  bearer_token req = Some tok →
  jwt.verify now tok (ACCESS_TOKEN_SECRET env) = jwt.Decoded (ClaimsObject p) →
  Payload.userId p = Str adminId →
  route_softDeleteUser env isValidUUID isAdmin now now' req userId db
    = (db, Returned (reject 401 "Account not found or has been deactivated")).
Proof.
  intros Ha [d Hd] Htok Hver Hid. unfold route_softDeleteUser, bind, ret.
  rewrite (isAuthenticated_decoded env now req db tok p adminId Htok Hver Hid).
  rewrite Ha. by rewrite bool_decide_eq_false_2 by congruence.
Qed.

(** X25. The symptom routes act for the subject of the token and nobody
    else. A row that [POST /log] stores carries the patient id of the
    user whom the claims of the request's token name, a user row that is
    in the table and not soft-deleted (the first such row when the claims
    name nobody); a row that [DELETE /:symptomId] removes belonged to that
    patient; the request body has no say in it. And the routes do act for
    that subject: with a token that names a live patient, [POST /log]
    stores the trimmed text under that user's patient id. *)
Theorem symptom_routes_act_for_token_subject now req (db : Db) (table : Symptoms) :
  (∀ fresh symptomText id row message,
     (route_logSymptom env isPatient now req db fresh symptomText table).2
       = ByHandler (Served 201 (id, row) message) →
     ∃ tok p userId u,
       bearer_token req = Some tok
       ∧ jwt.verify now tok (ACCESS_TOKEN_SECRET env) = jwt.Decoded (ClaimsObject p)
       ∧ (Payload.userId p = Str userId ∨ Payload.userId p = Undefined)
       ∧ db !! userId = Some u
       ∧ User.deletedAt u = None
       ∧ User.patient u = Some (Symptom.patientId row))
  ∧ (∀ symptomId s,
       table !! symptomId = Some s →
       (route_deleteSymptom env isValidUUID isPatient now req db symptomId table).1
         !! symptomId = None →
       ∃ tok p userId u,
         bearer_token req = Some tok
         ∧ jwt.verify now tok (ACCESS_TOKEN_SECRET env) = jwt.Decoded (ClaimsObject p)
         ∧ (Payload.userId p = Str userId ∨ Payload.userId p = Undefined)
         ∧ db !! userId = Some u
         ∧ User.deletedAt u = None
         ∧ User.patient u = Some (Symptom.patientId s))
  ∧ (∀ tok p userId u patient fresh text,
       bearer_token req = Some tok →
       jwt.verify now tok (ACCESS_TOKEN_SECRET env) = jwt.Decoded (ClaimsObject p) →
       Payload.userId p = Str userId →
       Payload.tokenVersion p = Undefined
       ∨ Payload.tokenVersion p = Num (User.tokenVersion u) →
       db !! userId = Some u →
       User.deletedAt u = None →
       isPatient (selected userId u) = None →
       User.patient u = Some patient →
       patient ≠ "" →
       Js.trim text ≠ "" →
       table !! fresh = None →
       route_logSymptom env isPatient now req db fresh (Str text) table
       = (<[fresh := Symptom.mk (Js.trim text) patient]> table,
          ByHandler (Served 201 (fresh, Symptom.mk (Js.trim text) patient)
                       "Symptom logged successfully"))).
Proof.
  assert (Hsubject : ∀ user q,
            (isAuthenticated env now req db).2 = Returned (Next user) →
            patient_of (Some user) = Some q →
            ∃ tok p userId u,
              bearer_token req = Some tok
              ∧ jwt.verify now tok (ACCESS_TOKEN_SECRET env)
                = jwt.Decoded (ClaimsObject p)
              ∧ (Payload.userId p = Str userId ∨ Payload.userId p = Undefined)
              ∧ db !! userId = Some u
              ∧ User.deletedAt u = None
              ∧ User.patient u = Some q).
  { intros user q Hgate Hq.
    destruct (isAuthenticated_Next env now req db user Hgate)
      as (tok & p & u & Htok & Hver & Hid & _ & Hu & Hdel & Huser).
    exists tok, p, (AuthUser.id user), u. split_and!; try done.
    revert Hq. rewrite Huser. unfold patient_of. simpl.
    destruct (User.patient u) as [q' |]; [| done].
    destruct (bool_decide (q' = "")); [done |]. by intros [= <-]. }
  split_and!.
  - intros fresh symptomText id row message.
    unfold route_logSymptom, behind_patient_gate.
    destruct (isAuthenticated env now req db).2 as [[user | r] | e] eqn:Hgate;
      try (simpl; congruence).
    destruct (isPatient user); [simpl; congruence |].
    unfold logSymptom. destruct (patient_of (Some user)) as [q |] eqn:Hq; [| done].
    destruct symptomText as [| | b | n | text]; try done.
    destruct (_ || _); [done |].
    destruct (table !! fresh); [done |]. simpl. intros [= <- <- _].
    by apply (Hsubject user).
  - intros symptomId s Hs.
    unfold route_deleteSymptom, behind_patient_gate.
    destruct (isAuthenticated env now req db).2 as [[user | r] | e] eqn:Hgate;
      try (simpl; congruence).
    destruct (isPatient user); [simpl; congruence |].
    destruct (deleteSymptom isValidUUID (Some user) symptomId table)
      as [table' r] eqn:Hserved. simpl. intros Hgone.
    destruct (deleteSymptom_cases isValidUUID (Some user) symptomId table)
      as (_ & Hkeep & _).
    rewrite Hserved in Hkeep. simpl in Hkeep.
    destruct (decide (patient_of (Some user) = Some (Symptom.patientId s)))
      as [Hown | Hother].
    + by apply (Hsubject user).
    + rewrite (Hkeep s Hs Hother) in Hgone. discriminate.
  - intros tok p userId u patient fresh text Htok Hver Hid Hversion Hu Hdel
           Hpatient Hp Hne Htext Hfresh.
    unfold route_logSymptom, behind_patient_gate.
    rewrite (isAuthenticated_decoded env now req db tok p userId Htok Hver Hid).
    rewrite Hu. simpl. rewrite (bool_decide_eq_true_2 (User.deletedAt u = None)) by done.
    assert (Hpass : negb (bool_decide (Payload.tokenVersion p = Undefined))
                    && negb (bool_decide (Payload.tokenVersion p
                                          = Num (User.tokenVersion u))) = false).
    { destruct Hversion as [Hv | Hv].
      - by rewrite (bool_decide_eq_true_2 _ Hv).
      - rewrite (bool_decide_eq_true_2 (_ = Num _) Hv). apply andb_false_r. }
    rewrite Hpass, Hpatient. unfold logSymptom, patient_of. simpl.
    rewrite Hp. rewrite (bool_decide_eq_false_2 (patient = "")) by done.
    by rewrite (not_blank text Htext), Hfresh.
Qed.

End RouteProperties.

(** * The analytics controller *)

(** ** Sorting *)

Lemma Sorted_weaken {A} (R R' : A → A → Prop) l :
  (∀ a b, R a b → R' a b) → Sorted R l → Sorted R' l.
Proof.
  intros Himpl Hl. induction Hl as [| x l Hl IH Hhd]; constructor; [done |].
  destruct Hhd; constructor. by apply Himpl.
Qed.

Section StableSort.

Context {A : Type} (before : A → A → bool).

Lemma insert_sorted_Permutation x l : insert_sorted before x l ≡ₚ x :: l.
Proof.
  induction l as [| y l IH]; simpl; [done |].
  destruct (before y x); [| done]. rewrite IH. apply Permutation_swap.
Qed.

Lemma stable_sort_Permutation l : stable_sort before l ≡ₚ l.
Proof.
  induction l as [| x l IH]; simpl; [done |].
  by rewrite insert_sorted_Permutation, IH.
Qed.

Lemma insert_sorted_Sorted x l :
  (∀ a b, before a b = true → before b a = false) →
  Sorted (λ a b, before b a = false) l →
  Sorted (λ a b, before b a = false) (insert_sorted before x l).
Proof.
  intros Hasym. induction l as [| y l IH]; simpl; intros Hl.
  - by repeat constructor.
  - destruct (before y x) eqn:Hyx.
    + apply Sorted_inv in Hl as [Hl Hhd]. constructor; [by apply IH |].
      destruct l as [| z l]; simpl.
      * constructor. by apply Hasym.
      * destruct (before z x); constructor; [by inversion Hhd | by apply Hasym].
    + constructor; [done |]. by constructor.
Qed.

Lemma stable_sort_Sorted l :
  (∀ a b, before a b = true → before b a = false) →
  Sorted (λ a b, before b a = false) (stable_sort before l).
Proof.
  intros Hasym. induction l as [| x l IH]; simpl; [constructor |].
  by apply insert_sorted_Sorted.
Qed.

End StableSort.

(** ** Objects *)

Section JsObjectFacts.

Context {V : Type}.

Implicit Types (o : JsObject.t V) (k : string) (v : V).

Lemma get_own_cons k k' v' o :
  JsObject.get_own k ((k', v') :: o)
  = if bool_decide (k' = k) then Some v' else JsObject.get_own k o.
Proof. unfold JsObject.get_own. simpl. by destruct (bool_decide (k' = k)). Qed.

Lemma get_own_set_eq k v o : JsObject.get_own k (JsObject.set k v o) = Some v.
Proof.
  induction o as [| [k' v'] o IH]; simpl.
  - rewrite get_own_cons. by rewrite bool_decide_eq_true_2.
  - destruct (bool_decide (k' = k)) eqn:Hk; rewrite get_own_cons.
    + by rewrite bool_decide_eq_true_2.
    + by rewrite Hk.
Qed.

Lemma get_own_set_ne k k' v o :
  k ≠ k' → JsObject.get_own k' (JsObject.set k v o) = JsObject.get_own k' o.
Proof.
  intros Hne. induction o as [| [k0 v0] o IH]; simpl.
  - rewrite get_own_cons. by rewrite bool_decide_eq_false_2.
  - destruct (bool_decide (k0 = k)) eqn:Hk; rewrite !get_own_cons.
    + apply bool_decide_eq_true_1 in Hk. subst k0.
      by rewrite !bool_decide_eq_false_2.
    + by rewrite IH.
Qed.

Lemma get_own_elem_of k v o : JsObject.get_own k o = Some v → (k, v) ∈ o.
Proof.
  induction o as [| [k' v'] o IH]; [done |]. rewrite get_own_cons.
  destruct (bool_decide (k' = k)) eqn:Hk.
  - apply bool_decide_eq_true_1 in Hk. intros [= <-]. subst. apply list_elem_of_here.
  - intros Hget. apply list_elem_of_further. by apply IH.
Qed.

Lemma get_own_None k o : JsObject.get_own k o = None → k ∉ o.*1.
Proof.
  induction o as [| [k' v'] o IH]; simpl; [intros _; apply not_elem_of_nil |].
  rewrite get_own_cons. destruct (bool_decide (k' = k)) eqn:Hk; [done |].
  apply bool_decide_eq_false_1 in Hk. intros Hget.
  apply not_elem_of_cons. split; [congruence | by apply IH].
Qed.

Lemma elem_of_get_own k v o : NoDup o.*1 → (k, v) ∈ o → JsObject.get_own k o = Some v.
Proof.
  induction o as [| [k' v'] o IH]; simpl; [intros _ Hin; by apply elem_of_nil in Hin |].
  intros Hnd Hin. apply NoDup_cons in Hnd as [Hk' Hnd]. rewrite get_own_cons.
  apply elem_of_cons in Hin as [[= -> ->] | Hin].
  - by rewrite bool_decide_eq_true_2.
  - rewrite bool_decide_eq_false_2; [by apply IH |].
    intros ->. apply Hk'. by apply (list_elem_of_fmap_2 fst _ (k, v)).
Qed.

Lemma set_keys k v o :
  (JsObject.set k v o).*1
  = match JsObject.get_own k o with
    | Some _ => o.*1
    | None => (o.*1 ++ [k])%list
    end.
Proof.
  induction o as [| [k' v'] o IH]; [done |].
  cbn [JsObject.set]. rewrite get_own_cons.
  destruct (bool_decide (k' = k)) eqn:Hk.
  - apply bool_decide_eq_true_1 in Hk. by subst.
  - rewrite !fmap_cons, IH. by destruct (JsObject.get_own k o).
Qed.

Lemma set_NoDup k v o : NoDup o.*1 → NoDup (JsObject.set k v o).*1.
Proof.
  intros Hnd. rewrite set_keys. destruct (JsObject.get_own k o) eqn:Hget; [done |].
  apply NoDup_app. split_and!; [done | | apply NoDup_singleton].
  intros x Hx Hx'. apply list_elem_of_singleton in Hx'. subst.
  by apply get_own_None in Hget.
Qed.

Lemma entries_Permutation o : JsObject.entries o ≡ₚ o.
Proof.
  unfold JsObject.entries. rewrite stable_sort_Permutation.
  apply filter_app_complement.
Qed.

End JsObjectFacts.

(** ** Visits per doctor *)






(** ** Causes *)

Section SymptomPatternsProperties.

Context (toLowerCase : string → string).

Lemma occurrences_cons k cause causes :
  occurrences toLowerCase k (cause :: causes)
  = (if bool_decide (normalized toLowerCase cause = k) then 1 else 0)
    + occurrences toLowerCase k causes.
Proof.
  unfold occurrences. rewrite filter_cons.
  destruct (decide (normalized toLowerCase cause = k)) as [Hk | Hk].
  - rewrite bool_decide_eq_true_2 by done. simpl. lia.
  - by rewrite bool_decide_eq_false_2.
Qed.

Lemma occurrences_Permutation k causes causes' :
  causes ≡ₚ causes' →
  occurrences toLowerCase k causes = occurrences toLowerCase k causes'.
Proof. intros Hperm. unfold occurrences. by rewrite Hperm. Qed.

Lemma count_cause_spec o cause :
  tally_wf o →
  JsObject.inherited (normalized toLowerCase cause) = false →
  ∃ o', count_cause toLowerCase (Some o) cause = Some o'
        ∧ tally_wf o'
        ∧ ∀ k, counted k o'
               = counted k o
                 + (if bool_decide (normalized toLowerCase cause = k) then 1 else 0).
Proof.
  intros [Hnd Hwf] Hinh. unfold count_cause.
  destruct (JsObject.get_own (normalized toLowerCase cause) o) as [n |] eqn:Hget.
  - pose proof (Hwf _ _ Hget) as Hn.
    rewrite (bool_decide_eq_false_2 (n = 0)) by lia.
    eexists. split; [done |]. split.
    + split; [by apply set_NoDup |]. intros k m Hk.
      destruct (decide (normalized toLowerCase cause = k)) as [<- | Hne].
      * rewrite get_own_set_eq in Hk. injection Hk as <-. lia.
      * rewrite get_own_set_ne in Hk by done. by apply (Hwf k).
    + intros k. unfold counted.
      destruct (decide (normalized toLowerCase cause = k)) as [<- | Hne].
      * rewrite get_own_set_eq, Hget, bool_decide_eq_true_2 by done. done.
      * rewrite get_own_set_ne, bool_decide_eq_false_2 by done. lia.
  - rewrite Hinh. eexists. split; [done |]. split.
    + split; [by apply set_NoDup |]. intros k m Hk.
      destruct (decide (normalized toLowerCase cause = k)) as [<- | Hne].
      * rewrite get_own_set_eq in Hk. injection Hk as <-. lia.
      * rewrite get_own_set_ne in Hk by done. by apply (Hwf k).
    + intros k. unfold counted.
      destruct (decide (normalized toLowerCase cause = k)) as [<- | Hne].
      * rewrite get_own_set_eq, Hget, bool_decide_eq_true_2 by done. done.
      * rewrite get_own_set_ne, bool_decide_eq_false_2 by done. lia.
Qed.

Lemma foldl_count_cause causes o :
  tally_wf o →
  (∀ c, c ∈ causes → JsObject.inherited (normalized toLowerCase c) = false) →
  ∃ o', foldl (count_cause toLowerCase) (Some o) causes = Some o'
        ∧ tally_wf o'
        ∧ ∀ k, counted k o' = counted k o + occurrences toLowerCase k causes.
Proof.
  revert o. induction causes as [| cause causes IH]; intros o Hwf Hinh; cbn [foldl].
  - exists o. split; [done |]. split; [done |]. intros k. unfold occurrences. simpl. lia.
  - destruct (count_cause_spec o cause Hwf) as (o1 & Hstep & Hwf1 & Hcount1).
    { apply Hinh. apply list_elem_of_here. }
    rewrite Hstep.
    destruct (IH o1 Hwf1) as (o' & Hfold & Hwf' & Hcount').
    { intros c Hc. apply Hinh. by apply list_elem_of_further. }
    exists o'. split; [done |]. split; [done |].
    intros k. rewrite Hcount', Hcount1, occurrences_cons. lia.
Qed.

(** X27. [getSymptomPatterns] counts right: for a user none of whose
    causes normalizes to a name of [Object.prototype], [commonCauses]
    holds each normalized cause of the user's chats once, with the number
    of causes that normalize to it as [count] (so "Fever" and " fever "
    are one entry), sorted by [count], highest first; [recentChats] are
    the user's chats, newest first. *)
Theorem symptom_patterns_count u (aiChats : list AiChat) :
  AuthUser.id u ≠ "" →
  let mine := filter (λ c, chat_userId c = AuthUser.id u) aiChats in
  let causes := mine ≫= probableCauses in
  (∀ c, c ∈ causes → JsObject.inherited (normalized toLowerCase c) = false) →
  ∃ patterns,
    getSymptomPatterns toLowerCase (Some u) aiChats
      = Some (Served 200 patterns "Symptom patterns retrieved successfully")
    ∧ recentChats patterns ≡ₚ mine
    ∧ Sorted (λ a b, chat_createdAt b ≤ chat_createdAt a) (recentChats patterns)
    ∧ NoDup (commonCauses patterns).*1
    ∧ (∀ k n, (k, n) ∈ commonCauses patterns
              ↔ n = occurrences toLowerCase k causes ∧ 1 ≤ n)
    ∧ Sorted (λ a b, b.2 ≤ a.2) (commonCauses patterns).
Proof.
  intros Hid mine causes Hinh. unfold getSymptomPatterns.
  rewrite bool_decide_eq_false_2 by done.
  change (filter (λ c, chat_userId c = AuthUser.id u) aiChats) with mine.
  set (recent := stable_sort (λ y x, chat_createdAt x <? chat_createdAt y) mine).
  assert (Hrecent : recent ≡ₚ mine) by apply stable_sort_Permutation.
  assert (Hcauses : recent ≫= probableCauses ≡ₚ causes)
    by (unfold causes; by rewrite Hrecent).
  assert (Hwf0 : tally_wf []) by (split; [constructor | done]).
  destruct (foldl_count_cause (recent ≫= probableCauses) [] Hwf0)
    as (o & Hfold & [Hnd Hwf] & Hcount).
  { intros c Hc. apply Hinh. by rewrite <- Hcauses. }
  exists {| recentChats := recent;
            commonCauses := stable_sort (λ y x : string * Z, x.2 <? y.2)
                              (JsObject.entries o) |}.
  unfold JsObject.t in *. rewrite Hfold. split; [done |]. simpl.
  assert (Hperm : stable_sort (λ y x : string * Z, x.2 <? y.2) (JsObject.entries o) ≡ₚ o)
    by (by rewrite stable_sort_Permutation, entries_Permutation).
  split_and!.
  - done.
  - eapply Sorted_weaken; [| apply stable_sort_Sorted].
    + intros a b Hab. simpl in Hab. apply Z.ltb_ge in Hab. exact Hab.
    + intros a b Hab. simpl in *. apply Z.ltb_lt in Hab. apply Z.ltb_ge. lia.
  - by rewrite Hperm.
  - intros k n. rewrite Hperm. specialize (Hcount k).
    rewrite (occurrences_Permutation k _ _ Hcauses) in Hcount.
    unfold counted in Hcount. simpl in Hcount. split.
    + intros Hin. pose proof (elem_of_get_own k n o Hnd Hin) as Hget.
      rewrite Hget in Hcount. simpl in Hcount.
      pose proof (Hwf k n Hget). lia.
    + intros [-> Hpos]. apply get_own_elem_of.
      destruct (JsObject.get_own k o) as [m |]; simpl in Hcount; [| lia].
      f_equal. lia.
  - eapply Sorted_weaken; [| apply stable_sort_Sorted].
    + intros a b Hab. simpl in Hab. apply Z.ltb_ge in Hab. exact Hab.
    + intros a b Hab. simpl in *. apply Z.ltb_lt in Hab. apply Z.ltb_ge. lia.
Qed.

End SymptomPatternsProperties.

(** * Listing users *)

Section ListAllUsersProperties.

Context (createdAt : string → Z).

(** What a listing that was served looks like. *)
Lemma listAllUsers_served query_page query_limit query_role (db : Db) listing message :
  listAllUsers createdAt query_page query_limit query_role db
    = Some (Served 200 listing message) →
  let wanted := query_role ≫= valid_role in
  let page := Z.max 1 (JsNumber.or_number (JsNumber.parseInt query_page) 1) in
  let limit :=
    Z.min 100 (Z.max 1 (JsNumber.or_number (JsNumber.parseInt query_limit) 10)) in
  let matching := filter (listed wanted) (map_to_list db) in
  (page - 1) * limit ≤ 2147483647
  ∧ listed_users listing
    = take (Z.to_nat limit)
        (drop (Z.to_nat ((page - 1) * limit))
           (stable_sort (λ y x, createdAt x.1 <? createdAt y.1) matching))
  ∧ pagination listing
    = {| pg_page := page; pg_limit := limit;
         pg_totalCount := Z.of_nat (length matching);
         pg_totalPages := (Z.of_nat (length matching) + limit - 1) / limit;
         pg_hasNextPage := page <? (Z.of_nat (length matching) + limit - 1) / limit;
         pg_hasPrevPage := 1 <? page |}.
Proof.
  unfold listAllUsers.
  destruct query_role as [roleFilter |]; simpl;
    [destruct (bool_decide (roleFilter = "")) eqn:Hempty;
       [apply bool_decide_eq_true_1 in Hempty; subst roleFilter
       | destruct (valid_role roleFilter) as [role |] eqn:Hrole; [| discriminate]] |];
    (destruct (2147483647 <? _) eqn:Hskip; [discriminate |]);
    apply Z.ltb_ge in Hskip; intros [= <- _]; done.
Qed.

(** X28. Whatever the query says, a listing that is served has a page of
    at least 1 and a limit between 1 and 100, lists no more users than
    the limit and none twice, and every user it lists is a row of the
    table that is not soft-deleted and has the role asked for. *)
Theorem listAllUsers_bounds query_page query_limit query_role (db : Db)
    listing message :
  listAllUsers createdAt query_page query_limit query_role db
    = Some (Served 200 listing message) →
  1 ≤ pg_page (pagination listing)
  ∧ 1 ≤ pg_limit (pagination listing) ≤ 100
  ∧ Z.of_nat (length (listed_users listing)) ≤ pg_limit (pagination listing)
  ∧ NoDup (listed_users listing)
  ∧ ∀ id u, (id, u) ∈ listed_users listing →
      db !! id = Some u
      ∧ User.deletedAt u = None
      ∧ ∀ r role, query_role = Some r → valid_role r = Some role → User.role u = role.
Proof.
  intros Hserved.
  destruct (listAllUsers_served _ _ _ _ _ _ Hserved) as (_ & Husers & Hpg).
  rewrite Hpg, Husers. simpl. clear Hpg Husers.
  set (matching := filter (listed (query_role ≫= valid_role)) (map_to_list db)).
  set (sorted := stable_sort (λ y x, createdAt x.1 <? createdAt y.1) matching).
  assert (Hsub : ∀ x n m, x ∈ take n (drop m sorted) → x ∈ matching).
  { intros x n m Hx. apply subseteq_take, subseteq_drop in Hx.
    unfold sorted in Hx. by rewrite stable_sort_Permutation in Hx. }
  split_and!; try lia.
  - rewrite length_take. lia.
  - eapply sublist_NoDup; [| apply sublist_take].
    eapply sublist_NoDup; [| apply sublist_drop].
    unfold sorted. rewrite stable_sort_Permutation.
    apply NoDup_filter, NoDup_map_to_list.
  - intros id u Hin. apply Hsub in Hin. unfold matching in Hin.
    apply list_elem_of_filter in Hin as [[Hdel Hrole] Hin].
    apply elem_of_map_to_list in Hin. simpl in *. split_and!; [done | done |].
    intros r role Hr Hvalid. rewrite Hr in Hrole. simpl in Hrole.
    by rewrite Hvalid in Hrole.
Qed.

(** X29. The page numbers of a listing add up: [totalCount] is the
    number of rows that are not soft-deleted and have the role asked for;
    [totalPages] pages of [limit] rows are just enough to hold them;
    [hasNextPage] says that rows remain after this page, [hasPrevPage]
    that the page is not the first; and the page holds [limit] rows, or
    what is left of them. *)
Theorem listAllUsers_pagination query_page query_limit query_role (db : Db)
    listing message :
  listAllUsers createdAt query_page query_limit query_role db
    = Some (Served 200 listing message) →
  let pg := pagination listing in
  pg_totalCount pg
    = Z.of_nat (length (filter (listed (query_role ≫= valid_role)) (map_to_list db)))
  ∧ (pg_totalPages pg - 1) * pg_limit pg < pg_totalCount pg ≤ pg_totalPages pg * pg_limit pg
  ∧ (pg_hasNextPage pg = true ↔ pg_page pg * pg_limit pg < pg_totalCount pg)
  ∧ (pg_hasPrevPage pg = true ↔ 1 < pg_page pg)
  ∧ Z.of_nat (length (listed_users listing))
    = Z.min (pg_limit pg) (Z.max 0 (pg_totalCount pg - (pg_page pg - 1) * pg_limit pg)).
Proof.
  intros Hserved.
  destruct (listAllUsers_served _ _ _ _ _ _ Hserved) as (Hskip & Husers & Hpg).
  rewrite Hpg, Husers. clear Hpg Husers Hserved.
  cbn [pg_page pg_limit pg_totalCount pg_totalPages pg_hasNextPage pg_hasPrevPage].
  set (page := Z.max 1 (JsNumber.or_number (JsNumber.parseInt query_page) 1)) in *.
  set (limit := Z.min 100 (Z.max 1 (JsNumber.or_number (JsNumber.parseInt query_limit) 10)))
    in *.
  set (total := Z.of_nat (length (filter (listed (query_role ≫= valid_role))
                                         (map_to_list db)))).
  assert (Hpage : 1 ≤ page) by lia.
  assert (Hlimit : 1 ≤ limit) by lia.
  assert (Htotal : 0 ≤ total) by lia.
  pose proof (Z.div_mod (total + limit - 1) limit ltac:(lia)) as Hdiv.
  pose proof (Z.mod_pos_bound (total + limit - 1) limit ltac:(lia)) as Hmod.
  set (pages := (total + limit - 1) / limit) in *.
  split_and!.
  - done.
  - nia.
  - nia.
  - rewrite Z.ltb_lt. split; intros; nia.
  - apply Z.ltb_lt.
  - rewrite length_take, length_drop, length_Permutation_proper
      by apply stable_sort_Permutation.
    assert (Hskip' : 0 ≤ (page - 1) * limit) by nia.
    unfold total. clear Hdiv Hmod. lia.
Qed.

(** X30. The role filter is checked against the three role names as they
    are spelled: any other non-empty [role], a lower-case name included,
    is answered 400 before anything is fetched, whatever page and limit
    say. *)
Theorem listAllUsers_checks_role query_page query_limit role (db : Db) :
  role ≠ "" →
  role ∉ ["PATIENT"; "DOCTOR"; "ADMIN"] →
  listAllUsers createdAt query_page query_limit (Some role) db
    = Some (Refused 400 "Invalid role filter. Must be one of: PATIENT, DOCTOR, ADMIN").
Proof.
  intros Hne Hrole. unfold listAllUsers.
  rewrite bool_decide_eq_false_2 by done.
  assert (Hvalid : valid_role role = None).
  { unfold valid_role. repeat case_bool_decide; try done; subst;
      exfalso; apply Hrole; set_solver. }
  by rewrite Hvalid.
Qed.

End ListAllUsersProperties.

(** ** The claims on the worked scenario *)

Import Scenario.

Lemma refresh_after_login_rejected_witness :
  login env t0 credentials db
    = (<[alice_id := issued_row env t0 alice_id alice]> db,
       Returned (login_ok env alice_id alice alice_access alice_refresh))
  ∧ cookies (login_ok env alice_id alice alice_access alice_refresh)
    = [("accessToken", alice_access, options env);
       ("refreshToken", alice_refresh, options env)]
  ∧ incomingRefreshToken (refresh_with alice_refresh) = Str alice_refresh
  ∧ ∃ message,
      refreshAccessToken env t1 (refresh_with alice_refresh)
        (<[alice_id := issued_row env t0 alice_id alice]> db)
      = (<[alice_id := issued_row env t0 alice_id alice]> db,
         Returned (reject 401 message))
      ∧ (clock t1 < clock t0 + REFRESH_TOKEN_EXPIRY env →
         message = "Refresh token has been revoked").
Proof.
  assert (H1 : login env t0 credentials db
            = (<[alice_id := issued_row env t0 alice_id alice]> db,
               Returned (login_ok env alice_id alice alice_access alice_refresh)))
    by (vm_compute; reflexivity).
  split; [exact H1 |]. split; [reflexivity |]. split; [reflexivity |].
  exact (refresh_after_login_rejected env t0 credentials db _ _
           alice_access alice_refresh (options env) (options env)
           t1 (refresh_with alice_refresh) H1 eq_refl eq_refl).
Defined.

Lemma login_ignores_isEmailVerified_witness :
  "Alice@Example.com" ≠ ""
  ∧ Js.trim "Passw0rd!" ≠ ""
  ∧ Js.trim "Alice@Example.com" ≠ ""
  ∧ prisma.findFirstWhere (email_or_name "Alice@Example.com") db
    = (db, Returned (Some (alice_id, alice)))
  ∧ User.isEmailVerified alice = false
  ∧ User.deletedAt alice = None
  ∧ bcrypt.compare (Literal "Passw0rd!") (User.password alice) = true
  ∧ login env t0 credentials db
    = (<[alice_id := issued_row env t0 alice_id alice]> db,
       Returned (login_ok env alice_id alice
                   (generateAccessToken env (clock t0) alice_id (User.tokenVersion alice + 1))
                   (generateRefreshToken env (clock t0) alice_id (User.tokenVersion alice + 1)))).
Proof.
  assert (H1 : "Alice@Example.com" ≠ "") by discriminate.
  assert (H2 : Js.trim "Passw0rd!" ≠ "") by (vm_compute; discriminate).
  assert (H3 : Js.trim "Alice@Example.com" ≠ "") by (vm_compute; discriminate).
  assert (H4 : prisma.findFirstWhere (email_or_name "Alice@Example.com") db
               = (db, Returned (Some (alice_id, alice)))) by (vm_compute; reflexivity).
  assert (H5 : bcrypt.compare (Literal "Passw0rd!") (User.password alice) = true)
    by (vm_compute; reflexivity).
  repeat (split; [assumption || reflexivity |]).
  exact (login_ignores_isEmailVerified env t0 "Alice@Example.com" "Passw0rd!"
           db alice_id alice H1 H2 H3 H4 eq_refl eq_refl H5).
Defined.

Lemma authenticate_after_issuePair_witness :
  db !! alice_id = Some alice
  ∧ User.deletedAt alice = None
  ∧ (∃ db' accessToken refreshToken,
      generateToken env t0 alice_id db = (db', Returned (accessToken, refreshToken))
      ∧ ∀ now,
          now < clock t0 + ACCESS_TOKEN_EXPIRY env →
          let subject :=
            AuthUser.mk alice_id (User.name alice) (User.email alice)
                        (User.role alice) (User.tokenVersion alice + 1)
                        (User.patient alice) (User.doctor alice) in
          (∀ header,
             isAuthenticated env now
               {| cookies_accessToken := Some accessToken;
                  header_Authorization := header |} db'
             = (db', Returned (Next subject)))
          ∧ (∀ cookie,
               falsy cookie = true →
               isAuthenticated env now
                 {| cookies_accessToken := cookie;
                    header_Authorization := Some (Bearer accessToken) |} db'
               = (db', Returned (Next subject)))
          ∧ (∀ req,
               bearer_token req = Some accessToken →
               isAuthenticated env now req db' = (db', Returned (Next subject))))
  ∧ (generateToken env t0 alice_id db).2 = Returned (alice_access, alice_refresh)
  ∧ isAuthenticated env 1060 (with_cookie alice_access)
      (generateToken env t0 alice_id db).1
    = ((generateToken env t0 alice_id db).1, Returned (Next alice_user))
  ∧ isAuthenticated env 1060 (with_header alice_access)
      (generateToken env t0 alice_id db).1
    = ((generateToken env t0 alice_id db).1, Returned (Next alice_user)).
Proof.
  assert (H1 : db !! alice_id = Some alice) by (vm_compute; reflexivity).
  pose proof (authenticate_after_issuePair env t0 alice_id db alice H1 eq_refl) as Hthm.
  split; [exact H1 |]. split; [reflexivity |]. split; [exact Hthm |].
  destruct Hthm as (db' & accessToken & refreshToken & Hgen & Hpass).
  assert (Hnow : 1060 < clock t0 + ACCESS_TOKEN_EXPIRY env) by (vm_compute; reflexivity).
  destruct (Hpass 1060 Hnow) as (Hcookie & Hheader & _).
  rewrite Hgen.
  rewrite (generateToken_found env t0 alice_id db alice H1) in Hgen.
  injection Hgen as <- <- <-.
  split_and!; [reflexivity | exact (Hcookie None) | exact (Hheader None eq_refl)].
Defined.

Lemma bad_token_answers_500_witness :
  bearer_token (with_header (Literal "not.a.token")) = Some (Literal "not.a.token")
  ∧ truthy (Literal "not.a.token") = true
  ∧ (jwt.verify 1060 (Literal "not.a.token") (ACCESS_TOKEN_SECRET env)
       = jwt.JsonWebTokenError
     ∨ jwt.verify 1060 (Literal "not.a.token") (ACCESS_TOKEN_SECRET env)
       = jwt.TokenExpiredError)
  ∧ isAuthenticated env 1060 (with_header (Literal "not.a.token")) db
    = (db, Returned (Respond (reject 500 "error in authenticated"))).
Proof.
  split; [reflexivity |]. split; [reflexivity |]. split; [left; reflexivity |].
  exact (bad_token_answers_500 env 1060 (with_header (Literal "not.a.token")) db
           (Literal "not.a.token") eq_refl eq_refl (or_introl eq_refl)).
Defined.

Lemma logout_revokes_access_tokens_witness :
  db !! alice_id = Some alice
  ∧ AuthUser.id alice_user = alice_id
  ∧ ∃ db1 accessToken refreshToken,
      generateToken env t0 alice_id db = (db1, Returned (accessToken, refreshToken))
      ∧ ∃ db3 u3,
          logout env (Some alice_user)
            (exec_all env isValidUUID [CallRefresh t1 (refresh_with alice_refresh)] db1)
            = (db3, Returned (logout_ok env))
          ∧ db3 !! alice_id = Some u3
          ∧ User.tokenVersion alice + 1 < User.tokenVersion u3
          ∧ User.refreshToken u3 = Some (Literal "")
          ∧ ∀ now req,
              bearer_token req = Some accessToken →
              (∀ user, (isAuthenticated env now req db3).2 ≠ Returned (Next user))
              ∧ (now < clock t0 + ACCESS_TOKEN_EXPIRY env →
                 isAuthenticated env now req db3 =
                   (db3, Returned (Respond (reject 401
                      (if bool_decide (User.deletedAt u3 = None)
                       then "Token has been invalidated, please login again"
                       else "Account not found or has been deactivated"))))).
Proof.
  assert (H1 : db !! alice_id = Some alice) by (vm_compute; reflexivity).
  split; [exact H1 |]. split; [reflexivity |].
  exact (logout_revokes_access_tokens env isValidUUID t0 alice_id db alice
           [CallRefresh t1 (refresh_with alice_refresh)] alice_user H1 eq_refl).
Defined.

Lemma refresh_token_single_use_witness :
  refreshAccessToken env t0 (refresh_with legacy_refresh) legacy_db
    = (<[alice_id := issued_row env t0 alice_id
                       (User.with_refreshToken (Some legacy_refresh) alice)]> legacy_db,
       Returned (refresh_ok env alice_access alice_refresh))
  ∧ status (refresh_ok env alice_access alice_refresh) = 200
  ∧ incomingRefreshToken (refresh_with legacy_refresh)
    = incomingRefreshToken (refresh_with legacy_refresh)
  ∧ let db2 :=
      exec_all env isValidUUID [CallAuthenticate 1010 (with_cookie alice_access)]
        (<[alice_id := issued_row env t0 alice_id
                         (User.with_refreshToken (Some legacy_refresh) alice)]> legacy_db) in
    ∃ message,
      refreshAccessToken env t1 (refresh_with legacy_refresh) db2
        = (db2, Returned (reject 401 message))
      ∧ (∀ tok, incomingRefreshToken (refresh_with legacy_refresh) = Str tok →
           jwt.verify (clock t1) tok (REFRESH_TOKEN_SECRET env) ≠ jwt.TokenExpiredError →
           message = "Refresh token has been revoked").
Proof.
  assert (H1 : refreshAccessToken env t0 (refresh_with legacy_refresh) legacy_db
    = (<[alice_id := issued_row env t0 alice_id
                       (User.with_refreshToken (Some legacy_refresh) alice)]> legacy_db,
       Returned (refresh_ok env alice_access alice_refresh)))
    by (vm_compute; reflexivity).
  split; [exact H1 |]. split; [reflexivity |]. split; [reflexivity |].
  exact (refresh_token_single_use env isValidUUID t0 (refresh_with legacy_refresh)
           legacy_db _ _ [CallAuthenticate 1010 (with_cookie alice_access)]
           t1 (refresh_with legacy_refresh) H1 eq_refl eq_refl).
Defined.

Lemma tokenVersion_never_decreases_witness :
  db !! alice_id = Some alice
  ∧ (∀ w userId, ∃ u', (generateToken env w userId db).1 !! alice_id = Some u'
                       ∧ User.tokenVersion alice ≤ User.tokenVersion u')
  ∧ (∀ w req, ∃ u', (login env w req db).1 !! alice_id = Some u'
                    ∧ User.tokenVersion alice ≤ User.tokenVersion u')
  ∧ (∀ w req, ∃ u', (refreshAccessToken env w req db).1 !! alice_id = Some u'
                    ∧ User.tokenVersion alice ≤ User.tokenVersion u')
  ∧ (∀ user, ∃ u', (logout env user db).1 !! alice_id = Some u'
                   ∧ User.tokenVersion alice ≤ User.tokenVersion u')
  ∧ (∀ cs, ∃ u', exec_all env isValidUUID cs db !! alice_id = Some u'
                 ∧ User.tokenVersion alice ≤ User.tokenVersion u').
Proof.
  assert (H1 : db !! alice_id = Some alice) by (vm_compute; reflexivity).
  split; [exact H1 |].
  exact (tokenVersion_never_decreases env isValidUUID db alice_id alice H1).
Defined.

Lemma soft_deleted_never_authenticated_witness :
  db !! bob_id = Some bob
  ∧ is_Some (User.deletedAt bob)
  ∧ let db' := exec_all env isValidUUID [CallLogin t0 credentials] db in
    let req := with_header (generateAccessToken env 1000 bob_id 4) in
    (∀ user, (isAuthenticated env 1060 req db').2 = Returned (Next user) →
             AuthUser.id user ≠ bob_id)
    ∧ (∀ tok p,
         bearer_token req = Some tok →
         jwt.verify 1060 tok (ACCESS_TOKEN_SECRET env) = jwt.Decoded (ClaimsObject p) →
         Payload.userId p = Str bob_id →
         isAuthenticated env 1060 req db' =
           (db', Returned (Respond
                   (reject 401 "Account not found or has been deactivated")))).
Proof.
  assert (H1 : db !! bob_id = Some bob) by (vm_compute; reflexivity).
  assert (H2 : is_Some (User.deletedAt bob)) by (exists 500; reflexivity).
  split; [exact H1 |]. split; [exact H2 |].
  exact (soft_deleted_never_authenticated env isValidUUID [CallLogin t0 credentials]
           db bob_id bob 1060 (with_header (generateAccessToken env 1000 bob_id 4))
           H1 H2).
Defined.

Lemma consume_single_use_witness :
  db !! alice_id = Some alice
  ∧ User.emailVerificationToken alice = Some "k3verify"
  ∧ (∀ e, User.tokenExpiresAt alice = Some e → 2000 ≤ e)
  ∧ ∃ db' u',
      VerificationTokenManager.consume 2000 alice_id "k3verify" db
        = (db', Returned VerificationTokenManager.Verified)
      ∧ db' !! alice_id = Some u'
      ∧ User.isEmailVerified u' = true
      ∧ User.emailVerificationToken u' = None
      ∧ User.tokenExpiresAt u' = None
      ∧ ∀ now',
          VerificationTokenManager.consume now' alice_id "k3verify" db'
            = (db', Returned (VerificationTokenManager.Reject
                                VerificationTokenManager.Mismatch)).
Proof.
  assert (H1 : db !! alice_id = Some alice) by (vm_compute; reflexivity).
  assert (H3 : ∀ e, User.tokenExpiresAt alice = Some e → 2000 ≤ e)
    by (intros e [= <-]; lia).
  split; [exact H1 |]. split; [reflexivity |]. split; [exact H3 |].
  exact (consume_single_use 2000 alice_id "k3verify" db alice H1 eq_refl H3).
Defined.

Lemma versionless_token_accepted_witness :
  db !! alice_id = Some alice
  ∧ User.deletedAt alice = None
  ∧ bearer_token (with_cookie versionless)
    = Some (Jws (ACCESS_TOKEN_SECRET env)
                (ClaimsObject (Payload.mk (Str alice_id) Undefined)) (Some 5000))
  ∧ (∀ e, Some 5000 = Some e → 1060 < e)
  ∧ isAuthenticated env 1060 (with_cookie versionless) db
    = (db, Returned (Next (selected alice_id alice)))
  ∧ ∀ me, AuthUser.id me = alice_id →
      ∃ db' u',
        logout env (Some me) db = (db', Returned (logout_ok env))
        ∧ db' !! alice_id = Some u'
        ∧ User.tokenVersion u' = User.tokenVersion alice + 1
        ∧ isAuthenticated env 1060 (with_cookie versionless) db'
          = (db', Returned (Next (selected alice_id u'))).
Proof.
  assert (H1 : db !! alice_id = Some alice) by (vm_compute; reflexivity).
  assert (H4 : ∀ e, Some 5000 = Some e → 1060 < e) by (intros e [= <-]; lia).
  split; [exact H1 |]. split; [reflexivity |]. split; [reflexivity |].
  split; [exact H4 |].
  exact (versionless_token_accepted env 1060 (with_cookie versionless) db alice_id
           alice (Some 5000) H1 eq_refl eq_refl H4).
Defined.

(** ** The scenario of the specification, step by step *)

(** Alice signs up and, unverified, logs in: 200 and both cookies. *)
Example unverified_login_is_served :
  (login env t0 credentials db).2
  = Returned (login_ok env alice_id alice alice_access alice_refresh)
  ∧ User.isEmailVerified alice = false.
Proof. split; [vm_compute |]; reflexivity. Qed.

(** The refresh token she was given is refused a minute later. *)
Example first_refresh_is_refused :
  (refreshAccessToken env t1 (refresh_with alice_refresh)
     (login env t0 credentials db).1).2
  = Returned (reject 401 "Refresh token has been revoked").
Proof. vm_compute. reflexivity. Qed.

(** Her access token passes the gate, by cookie or by header. *)
Example access_token_passes :
  (isAuthenticated env 1060 (with_cookie alice_access) (login env t0 credentials db).1).2
  = Returned (Next alice_user)
  ∧ (isAuthenticated env 1060 (with_header alice_access)
       (login env t0 credentials db).1).2
    = Returned (Next alice_user).
Proof. split; vm_compute; reflexivity. Qed.

(** Once expired, the same access token is answered 500. *)
Example expired_token_answers_500 :
  (isAuthenticated env 1900 (with_cookie alice_access) (login env t0 credentials db).1).2
  = Returned (Respond (reject 500 "error in authenticated")).
Proof. vm_compute. reflexivity. Qed.

(** A token that verifies but names nobody passes as the first row that is
    not soft-deleted. *)
Example anonymous_token_passes :
  (isAuthenticated env 1060
     (with_cookie (Jws "access-secret" (ClaimsObject (Payload.mk Undefined Undefined)) None))
     db).2
  = Returned (Next (selected alice_id alice)).
Proof. vm_compute. reflexivity. Qed.

(** An admin soft-deletes Alice; her access token, still unexpired and at
    her current version, is answered 401. *)
Example soft_deleted_token_is_refused :
  let db1 := (login env t0 credentials db).1 in
  let served := softDeleteUser isValidUUID 1030 alice_id None db1 in
  status <$> (match served.2 with Returned r => Some r | Thrown _ => None end) = Some 200
  ∧ (isAuthenticated env 1060 (with_cookie alice_access) served.1).2
    = Returned (Respond (reject 401 "Account not found or has been deactivated")).
Proof. split; vm_compute; reflexivity. Qed.

(** ** The further properties on the worked scenario *)

Import Cases.

Example listing_first_page :
  listAllUsers createdAt (Some " 1") (Some "10 per page") None staff_db
  = Some (Served 200 first_page "Users fetched successfully").
Proof. vm_compute. reflexivity. Qed.

Lemma gate_requires_token_witness :
  falsy (bearer_token {| cookies_accessToken := Some (Literal "");
                         header_Authorization := Some (Bearer (Literal "")) |}) = true
  ∧ isAuthenticated env 1060
      {| cookies_accessToken := Some (Literal "");
         header_Authorization := Some (Bearer (Literal "")) |} db
    = (db, Returned (Respond (reject 401 "Unauthorized request"))).
Proof.
  split; [reflexivity |].
  exact (gate_requires_token env 1060
           {| cookies_accessToken := Some (Literal "");
              header_Authorization := Some (Bearer (Literal "")) |} db eq_refl).
Defined.

Lemma reissue_revokes_access_tokens_witness :
  db !! alice_id = Some alice
  ∧ ∃ db1 accessToken refreshToken,
      generateToken env t0 alice_id db = (db1, Returned (accessToken, refreshToken))
      ∧ ∃ db3 pair2 u3,
          generateToken env t1 alice_id
            (exec_all env isValidUUID [CallAuthenticate 1010 (with_cookie alice_access)] db1)
            = (db3, Returned pair2)
          ∧ db3 !! alice_id = Some u3
          ∧ User.tokenVersion alice + 1 < User.tokenVersion u3
          ∧ ∀ now req,
              bearer_token req = Some accessToken →
              (∀ user, (isAuthenticated env now req db3).2 ≠ Returned (Next user))
              ∧ (now < clock t0 + ACCESS_TOKEN_EXPIRY env →
                 isAuthenticated env now req db3 =
                   (db3, Returned (Respond (reject 401
                      (if bool_decide (User.deletedAt u3 = None)
                       then "Token has been invalidated, please login again"
                       else "Account not found or has been deactivated"))))).
Proof.
  assert (H1 : db !! alice_id = Some alice) by (vm_compute; reflexivity).
  split; [exact H1 |].
  exact (reissue_revokes_access_tokens env isValidUUID t0 alice_id db alice
           [CallAuthenticate 1010 (with_cookie alice_access)] t1 H1).
Defined.

Lemma token_kinds_are_separate_witness :
  ACCESS_TOKEN_SECRET env ≠ REFRESH_TOKEN_SECRET env
  ∧ db !! alice_id = Some alice
  ∧ ∃ db' accessToken refreshToken,
      generateToken env t0 alice_id db = (db', Returned (accessToken, refreshToken))
      ∧ (∀ now req,
           bearer_token req = Some refreshToken →
           isAuthenticated env now req db'
             = (db', Returned (Respond (reject 500 "error in authenticated"))))
      ∧ (∀ w' req,
           incomingRefreshToken req = Str accessToken →
           refreshAccessToken env w' req db'
             = (db', Returned (reject 401 "Invalid or expired refresh token"))).
Proof.
  assert (H1 : ACCESS_TOKEN_SECRET env ≠ REFRESH_TOKEN_SECRET env) by discriminate.
  assert (H2 : db !! alice_id = Some alice) by (vm_compute; reflexivity).
  split; [exact H1 |]. split; [exact H2 |].
  exact (token_kinds_are_separate env t0 alice_id db alice H1 H2).
Defined.

Lemma shared_secret_confuses_kinds_witness :
  ACCESS_TOKEN_SECRET shared_env = REFRESH_TOKEN_SECRET shared_env
  ∧ db !! alice_id = Some alice
  ∧ User.deletedAt alice = None
  ∧ (∃ db' accessToken refreshToken,
      generateToken shared_env t0 alice_id db
        = (db', Returned (accessToken, refreshToken))
      ∧ ∀ now,
          now < clock t0 + REFRESH_TOKEN_EXPIRY shared_env →
          let subject := selected alice_id (issued_row shared_env t0 alice_id alice) in
          (∀ header,
             isAuthenticated shared_env now
               {| cookies_accessToken := Some refreshToken;
                  header_Authorization := header |} db'
             = (db', Returned (Next subject)))
          ∧ (∀ cookie,
               falsy cookie = true →
               isAuthenticated shared_env now
                 {| cookies_accessToken := cookie;
                    header_Authorization := Some (Bearer refreshToken) |} db'
               = (db', Returned (Next subject)))
          ∧ (∀ req,
               bearer_token req = Some refreshToken →
               isAuthenticated shared_env now req db' = (db', Returned (Next subject))))
  ∧ isAuthenticated shared_env 90000
      (with_cookie (generateRefreshToken shared_env 1000 alice_id 1))
      (generateToken shared_env t0 alice_id db).1
    = ((generateToken shared_env t0 alice_id db).1, Returned (Next alice_user))
  ∧ isAuthenticated shared_env 90000
      (with_header (generateRefreshToken shared_env 1000 alice_id 1))
      (generateToken shared_env t0 alice_id db).1
    = ((generateToken shared_env t0 alice_id db).1, Returned (Next alice_user)).
Proof.
  assert (H2 : db !! alice_id = Some alice) by (vm_compute; reflexivity).
  pose proof (shared_secret_confuses_kinds shared_env t0 alice_id db alice
                eq_refl H2 eq_refl) as Hthm.
  split; [reflexivity |]. split; [exact H2 |]. split; [reflexivity |].
  split; [exact Hthm |].
  destruct Hthm as (db' & accessToken & refreshToken & Hgen & Hpass).
  assert (Hnow : 90000 < clock t0 + REFRESH_TOKEN_EXPIRY shared_env)
    by (vm_compute; reflexivity).
  destruct (Hpass 90000 Hnow) as (Hcookie & Hheader & _).
  rewrite Hgen.
  rewrite (generateToken_found shared_env t0 alice_id db alice H2) in Hgen.
  injection Hgen as <- <- <-.
  split; [exact (Hcookie None) | exact (Hheader None eq_refl)].
Defined.

Lemma login_deactivated_before_password_witness :
  "bob@example.com" ≠ ""
  ∧ Js.trim "not his password" ≠ ""
  ∧ Js.trim "bob@example.com" ≠ ""
  ∧ prisma.findFirstWhere (email_or_name "bob@example.com") db
    = (db, Returned (Some (bob_id, bob)))
  ∧ is_Some (User.deletedAt bob)
  ∧ login env t0 {| body_data := Str "bob@example.com";
                    body_password := Str "not his password" |} db
    = (db, Returned (reject 403
             "This account has been deactivated. Please contact support.")).
Proof.
  assert (H1 : "bob@example.com" ≠ "") by discriminate.
  assert (H2 : Js.trim "not his password" ≠ "") by (vm_compute; discriminate).
  assert (H3 : Js.trim "bob@example.com" ≠ "") by (vm_compute; discriminate).
  assert (H4 : prisma.findFirstWhere (email_or_name "bob@example.com") db
               = (db, Returned (Some (bob_id, bob)))) by (vm_compute; reflexivity).
  assert (H5 : is_Some (User.deletedAt bob)) by (exists 500; reflexivity).
  repeat (split; [assumption |]).
  exact (login_deactivated_before_password env t0 "bob@example.com" "not his password"
           db bob_id bob H1 H2 H3 H4 H5).
Defined.

Lemma login_unknown_like_wrong_password_witness :
  "alice doe" ≠ ""
  ∧ Js.trim "guess" ≠ ""
  ∧ Js.trim "alice doe" ≠ ""
  ∧ prisma.findFirstWhere (email_or_name "alice doe") db
    = (db, Returned (Some (alice_id, alice)))
  ∧ (∀ id u, Some (alice_id, alice) = Some (id, u) →
       User.deletedAt u = None
       ∧ bcrypt.compare (Literal "guess") (User.password u) = false)
  ∧ login env t0 {| body_data := Str "alice doe"; body_password := Str "guess" |} db
    = (db, Returned (reject 401 "Invalid username or password")).
Proof.
  assert (H1 : "alice doe" ≠ "") by discriminate.
  assert (H2 : Js.trim "guess" ≠ "") by (vm_compute; discriminate).
  assert (H3 : Js.trim "alice doe" ≠ "") by (vm_compute; discriminate).
  assert (H4 : prisma.findFirstWhere (email_or_name "alice doe") db
               = (db, Returned (Some (alice_id, alice)))) by (vm_compute; reflexivity).
  assert (H5 : ∀ id u, Some (alice_id, alice) = Some (id, u) →
            User.deletedAt u = None
            ∧ bcrypt.compare (Literal "guess") (User.password u) = false)
    by (intros id u [= <- <-]; split; reflexivity).
  repeat (split; [assumption |]).
  exact (login_unknown_like_wrong_password env t0 "alice doe" "guess" db
           (Some (alice_id, alice)) H1 H2 H3 H4 H5).
Defined.

Lemma login_validation_keeps_status_200_witness :
  (value_truthy (Str "alice doe") = false
   ∨ (∃ p, Str "   " = Str p ∧ Js.trim p = "")
   ∨ (∃ p d, Str "   " = Str p ∧ Str "alice doe" = Str d ∧ Js.trim d = ""))
  ∧ ∃ message,
      login env t0 {| body_data := Str "alice doe"; body_password := Str "   " |} db
        = (db, Returned {| status := 200; cookies := []; clearedCookies := [];
                           json := ApiError 400 message |}).
Proof.
  assert (H1 : value_truthy (Str "alice doe") = false
               ∨ (∃ p, Str "   " = Str p ∧ Js.trim p = "")
               ∨ (∃ p d, @Str string "   " = Str p ∧ Str "alice doe" = Str d
                         ∧ Js.trim d = ""))
    by (right; left; exists "   "; split; reflexivity).
  split; [exact H1 |].
  exact (login_validation_keeps_status_200 env t0 (Str "alice doe") (Str "   ") db H1).
Defined.

Lemma login_password_not_a_string_witness :
  value_truthy (Str "alice doe") = true
  ∧ (∀ p, @Undefined string ≠ Str p)
  ∧ login env t0 {| body_data := Str "alice doe"; body_password := Undefined |} db
    = (db, Returned (reject 500 "Internal server error")).
Proof.
  assert (H2 : ∀ p, @Undefined string ≠ Str p) by (intros p; discriminate).
  split; [reflexivity |]. split; [exact H2 |].
  exact (login_password_not_a_string env t0 (Str "alice doe") Undefined db eq_refl H2).
Defined.

Lemma logout_without_subject_witness :
  (∀ me, @None AuthUser.t = Some me → db !! AuthUser.id me = None)
  ∧ logout env None db = (db, Returned (reject 500 "internal server error")).
Proof.
  assert (H1 : ∀ me, @None AuthUser.t = Some me → db !! AuthUser.id me = None)
    by (intros me; discriminate).
  split; [exact H1 |].
  exact (logout_without_subject env None db H1).
Defined.

Lemma logout_ends_refresh_witness :
  db !! AuthUser.id alice_user = Some alice
  ∧ ∃ db' u',
      logout env (Some alice_user) db = (db', Returned (logout_ok env))
      ∧ db' !! AuthUser.id alice_user = Some u'
      ∧ User.refreshToken u' = Some (Literal "")
      ∧ User.tokenVersion u' = User.tokenVersion alice + 1
      ∧ (∀ j, j ≠ AuthUser.id alice_user → db' !! j = db !! j)
      ∧ ∀ w req v exp,
          let tok := Jws (REFRESH_TOKEN_SECRET env)
                         (ClaimsObject (Payload.mk (Str (AuthUser.id alice_user)) (Num v)))
                         exp in
          incomingRefreshToken req = Str tok →
          refreshAccessToken env w req db' =
            (db', Returned (reject 401
               (if bool_decide (jwt.verify (clock w) tok (REFRESH_TOKEN_SECRET env)
                                = jwt.TokenExpiredError)
                then "Invalid or expired refresh token"
                else "Refresh token has been revoked"))).
Proof.
  assert (H1 : db !! AuthUser.id alice_user = Some alice) by (vm_compute; reflexivity).
  split; [exact H1 |].
  exact (logout_ends_refresh env alice_user db alice H1).
Defined.

Lemma refresh_checks_payload_shape_witness :
  incomingRefreshToken (refresh_with shapeless_refresh) = Str shapeless_refresh
  ∧ jwt.verify (clock t1) shapeless_refresh (REFRESH_TOKEN_SECRET env)
    = jwt.Decoded (ClaimsObject (Payload.mk (Str alice_id) Undefined))
  ∧ (∀ userId v, ClaimsObject (Payload.mk (Str alice_id) Undefined)
                 ≠ ClaimsObject (Payload.mk (Str userId) (Num v)))
  ∧ refreshAccessToken env t1 (refresh_with shapeless_refresh) db
    = (db, Returned (reject 401 "Invalid token payload")).
Proof.
  assert (H3 : ∀ userId v, ClaimsObject (Payload.mk (Str alice_id) Undefined)
                           ≠ ClaimsObject (Payload.mk (Str userId) (Num v)))
    by (intros userId v; discriminate).
  split; [reflexivity |]. split; [reflexivity |]. split; [exact H3 |].
  exact (refresh_checks_payload_shape env t1 (refresh_with shapeless_refresh) db
           shapeless_refresh _ eq_refl eq_refl H3).
Defined.

Lemma softDeleteUser_once_witness :
  softDeleteUser isValidUUID 1030 alice_id (Some carol_user) staff_db
    = (<[alice_id := User.with_deletedAt (Some 1030) alice]> staff_db,
       Returned alice_deleted)
  ∧ status alice_deleted = 200
  ∧ (∃ u u', staff_db !! alice_id = Some u
             ∧ (<[alice_id := User.with_deletedAt (Some 1030) alice]> staff_db)
                 !! alice_id = Some u'
             ∧ User.deletedAt u' = Some 1030
             ∧ User.tokenVersion u' = User.tokenVersion u
             ∧ User.refreshToken u' = User.refreshToken u)
  ∧ ∃ message,
      softDeleteUser isValidUUID 2000 alice_id (Some carol_user)
        (<[alice_id := User.with_deletedAt (Some 1030) alice]> staff_db)
        = (<[alice_id := User.with_deletedAt (Some 1030) alice]> staff_db,
           Returned (reject 400 message)).
Proof.
  assert (H1 : softDeleteUser isValidUUID 1030 alice_id (Some carol_user) staff_db
            = (<[alice_id := User.with_deletedAt (Some 1030) alice]> staff_db,
               Returned alice_deleted)) by (vm_compute; reflexivity).
  split; [exact H1 |]. split; [reflexivity |].
  exact (softDeleteUser_once isValidUUID 1030 alice_id (Some carol_user) staff_db _ _
           2000 (Some carol_user) H1 eq_refl).
Defined.

Lemma softDeleteUser_blocks_login_witness :
  softDeleteUser isValidUUID 1030 alice_id (Some carol_user) staff_db
    = (<[alice_id := User.with_deletedAt (Some 1030) alice]> staff_db,
       Returned alice_deleted)
  ∧ status alice_deleted = 200
  ∧ "Alice@Example.com" ≠ ""
  ∧ Js.trim "Passw0rd!" ≠ ""
  ∧ Js.trim "Alice@Example.com" ≠ ""
  ∧ prisma.findFirstWhere (email_or_name "Alice@Example.com")
      (<[alice_id := User.with_deletedAt (Some 1030) alice]> staff_db)
    = (<[alice_id := User.with_deletedAt (Some 1030) alice]> staff_db,
       Returned (Some (alice_id, User.with_deletedAt (Some 1030) alice)))
  ∧ login env t1 credentials
      (<[alice_id := User.with_deletedAt (Some 1030) alice]> staff_db)
    = (<[alice_id := User.with_deletedAt (Some 1030) alice]> staff_db,
       Returned (reject 403
                   "This account has been deactivated. Please contact support.")).
Proof.
  assert (H1 : softDeleteUser isValidUUID 1030 alice_id (Some carol_user) staff_db
            = (<[alice_id := User.with_deletedAt (Some 1030) alice]> staff_db,
               Returned alice_deleted)) by (vm_compute; reflexivity).
  assert (H3 : "Alice@Example.com" ≠ "") by discriminate.
  assert (H4 : Js.trim "Passw0rd!" ≠ "") by (vm_compute; discriminate).
  assert (H5 : Js.trim "Alice@Example.com" ≠ "") by (vm_compute; discriminate).
  assert (H6 : prisma.findFirstWhere (email_or_name "Alice@Example.com")
                 (<[alice_id := User.with_deletedAt (Some 1030) alice]> staff_db)
               = (<[alice_id := User.with_deletedAt (Some 1030) alice]> staff_db,
                  Returned (Some (alice_id, User.with_deletedAt (Some 1030) alice))))
    by (vm_compute; reflexivity).
  split; [exact H1 |]. split; [reflexivity |].
  repeat (split; [assumption |]).
  exact (softDeleteUser_blocks_login env isValidUUID 1030 alice_id (Some carol_user)
           staff_db _ _ t1 "Alice@Example.com" "Passw0rd!" _ H1 eq_refl H3 H4 H5 H6).
Defined.

Lemma log_then_delete_restores_witness :
  let text := nbsp ++ " sore throat " ++ line_separator in
  patient_of (Some alice_user) = Some "patient-1"
  ∧ Js.trim text ≠ ""
  ∧ symptoms !! symptom_1 = None
  ∧ symptom_1 ≠ ""
  ∧ isValidUUID symptom_1 = true
  ∧ ∃ table1,
      logSymptom symptom_1 (Some alice_user) (Str text) symptoms
        = (table1, Served 201 (symptom_1, Symptom.mk "sore throat" "patient-1")
                     "Symptom logged successfully")
      ∧ table1 !! symptom_1 = Some (Symptom.mk "sore throat" "patient-1")
      ∧ deleteSymptom isValidUUID (Some alice_user) symptom_1 table1
        = (symptoms, Served 200 () "Symptom deleted successfully").
Proof.
  intros text.
  assert (H2 : Js.trim text ≠ "") by (vm_compute; discriminate).
  assert (H3 : symptoms !! symptom_1 = None) by (vm_compute; reflexivity).
  assert (H4 : symptom_1 ≠ "") by discriminate.
  assert (H5 : isValidUUID symptom_1 = true) by (vm_compute; reflexivity).
  split; [reflexivity |]. repeat (split; [assumption |]).
  exact (log_then_delete_restores isValidUUID symptom_1 (Some alice_user) "patient-1"
           text symptoms eq_refl H2 H3 H4 H5).
Defined.

Lemma logSymptom_refuses_blank_witness :
  let blank := " " ++ nbsp ++ line_separator in
  patient_of (Some alice_user) = Some "patient-1"
  ∧ (∀ text, Num 7 = Str text → Js.trim text = "")
  ∧ (∀ text, Str blank = Str text → Js.trim text = "")
  ∧ logSymptom symptom_1 (Some alice_user) (Num 7) symptoms
    = (symptoms,
       Refused 400 "Symptom text is required and must be a non-empty string")
  ∧ logSymptom symptom_1 (Some alice_user) (Str blank) symptoms
    = (symptoms,
       Refused 400 "Symptom text is required and must be a non-empty string").
Proof.
  intros blank.
  assert (H2 : ∀ text, @Num string 7 = Str text → Js.trim text = "")
    by (intros text; discriminate).
  assert (H3 : ∀ text, Str blank = Str text → Js.trim text = "")
    by (intros text [= <-]; vm_compute; reflexivity).
  split; [reflexivity |]. split; [exact H2 |]. split; [exact H3 |]. split.
  - exact (logSymptom_refuses_blank symptom_1 (Some alice_user) "patient-1" (Num 7)
             symptoms eq_refl H2).
  - exact (logSymptom_refuses_blank symptom_1 (Some alice_user) "patient-1" (Str blank)
             symptoms eq_refl H3).
Defined.


Lemma other_patients_rows_untouched_witness :
  patient_of (Some alice_user) ≠ Some "patient-2"
  ∧ ∀ id s,
      Symptom.patientId s = "patient-2" →
      ((logSymptom symptom_1 (Some alice_user) (Str "cough") symptoms).1 !! id = Some s
       ↔ symptoms !! id = Some s)
      ∧ ((deleteSymptom isValidUUID (Some alice_user) symptom_2 symptoms).1 !! id = Some s
         ↔ symptoms !! id = Some s).
Proof.
  assert (H1 : patient_of (Some alice_user) ≠ Some "patient-2") by discriminate.
  split; [exact H1 |].
  exact (other_patients_rows_untouched isValidUUID symptom_1 (Some alice_user)
           (Str "cough") symptom_2 "patient-2" symptoms H1).
Defined.

Lemma route_softDeleteUser_spares_requester_witness :
  (isAuthenticated env 1060 (with_header carol_access) staff_db).2
    = Returned (Next carol_user)
  ∧ ∃ u, (route_softDeleteUser env isValidUUID isAdmin 1060 1061
            (with_header carol_access) carol_id staff_db).1
           !! AuthUser.id carol_user = Some u
         ∧ User.deletedAt u = None.
Proof.
  assert (H1 : (isAuthenticated env 1060 (with_header carol_access) staff_db).2
               = Returned (Next carol_user)) by (vm_compute; reflexivity).
  split; [exact H1 |].
  exact (route_softDeleteUser_spares_requester env isValidUUID isAdmin 1060 1061
           (with_header carol_access) carol_id staff_db carol_user H1).
Defined.

Lemma route_softDeleteUser_closed_to_deleted_witness :
  staff_db !! bob_id = Some bob
  ∧ is_Some (User.deletedAt bob)
  ∧ bearer_token (with_cookie bob_access) = Some bob_access
  ∧ jwt.verify 1060 bob_access (ACCESS_TOKEN_SECRET env)
    = jwt.Decoded (ClaimsObject (Payload.mk (Str bob_id) (Num 4)))
  ∧ Payload.userId (Payload.mk (Str bob_id) (Num 4)) = Str bob_id
  ∧ route_softDeleteUser env isValidUUID isAdmin 1060 1061 (with_cookie bob_access)
      alice_id staff_db
    = (staff_db, Returned (reject 401 "Account not found or has been deactivated")).
Proof.
  assert (H1 : staff_db !! bob_id = Some bob) by (vm_compute; reflexivity).
  assert (H2 : is_Some (User.deletedAt bob)) by (exists 500; reflexivity).
  split; [exact H1 |]. split; [exact H2 |].
  split; [reflexivity |]. split; [reflexivity |]. split; [reflexivity |].
  exact (route_softDeleteUser_closed_to_deleted env isValidUUID isAdmin 1060 1061
           (with_cookie bob_access) alice_id staff_db bob_access _ bob_id bob
           H1 H2 eq_refl eq_refl eq_refl).
Defined.

Lemma symptom_routes_act_for_token_subject_witness :
  let db1 := (generateToken env t0 alice_id db).1 in
  let stored := Symptom.mk "sore throat" "patient-1" in
  bearer_token (with_cookie alice_access) = Some alice_access
  ∧ jwt.verify 1060 alice_access (ACCESS_TOKEN_SECRET env)
    = jwt.Decoded (ClaimsObject (Payload.mk (Str alice_id) (Num 1)))
  ∧ db1 !! alice_id = Some (issued_row env t0 alice_id alice)
  ∧ User.deletedAt (issued_row env t0 alice_id alice) = None
  ∧ isPatient (selected alice_id (issued_row env t0 alice_id alice)) = None
  ∧ User.patient (issued_row env t0 alice_id alice) = Some "patient-1"
  ∧ Js.trim "  sore throat " ≠ ""
  ∧ symptoms !! symptom_1 = None
  ∧ route_logSymptom env isPatient 1060 (with_cookie alice_access) db1
      symptom_1 (Str "  sore throat ") symptoms
    = (<[symptom_1 := stored]> symptoms,
       ByHandler (Served 201 (symptom_1, stored) "Symptom logged successfully"))
  ∧ ∃ tok p userId u,
      bearer_token (with_cookie alice_access) = Some tok
      ∧ jwt.verify 1060 tok (ACCESS_TOKEN_SECRET env) = jwt.Decoded (ClaimsObject p)
      ∧ (Payload.userId p = Str userId ∨ Payload.userId p = Undefined)
      ∧ db1 !! userId = Some u
      ∧ User.deletedAt u = None
      ∧ User.patient u = Some (Symptom.patientId stored).
Proof.
  intros db1 stored.
  assert (H3 : db1 !! alice_id = Some (issued_row env t0 alice_id alice))
    by (vm_compute; reflexivity).
  assert (H7 : Js.trim "  sore throat " ≠ "") by (vm_compute; discriminate).
  assert (H8 : symptoms !! symptom_1 = None) by (vm_compute; reflexivity).
  destruct (symptom_routes_act_for_token_subject env isValidUUID isPatient 1060
              (with_cookie alice_access) db1 symptoms) as (Honly & _ & Hacts).
  pose proof (Hacts alice_access (Payload.mk (Str alice_id) (Num 1)) alice_id
                (issued_row env t0 alice_id alice) "patient-1" symptom_1
                "  sore throat " eq_refl eq_refl eq_refl (or_intror eq_refl) H3 eq_refl
                eq_refl eq_refl ltac:(discriminate) H7 H8) as Hstored.
  split_and!; try reflexivity; try done.
  eapply (Honly symptom_1 (Str "  sore throat ") symptom_1 stored).
  rewrite Hstored. reflexivity.
Defined.


Lemma symptom_patterns_count_witness :
  AuthUser.id alice_user ≠ ""
  ∧ let mine := filter (λ c, chat_userId c = AuthUser.id alice_user) chats in
    let causes := mine ≫= probableCauses in
    (∀ c, c ∈ causes → JsObject.inherited (normalized Js.toLowerCase c) = false)
    ∧ ∃ patterns,
        getSymptomPatterns Js.toLowerCase (Some alice_user) chats
          = Some (Served 200 patterns "Symptom patterns retrieved successfully")
        ∧ recentChats patterns ≡ₚ mine
        ∧ Sorted (λ a b, chat_createdAt b ≤ chat_createdAt a) (recentChats patterns)
        ∧ NoDup (commonCauses patterns).*1
        ∧ (∀ k n, (k, n) ∈ commonCauses patterns
                  ↔ n = occurrences Js.toLowerCase k causes ∧ 1 ≤ n)
        ∧ Sorted (λ a b, b.2 ≤ a.2) (commonCauses patterns).
Proof.
  assert (H1 : AuthUser.id alice_user ≠ "") by discriminate.
  assert (H2 : ∀ c, c ∈ filter (λ c, chat_userId c = AuthUser.id alice_user) chats
                        ≫= probableCauses →
                    JsObject.inherited (normalized Js.toLowerCase c) = false).
  { intros c Hc. vm_compute in Hc.
    repeat (apply elem_of_cons in Hc as [-> | Hc]; [vm_compute; reflexivity |]).
    by apply elem_of_nil in Hc. }
  split; [exact H1 |]. split; [exact H2 |].
  exact (symptom_patterns_count Js.toLowerCase alice_user chats H1 H2).
Defined.

Lemma listAllUsers_bounds_witness :
  listAllUsers createdAt (Some " 1") (Some "10 per page") None staff_db
    = Some (Served 200 first_page "Users fetched successfully")
  ∧ 1 ≤ pg_page (pagination first_page)
  ∧ 1 ≤ pg_limit (pagination first_page) ≤ 100
  ∧ Z.of_nat (length (listed_users first_page)) ≤ pg_limit (pagination first_page)
  ∧ NoDup (listed_users first_page)
  ∧ ∀ id u, (id, u) ∈ listed_users first_page →
      staff_db !! id = Some u
      ∧ User.deletedAt u = None
      ∧ ∀ r role, @None string = Some r → valid_role r = Some role → User.role u = role.
Proof.
  assert (H1 : listAllUsers createdAt (Some " 1") (Some "10 per page") None staff_db
               = Some (Served 200 first_page "Users fetched successfully"))
    by (vm_compute; reflexivity).
  split; [exact H1 |].
  exact (listAllUsers_bounds createdAt (Some " 1") (Some "10 per page") None staff_db
           first_page _ H1).
Defined.

Lemma listAllUsers_pagination_witness :
  listAllUsers createdAt (Some " 1") (Some "10 per page") None staff_db
    = Some (Served 200 first_page "Users fetched successfully")
  ∧ let pg := pagination first_page in
    pg_totalCount pg
      = Z.of_nat (length (filter (listed (@None string ≫= valid_role))
                                 (map_to_list staff_db)))
    ∧ (pg_totalPages pg - 1) * pg_limit pg < pg_totalCount pg
                                            ≤ pg_totalPages pg * pg_limit pg
    ∧ (pg_hasNextPage pg = true ↔ pg_page pg * pg_limit pg < pg_totalCount pg)
    ∧ (pg_hasPrevPage pg = true ↔ 1 < pg_page pg)
    ∧ Z.of_nat (length (listed_users first_page))
      = Z.min (pg_limit pg)
              (Z.max 0 (pg_totalCount pg - (pg_page pg - 1) * pg_limit pg)).
Proof.
  assert (H1 : listAllUsers createdAt (Some " 1") (Some "10 per page") None staff_db
               = Some (Served 200 first_page "Users fetched successfully"))
    by (vm_compute; reflexivity).
  split; [exact H1 |].
  exact (listAllUsers_pagination createdAt (Some " 1") (Some "10 per page") None
           staff_db first_page _ H1).
Defined.

Lemma listAllUsers_checks_role_witness :
  "admin" ≠ ""
  ∧ ("admin" ∉ ["PATIENT"; "DOCTOR"; "ADMIN"])
  ∧ listAllUsers createdAt (Some "2") None (Some "admin") staff_db
    = Some (Refused 400 "Invalid role filter. Must be one of: PATIENT, DOCTOR, ADMIN").
Proof.
  assert (H1 : "admin" ≠ "") by discriminate.
  assert (H2 : "admin" ∉ ["PATIENT"; "DOCTOR"; "ADMIN"]).
  { intros Hin. repeat (apply elem_of_cons in Hin as [Heq | Hin]; [discriminate |]).
    by apply elem_of_nil in Hin. }
  split; [exact H1 |]. split; [exact H2 |].
  exact (listAllUsers_checks_role createdAt (Some "2") None "admin" staff_db H1 H2).
Defined.

(** ** More of the scenario, step by step *)

(** Alice's completed visits: twice to one doctor, once to another. *)
Example visits_of_alice :
  getDoctorVisitFrequency (Some alice_user) appointments
  = Served 200
      [ {| stat_doctorId := "doctor-2"; stat_name := "dan moe";
           stat_specialty := "neurology"; visitCount := 2 |};
        {| stat_doctorId := "doctor-1"; stat_name := "bob roe";
           stat_specialty := "cardiology"; visitCount := 1 |} ]
      "Doctor visit frequency retrieved successfully".
Proof. vm_compute. reflexivity. Qed.

(** Her causes, however they were spelled. *)
Example causes_of_alice :
  (λ r, match r with
        | Some (Served _ p _) => commonCauses p
        | _ => []
        end) (getSymptomPatterns Js.toLowerCase (Some alice_user) chats)
  = [("fever", 3); ("migraine", 1)].
Proof. vm_compute. reflexivity. Qed.

(** What [parseInt] makes of a query parameter. *)
Example parseInt_reads_a_prefix :
  JsNumber.parseInt (Some "  42abc") = Some 42
  ∧ JsNumber.parseInt (Some "-7") = Some (-7)
  ∧ JsNumber.parseInt (Some "0x1F") = Some 31
  ∧ JsNumber.parseInt (Some "abc") = None
  ∧ JsNumber.parseInt (Some "") = None
  ∧ JsNumber.parseInt None = None
  ∧ JsNumber.parseInt (Some (nbsp ++ "2")) = Some 2.
Proof. repeat split; reflexivity. Qed.

(** White space beyond ASCII is trimmed too, at both ends only. *)
Example trim_strips_unicode_white_space :
  Js.trim (nbsp ++ " sore throat" ++ line_separator ++ nbsp) = "sore throat"
  ∧ Js.trim (nbsp ++ nbsp) = ""
  ∧ Js.trim ("sore" ++ nbsp ++ "throat") = "sore" ++ nbsp ++ "throat".
Proof. repeat split; vm_compute; reflexivity. Qed.

(** Two pass phrases that differ after their 72nd byte are one to bcrypt;
    a difference before it is seen, a shorter password included. *)
Example bcrypt_reads_72_bytes :
  String.length pass_phrase = 72%nat
  ∧ bcrypt.compare (Literal (pass_phrase ++ "e")) (bcrypt.hash 7 (Literal pass_phrase))
    = true
  ∧ bcrypt.compare (Literal "Passw0rd") (bcrypt.hash 7 (Literal "Passw0rd!")) = false
  ∧ bcrypt.compare (Literal "Passw0rd!Passw0rd!") (bcrypt.hash 7 (Literal "Passw0rd!"))
    = false.
Proof. repeat split; vm_compute; reflexivity. Qed.

(** Keys that are array indices come first, in numeric order. *)
Example entries_order :
  JsObject.entries [("b", 1); ("10", 2); ("a", 3); ("9", 4); ("07", 5)]
  = [("9", 4); ("10", 2); ("b", 1); ("a", 3); ("07", 5)].
Proof. vm_compute. reflexivity. Qed.
